(** * BC7215 driver: a shallow embedding of [src/src/bc7215.cpp]

    The driver class [BC7215] is embedded as a record holding every member
    variable of the class, the function-local [static previousData] of
    [processData], and the part of the outside world the code touches: the
    two ends of the serial stream and the levels [digitalRead] returns for
    the MOD and BUSY pins.  Member functions become functions on that
    record.

    Integers are [Z].  With the shipped configuration
    ([BC7215_MAX_RX_DATA_SIZE = 48], [ENABLE_FORMAT = 1]) the buffer has
    84 entries, so the position and count members are [uint8_t]; their
    wrap-around is written out where the code increments them.  The width
    of [int] differs between the boards the library is used on: 32 bits on
    the ESP8266 and ESP32, 16 bits on the AVR boards (UNO, Leonardo), where
    [(bitLen + 7) / 8] on a [uint16_t] wraps; the record says which board
    the driver runs on, and [bytesFor] writes the difference out.

    [previousData], the [static] local of [processData], is one variable for
    every [BC7215] object of a program.  The record holds its value as this
    driver finds it; a step of the transition system lets another driver
    overwrite it. *)

From Stdlib Require Import ZArith List Bool Lia.
From stdpp Require Import base option list.
Import ListNotations.

Local Open Scope Z_scope.

(** ** Configuration (bc7215_config.h, bc7215.h) *)

Definition BC7215_MAX_RX_DATA_SIZE : Z := 48.

(** [ENABLE_FORMAT == 1]: room for one data packet and one format packet. *)
Definition BC7215_BUFFER_SIZE : Z := (BC7215_MAX_RX_DATA_SIZE + 3) + (32 + 1).

(** [sizeof(bc7215FormatPkt_t)]: one signature byte and [format[32]]. *)
Definition sizeof_bc7215FormatPkt_t : Z := 33.

(** [enum MODConnect {MOD_HIGH=-1, MOD_LOW=-2}], [enum BUSYConnect {BUSY_NC=-3}] *)
Definition MOD_HIGH : Z := -1.
Definition MOD_LOW : Z := -2.
Definition BUSY_NC : Z := -3.

(** Pin levels: [HIGH] is [true], [LOW] is [false]. *)
Definition HIGH : bool := true.
Definition LOW : bool := false.

(** ** Driver state *)

(** The anonymous bit-field struct [bc7215Status]. *)
Record Status := mkStatus {
  formatPktReady : bool;
  dataPktReady : bool;
  pktStarted : bool;
  overLap : bool;
  cmdComplete : bool
}.

Record BC7215 := mkBC7215 {
  uart_rx : list Z;          (* bytes (0..255) [uart.read()] will return, oldest first *)
  uart_tx : list Z;          (* bytes handed to [uart.write], oldest first *)
  modPin : Z;
  busyPin : Z;
  modLevel : bool;           (* what [digitalRead(modPin)] returns *)
  busyLevel : bool;          (* what [digitalRead(busyPin)] returns *)
  bc7215Status : Status;
  bitLen : Z;
  circularBuffer : list Z;
  startPos : Z;
  datStartPos : Z;
  lastWritingPos : Z;
  datEndPos : Z;
  byteCount : Z;
  datCount : Z;
  previousData : Z;          (* [static uint8_t previousData] of [processData],
                                shared by every driver of the program *)
  int16 : bool               (* [int] has 16 bits on this board, not 32 *)
}.

(** *** Field updates *)

Definition set_uart_rx (v : list Z) (s : BC7215) : BC7215 :=
  mkBC7215 v (uart_tx s) (modPin s) (busyPin s) (modLevel s) (busyLevel s)
    (bc7215Status s) (bitLen s) (circularBuffer s) (startPos s) (datStartPos s)
    (lastWritingPos s) (datEndPos s) (byteCount s) (datCount s) (previousData s) (int16 s).

Definition set_uart_tx (v : list Z) (s : BC7215) : BC7215 :=
  mkBC7215 (uart_rx s) v (modPin s) (busyPin s) (modLevel s) (busyLevel s)
    (bc7215Status s) (bitLen s) (circularBuffer s) (startPos s) (datStartPos s)
    (lastWritingPos s) (datEndPos s) (byteCount s) (datCount s) (previousData s) (int16 s).

Definition set_modLevel (v : bool) (s : BC7215) : BC7215 :=
  mkBC7215 (uart_rx s) (uart_tx s) (modPin s) (busyPin s) v (busyLevel s)
    (bc7215Status s) (bitLen s) (circularBuffer s) (startPos s) (datStartPos s)
    (lastWritingPos s) (datEndPos s) (byteCount s) (datCount s) (previousData s) (int16 s).

Definition set_busyLevel (v : bool) (s : BC7215) : BC7215 :=
  mkBC7215 (uart_rx s) (uart_tx s) (modPin s) (busyPin s) (modLevel s) v
    (bc7215Status s) (bitLen s) (circularBuffer s) (startPos s) (datStartPos s)
    (lastWritingPos s) (datEndPos s) (byteCount s) (datCount s) (previousData s) (int16 s).

Definition set_bc7215Status (v : Status) (s : BC7215) : BC7215 :=
  mkBC7215 (uart_rx s) (uart_tx s) (modPin s) (busyPin s) (modLevel s) (busyLevel s)
    v (bitLen s) (circularBuffer s) (startPos s) (datStartPos s)
    (lastWritingPos s) (datEndPos s) (byteCount s) (datCount s) (previousData s) (int16 s).

Definition set_bitLen (v : Z) (s : BC7215) : BC7215 :=
  mkBC7215 (uart_rx s) (uart_tx s) (modPin s) (busyPin s) (modLevel s) (busyLevel s)
    (bc7215Status s) v (circularBuffer s) (startPos s) (datStartPos s)
    (lastWritingPos s) (datEndPos s) (byteCount s) (datCount s) (previousData s) (int16 s).

Definition set_circularBuffer (v : list Z) (s : BC7215) : BC7215 :=
  mkBC7215 (uart_rx s) (uart_tx s) (modPin s) (busyPin s) (modLevel s) (busyLevel s)
    (bc7215Status s) (bitLen s) v (startPos s) (datStartPos s)
    (lastWritingPos s) (datEndPos s) (byteCount s) (datCount s) (previousData s) (int16 s).

Definition set_startPos (v : Z) (s : BC7215) : BC7215 :=
  mkBC7215 (uart_rx s) (uart_tx s) (modPin s) (busyPin s) (modLevel s) (busyLevel s)
    (bc7215Status s) (bitLen s) (circularBuffer s) v (datStartPos s)
    (lastWritingPos s) (datEndPos s) (byteCount s) (datCount s) (previousData s) (int16 s).

Definition set_datStartPos (v : Z) (s : BC7215) : BC7215 :=
  mkBC7215 (uart_rx s) (uart_tx s) (modPin s) (busyPin s) (modLevel s) (busyLevel s)
    (bc7215Status s) (bitLen s) (circularBuffer s) (startPos s) v
    (lastWritingPos s) (datEndPos s) (byteCount s) (datCount s) (previousData s) (int16 s).

Definition set_lastWritingPos (v : Z) (s : BC7215) : BC7215 :=
  mkBC7215 (uart_rx s) (uart_tx s) (modPin s) (busyPin s) (modLevel s) (busyLevel s)
    (bc7215Status s) (bitLen s) (circularBuffer s) (startPos s) (datStartPos s)
    v (datEndPos s) (byteCount s) (datCount s) (previousData s) (int16 s).

Definition set_datEndPos (v : Z) (s : BC7215) : BC7215 :=
  mkBC7215 (uart_rx s) (uart_tx s) (modPin s) (busyPin s) (modLevel s) (busyLevel s)
    (bc7215Status s) (bitLen s) (circularBuffer s) (startPos s) (datStartPos s)
    (lastWritingPos s) v (byteCount s) (datCount s) (previousData s) (int16 s).

Definition set_byteCount (v : Z) (s : BC7215) : BC7215 :=
  mkBC7215 (uart_rx s) (uart_tx s) (modPin s) (busyPin s) (modLevel s) (busyLevel s)
    (bc7215Status s) (bitLen s) (circularBuffer s) (startPos s) (datStartPos s)
    (lastWritingPos s) (datEndPos s) v (datCount s) (previousData s) (int16 s).

Definition set_datCount (v : Z) (s : BC7215) : BC7215 :=
  mkBC7215 (uart_rx s) (uart_tx s) (modPin s) (busyPin s) (modLevel s) (busyLevel s)
    (bc7215Status s) (bitLen s) (circularBuffer s) (startPos s) (datStartPos s)
    (lastWritingPos s) (datEndPos s) (byteCount s) v (previousData s) (int16 s).

Definition set_previousData (v : Z) (s : BC7215) : BC7215 :=
  mkBC7215 (uart_rx s) (uart_tx s) (modPin s) (busyPin s) (modLevel s) (busyLevel s)
    (bc7215Status s) (bitLen s) (circularBuffer s) (startPos s) (datStartPos s)
    (lastWritingPos s) (datEndPos s) (byteCount s) (datCount s) v (int16 s).

Definition set_formatPktReady (v : bool) (s : BC7215) : BC7215 :=
  let f := bc7215Status s in
  set_bc7215Status
    (mkStatus v (dataPktReady f) (pktStarted f) (overLap f) (cmdComplete f)) s.

Definition set_dataPktReady (v : bool) (s : BC7215) : BC7215 :=
  let f := bc7215Status s in
  set_bc7215Status
    (mkStatus (formatPktReady f) v (pktStarted f) (overLap f) (cmdComplete f)) s.

Definition set_pktStarted (v : bool) (s : BC7215) : BC7215 :=
  let f := bc7215Status s in
  set_bc7215Status
    (mkStatus (formatPktReady f) (dataPktReady f) v (overLap f) (cmdComplete f)) s.

Definition set_overLap (v : bool) (s : BC7215) : BC7215 :=
  let f := bc7215Status s in
  set_bc7215Status
    (mkStatus (formatPktReady f) (dataPktReady f) (pktStarted f) v (cmdComplete f)) s.

Definition set_cmdComplete (v : bool) (s : BC7215) : BC7215 :=
  let f := bc7215Status s in
  set_bc7215Status
    (mkStatus (formatPktReady f) (dataPktReady f) (pktStarted f) (overLap f) v) s.

(** Shorthands for the five flags of a driver. *)
Definition fFormat (s : BC7215) : bool := formatPktReady (bc7215Status s).
Definition fData (s : BC7215) : bool := dataPktReady (bc7215Status s).
Definition fStarted (s : BC7215) : bool := pktStarted (bc7215Status s).
Definition fOverLap (s : BC7215) : bool := overLap (bc7215Status s).
Definition fComplete (s : BC7215) : bool := cmdComplete (bc7215Status s).

(** ** Construction

    The constructors initialise [uart], [modPin] and [busyPin] only; the
    examples declare the driver at namespace scope, where every other member
    starts zeroed.  The constructors taking a MOD pin number drive it
    [HIGH].  The static [previousData] is not the constructor's: it holds 0
    when the program starts and whatever the drivers constructed before
    this one have left there since. *)
Definition initOn (int16 : bool) (previousData : Z) (ModPin BusyPin : Z) (busy : bool)
    : BC7215 :=
  mkBC7215 [] [] ModPin BusyPin HIGH busy
    (mkStatus false false false false false)
    0 (repeat 0 (Z.to_nat BC7215_BUFFER_SIZE)) 0 0 0 0 0 0 previousData int16.

(** The first driver of a program on a board with 32-bit [int]. *)
Definition init (ModPin BusyPin : Z) (busy : bool) : BC7215 :=
  initOn false 0 ModPin BusyPin busy.

(** ** Circular buffer reads *)

(** [circularBuffer[i]].  An index outside the array is undefined behaviour
    in the source, where it reads whatever lies next to the array; the
    embedding reads 0 there, which stands for no value of the program.
    [processData], [getData] and [getFormat] stay inside the array in every
    reachable state; [getRaw] does not, and what is stated about the bytes
    it copies is stated for reads inside the array only. *)
Definition buf_at (buf : list Z) (i : Z) : Z :=
  if (0 <=? i) && (i <? BC7215_BUFFER_SIZE) then default 0 (buf !! Z.to_nat i) else 0.

(** The two readers are member functions whose only access to the object is
    [circularBuffer], which they take here as their first argument. *)
Definition bufBackRead (circularBuffer : list Z) (pos n : Z) : Z :=
  if pos >=? n then buf_at circularBuffer (pos - n)
  else buf_at circularBuffer (BC7215_BUFFER_SIZE + pos - n).

Definition bufRead (circularBuffer : list Z) (pos n : Z) : Z :=
  if pos + n >=? BC7215_BUFFER_SIZE
  then buf_at circularBuffer (pos + n - BC7215_BUFFER_SIZE)
  else buf_at circularBuffer (pos + n).

(** ** Chip mode

    The test [(modPin == -2) || ((modPin >= 0) && (digitalRead(modPin) == LOW))]
    that [setShutDown], [isBusy], [loadFormat], [irTx], [sendRaw] and
    [processData] all start with: MOD is low, the chip is in transmit mode. *)
Definition modIsLow (s : BC7215) : bool :=
  (modPin s =? -2) || ((modPin s >=? 0) && eqb (modLevel s) LOW).

(** The test of [setRxMode]: MOD is high. *)
Definition modIsHigh (s : BC7215) : bool :=
  (modPin s =? -1) || ((modPin s >=? 0) && eqb (modLevel s) HIGH).

(** [uint8_t] wrap-around. *)
Definition u8 (x : Z) : Z := x mod 256.

(** [(bits + 7) / 8] for a [uint16_t] [bits], as [processData], [dpketSize],
    [getRaw] and the wrapper compute it.  With 32-bit [int] the operand is
    promoted to [int] and the sum is exact.  With 16-bit [int] a [uint16_t]
    is an [unsigned int], the sum is taken modulo 65536 and wraps for
    [bits] from 0xFFF9 to 0xFFFF. *)
Definition bytesFor (int16 : bool) (bits : Z) : Z :=
  if int16 && (0xFFF9 <=? bits) && (bits <=? 0xFFFF)
  then (bits + 7 - 0x10000) / 8
  else (bits + 7) / 8.

(** ** processData *)

Definition processData (data : Z) (s : BC7215) : BC7215 :=
  if modIsLow s then
    (* MOD=LOW means bc7215 is in transmit mode *)
    if data =? 0x7a then set_cmdComplete true s else s
  else
    (* bc7215 is in receive mode *)
    if data =? 0x7a then
      let s :=
        if negb (fOverLap s) then
          if previousData s =? 0x7a then
            (* 0x7a 0x7a is the mark of format packet *)
            let s := set_dataPktReady false s in
            let s :=
              if byteCount s =? sizeof_bc7215FormatPkt_t
              then set_formatPktReady true s else s in
            if (byteCount s + datCount s <=? BC7215_BUFFER_SIZE)
               && (Z.land (bufBackRead (circularBuffer s) (datEndPos s) 2) 0x80 =? 0)
            then
              let s :=
                set_bitLen (Z.lor (Z.shiftl (bufBackRead (circularBuffer s) (datEndPos s) 0) 8)
                                  (bufBackRead (circularBuffer s) (datEndPos s) 1)) s in
              set_dataPktReady true s
            else s
          else
            (* this is the first 0x7a received *)
            if Z.land (bufBackRead (circularBuffer s) (lastWritingPos s) 2) 0x80 =? 0 then
              let temp16 :=
                Z.lor (Z.shiftl (bufBackRead (circularBuffer s) (lastWritingPos s) 0) 8)
                      (bufBackRead (circularBuffer s) (lastWritingPos s) 1) in
              if bytesFor (int16 s) temp16 + 3 =? byteCount s then
                let s := set_bitLen temp16 s in
                let s := set_dataPktReady true s in
                let s := set_datStartPos (startPos s) s in
                let s := set_datEndPos (lastWritingPos s) s in
                set_datCount (byteCount s) s
              else s
            else s
        else s in
      let s := set_previousData 0x7a s in
      set_pktStarted false s
    else
      (* incoming data is not 0x7a *)
      let s :=
        if negb (fStarted s) then
          (* start of a new packet *)
          let s := set_pktStarted true s in
          let s := set_overLap false s in
          let s := set_byteCount 0 s in
          let s := set_bitLen 0 s in
          let s := set_dataPktReady false s in
          let s := set_formatPktReady false s in
          let s := set_startPos (u8 (lastWritingPos s + 1)) s in
          if startPos s >=? BC7215_BUFFER_SIZE then set_startPos 0 s else s
        else s in
      if data =? 0x7b then
        (* byte-destuffing, ignore 0x7b *)
        set_previousData 0x7b s
      else
        let temp := data in
        let data := if previousData s =? 0x7b then Z.land data 0x7f else data in
        let s := set_previousData temp s in
        (* save data to buffer *)
        let s := set_lastWritingPos (u8 (lastWritingPos s + 1)) s in
        let s :=
          if lastWritingPos s >=? BC7215_BUFFER_SIZE
          then set_lastWritingPos 0 s else s in
        let s :=
          set_circularBuffer
            (<[Z.to_nat (lastWritingPos s) := data]> (circularBuffer s)) s in
        let s := set_byteCount (u8 (byteCount s + 1)) s in
        if byteCount s >? BC7215_BUFFER_SIZE then set_overLap true s else s.

(** ** statusUpdate

    [while (uart.available() > 0) processData(uart.read());] — the loop runs
    once per pending byte; nothing arrives while it runs. *)
Fixpoint drain (pending : list Z) (s : BC7215) : BC7215 :=
  match pending with
  | [] => s
  | data :: rest => drain rest (processData data (set_uart_rx rest s))
  end.

Definition statusUpdate (s : BC7215) : BC7215 := drain (uart_rx s) s.

(** Bytes handed to [processData] one after the other. *)
Definition feed (bytes : list Z) (s : BC7215) : BC7215 :=
  fold_left (fun st b => processData b st) bytes s.

(** ** Mode control (bc7215.cpp, lines 26-68) *)

Definition setTx (s : BC7215) : BC7215 :=
  let s := if modPin s >=? 0 then set_modLevel LOW s else s in
  let s := set_dataPktReady false s in
  let s := set_formatPktReady false s in
  let s := set_pktStarted false s in
  set_cmdComplete true s.

Definition setRx (s : BC7215) : BC7215 :=
  if modPin s >=? 0 then set_modLevel HIGH s else s.

(** [sendOneByte] spins on [digitalRead(busyPin) == HIGH] when BUSY is wired.
    Nothing else runs meanwhile, so a BUSY line that reads [HIGH] keeps the
    call from ever returning: that is [None]. *)
Definition sendOneByte (data : Z) (s : BC7215) : option BC7215 :=
  if negb (busyPin s =? -3) && eqb (busyLevel s) HIGH then None
  else Some (set_uart_tx (uart_tx s ++ [data]) s).

Definition byteStuffingSend (data : Z) (s : BC7215) : option BC7215 :=
  if (data =? 0x7a) || (data =? 0x7b) then
    s ← sendOneByte 0x7b s;
    sendOneByte (Z.lor data 0x80) s
  else
    sendOneByte data s.

Definition setShutDown (s : BC7215) : option BC7215 :=
  s ← (if modIsLow s then
         s ← sendOneByte 0xf7 s;
         sendOneByte 0x00 s
       else Some s);
  Some (set_cmdComplete false s).

Definition setRxMode (mode : Z) (s : BC7215) : option BC7215 :=
  if modIsHigh s then sendOneByte mode s else Some s.

Definition isBusy (s : BC7215) : BC7215 * bool :=
  let s := statusUpdate s in
  (s, if modIsLow s then negb (fComplete s) else fStarted s).

Definition cmdCompleted (s : BC7215) : BC7215 * bool :=
  let s := statusUpdate s in
  (s, fComplete s).

(** ** Reception (lines 73-193) *)

(** [bc7215DataVarPkt_t] / [bc7215DataMaxPkt_t] in the caller's memory. *)
Record DataPkt := mkDataPkt {
  pkt_bitLen : Z;
  pkt_data : list Z
}.

(** [bc7215FormatPkt_t] in the caller's memory. *)
Record FormatPkt := mkFormatPkt {
  signature : Z;
  format : list Z
}.

Definition dataReady (s : BC7215) : BC7215 * bool :=
  let s := statusUpdate s in
  (s, fData s).

Definition clrData (s : BC7215) : BC7215 := set_dataPktReady false s.

Definition getLen (s : BC7215) : BC7215 * Z :=
  let s := statusUpdate s in
  (s, if fData s then bitLen s else 0).

Definition dpketSize (s : BC7215) : BC7215 * Z :=
  let s := statusUpdate s in
  (s, if fData s then bytesFor (int16 s) (bitLen s) + 2 else 0).

(** [for (i = 0; i < n; i++) dst[i] = bufRead(pos, i);] — [bufRead] takes its
    offset as a [uint8_t]; a store past the end of the caller's array is
    undefined in the source and dropped here. *)
Definition copyOut (circularBuffer : list Z) (pos n : Z) (dst : list Z) : list Z :=
  fold_left (fun d i => <[Z.to_nat i := bufRead circularBuffer pos (u8 i)]> d)
            (seqZ 0 n) dst.

Definition getData (target : DataPkt) (s : BC7215) : BC7215 * DataPkt * Z :=
  let s := statusUpdate s in
  let status := 0xff in
  if fData s then
    let status := bufBackRead (circularBuffer s) (datEndPos s) 2 in
    let target := mkDataPkt (bitLen s) (pkt_data target) in
    let target :=
      mkDataPkt (pkt_bitLen target)
                (copyOut (circularBuffer s) (datStartPos s) (datCount s - 3) (pkt_data target)) in
    let s := set_dataPktReady false s in
    (s, target, status)
  else (s, target, status).

Definition getRaw (addr : list Z) (size : Z) (s : BC7215) : BC7215 * list Z * Z :=
  let s := statusUpdate s in
  if fData s then
    let s := set_dataPktReady false s in
    let size :=
      if size >? bytesFor (int16 s) (bitLen s)
      then bytesFor (int16 s) (bitLen s) else size in
    (s, copyOut (circularBuffer s) (datStartPos s) size addr, size)
  else (s, addr, 0).

Definition formatReady (s : BC7215) : BC7215 * bool :=
  let s := statusUpdate s in
  (s, fFormat s).

Definition clrFormat (s : BC7215) : BC7215 := set_formatPktReady false s.

Definition getFormat (target : FormatPkt) (s : BC7215) : BC7215 * FormatPkt * Z :=
  let s := statusUpdate s in
  let sig := 0xff in
  if fFormat s then
    let sig := bufRead (circularBuffer s) (startPos s) 0 in
    let target := mkFormatPkt sig (format target) in
    let target :=
      mkFormatPkt (signature target)
        (fold_left (fun d i => <[Z.to_nat i := bufRead (circularBuffer s) (startPos s) (i + 1)]> d)
                   (seqZ 0 32) (format target)) in
    let s := set_formatPktReady false s in
    (s, target, sig)
  else (s, target, sig).

(** ** Transmission (lines 233-290) *)

(** [for (i = 0; i < n; i++) byteStuffingSend(src[i]);] over the bytes at [src];
    a read past the end of the caller's object is undefined in the source and
    reads 0 here. *)
Definition stuffAll (src : list Z) (n : Z) (s : BC7215) : option BC7215 :=
  fold_left (fun acc i => s ← acc; byteStuffingSend (default 0 (src !! Z.to_nat i)) s)
            (seqZ 0 n) (Some s).

(** The bytes of a format packet as laid out in memory. *)
Definition formatBytes (p : FormatPkt) : list Z := signature p :: format p.

(** The bytes of a data packet as laid out in memory (little-endian [bitLen]). *)
Definition dataBytes (p : DataPkt) : list Z :=
  Z.land (pkt_bitLen p) 0xff :: Z.shiftr (pkt_bitLen p) 8 :: pkt_data p.

Definition loadFormat (source : FormatPkt) (s : BC7215) : option BC7215 :=
  if modIsLow s then
    s ← sendOneByte 0xf6 s;
    s ← sendOneByte 0x01 s;
    stuffAll (formatBytes source) sizeof_bc7215FormatPkt_t s
  else Some s.

Definition irTx (source : DataPkt) (s : BC7215) : option BC7215 :=
  if modIsLow s then
    if (pkt_bitLen source >=? 8) && (pkt_bitLen source <? 0x1000) then
      let s := set_cmdComplete false s in
      s ← sendOneByte 0xf5 s;
      s ← sendOneByte 0x02 s;
      let bytes := 2 + (pkt_bitLen source + 7) / 8 in
      stuffAll (dataBytes source) bytes s
    else Some s
  else Some s.

Definition sendRaw (source : list Z) (size : Z) (s : BC7215) : option BC7215 :=
  if modIsLow s then
    if size <? 0x200 then
      let s := set_cmdComplete false s in
      s ← sendOneByte 0xf5 s;
      s ← sendOneByte 0x02 s;
      s ← byteStuffingSend (Z.land (size * 8) 0xff) s;
      s ← byteStuffingSend (Z.shiftr (size * 8) 8) s;
      stuffAll source size s
    else Some s
  else Some s.

(** ** The driver as a transition system

    One step is a call of a public member function, or something the
    outside world does: a byte reaches the serial port, the chip changes
    the BUSY line, or another [BC7215] object of the program runs
    [processData(data)] in receive mode, which leaves [data] in the static
    [previousData] (lines 539, 560 and 570) and touches nothing else of this
    driver. *)
Inductive Call :=
| CallSetTx
| CallSetRx
| CallSetShutDown
| CallSetRxMode (mode : Z)
| CallIsBusy
| CallDataReady
| CallClrData
| CallGetLen
| CallDpketSize
| CallGetData (target : DataPkt)
| CallGetRaw (addr : list Z) (size : Z)
| CallFormatReady
| CallClrFormat
| CallGetFormat (target : FormatPkt)
| CallLoadFormat (source : FormatPkt)
| CallIrTx (source : DataPkt)
| CallSendRaw (source : list Z) (size : Z)
| CallCmdCompleted
| EnvArrive (b : Z)
| EnvBusy (level : bool)
| EnvOtherDriver (data : Z).

Definition exec (c : Call) (s : BC7215) : option BC7215 :=
  match c with
  | CallSetTx => Some (setTx s)
  | CallSetRx => Some (setRx s)
  | CallSetShutDown => setShutDown s
  | CallSetRxMode mode => setRxMode mode s
  | CallIsBusy => Some (fst (isBusy s))
  | CallDataReady => Some (fst (dataReady s))
  | CallClrData => Some (clrData s)
  | CallGetLen => Some (fst (getLen s))
  | CallDpketSize => Some (fst (dpketSize s))
  | CallGetData target => Some (fst (fst (getData target s)))
  | CallGetRaw addr size => Some (fst (fst (getRaw addr size s)))
  | CallFormatReady => Some (fst (formatReady s))
  | CallClrFormat => Some (clrFormat s)
  | CallGetFormat target => Some (fst (fst (getFormat target s)))
  | CallLoadFormat source => loadFormat source s
  | CallIrTx source => irTx source s
  | CallSendRaw source size => sendRaw source size s
  | CallCmdCompleted => Some (fst (cmdCompleted s))
  | EnvArrive b => Some (set_uart_rx (uart_rx s ++ [b]) s)
  | EnvBusy level => Some (set_busyLevel level s)
  | EnvOtherDriver data => Some (set_previousData data s)
  end.

(** The calls that start with [statusUpdate()]. *)
Definition drains (c : Call) : bool :=
  match c with
  | CallIsBusy | CallDataReady | CallGetLen | CallDpketSize | CallGetData _
  | CallGetRaw _ _ | CallFormatReady | CallGetFormat _ | CallCmdCompleted => true
  | _ => false
  end.

(** States a driver can be in: freshly constructed, on either kind of board
    and with any value in the static, or one step later. *)
Inductive reachable : BC7215 -> Prop :=
| reach_init int16 previousData ModPin BusyPin busy :
    reachable (initOn int16 previousData ModPin BusyPin busy)
| reach_step c s s' : reachable s -> exec c s = Some s' -> reachable s'.

(** ** Notions used in the statements *)

(** A fresh driver with MOD tied high (receive mode) and BUSY not connected. *)
Definition rx0 : BC7215 := init MOD_HIGH BUSY_NC LOW.

(** A fresh driver with MOD tied low (transmit mode) and BUSY not connected. *)
Definition tx0 : BC7215 := init MOD_LOW BUSY_NC LOW.

(** The driver [rx0] on a board with 16-bit [int] (UNO, Leonardo). *)
Definition avr0 : BC7215 := initOn true 0 MOD_HIGH BUSY_NC LOW.

(** A packet without payload: status byte 0 and a bit-length field of
    0xFFF9, low byte first. *)
Definition wrapped_length_packet : list Z := [0x00; 0xF9; 0xFF].

(** A position inside [circularBuffer]. *)
Definition pos_ok (p : Z) : Prop := 0 <= p < BC7215_BUFFER_SIZE.

(** What holds of the receive-side members in every reachable state. *)
Record Inv (s : BC7215) : Prop := mkInv {
  inv_len : length (circularBuffer s) = Z.to_nat BC7215_BUFFER_SIZE;
  inv_lastWritingPos : pos_ok (lastWritingPos s);
  inv_startPos : pos_ok (startPos s);
  inv_datStartPos : pos_ok (datStartPos s);
  inv_datEndPos : pos_ok (datEndPos s);
  inv_byteCount : 0 <= byteCount s < 256;
  inv_datCount : 0 <= datCount s < 256;
  (* a ready flag is only up between a terminator and the next packet *)
  inv_data : fData s = true -> fStarted s = false;
  inv_format :
    fFormat s = true ->
    fStarted s = false /\ byteCount s = sizeof_bc7215FormatPkt_t
}.

(** [s'] differs from [s] at most in the bytes written and in [cmdComplete],
    which such a call may clear but never sets. *)
Definition tx_only (s s' : BC7215) : Prop :=
  exists tx c,
    s' = set_cmdComplete c (set_uart_tx tx s) /\ (c = false \/ c = fComplete s).

(** Where the next byte is stored (bc7215.cpp, lines 573-577). *)
Definition nextPos (lastWritingPos : Z) : Z :=
  if u8 (lastWritingPos + 1) >=? BC7215_BUFFER_SIZE then 0 else u8 (lastWritingPos + 1).

(** The byte count a non-terminator byte finds: 0 if it starts a packet. *)
Definition countSoFar (s : BC7215) : Z := if fStarted s then byteCount s else 0.

(** The number of bytes of [l] that get stored: all but the escape bytes. *)
Fixpoint accumulated (l : list Z) : Z :=
  match l with
  | [] => 0
  | b :: l => (if b =? 0x7b then 0 else 1) + accumulated l
  end.

(** [n] bytes 0x01 followed by two terminators. *)
Definition format_stream (n : nat) : list Z := repeat 0x01 n ++ [0x7a; 0x7a].

(** A driver on a real MOD pin (pin 4) whose current packet overflowed. *)
Definition overflowed : BC7215 := feed (repeat 0x01 85) (init 4 BUSY_NC LOW).

(** The same driver state behind other pins. *)
Definition set_wiring (ModPin BusyPin : Z) (busy : bool) (s : BC7215) : BC7215 :=
  mkBC7215 (uart_rx s) (uart_tx s) ModPin BusyPin (modLevel s) busy
    (bc7215Status s) (bitLen s) (circularBuffer s) (startPos s) (datStartPos s)
    (lastWritingPos s) (datEndPos s) (byteCount s) (datCount s) (previousData s) (int16 s).

(** Scenario B as the specification writes it, bit length first. *)
Definition scenarioB_header_first : list Z := [0x00; 0x02; 0xFF; 0x00; 0x7A].

(** The same packet as the driver reads it: payload, status byte, then the
    bit-length field, low byte first. *)
Definition scenarioB_trailer : list Z := [0xFF; 0x00; 0x02; 0x00; 0x7A].

(** A stream after which the recorded count is stale: 83 bytes that form no
    valid data packet, closed by two terminators.  The format branch of
    [processData] trusts [datCount] and [datEndPos], which no packet has set,
    reads a bit length of 1 out of the bytes just received and raises
    data-ready. *)
Definition stale_stream : list Z := repeat 0x01 83 ++ [0x7a; 0x7a].

(** 84 bytes that fill the buffer once and end in a bit-length field of
    0x0600, closed by two terminators: no data packet was ever accepted, and
    the format branch of [processData] raises data-ready with a bit length
    of 1536 read from the bytes just received. *)
Definition overrun_stream : list Z := repeat 0x01 82 ++ [0x00; 0x06; 0x7a; 0x7a].

(** The same defect in the other direction: a 48-byte data packet is
    accepted, a 51-byte burst of noise and a 33-byte format packet wrap
    around the buffer and overwrite its trailer; the second terminator of the
    format packet raises data-ready again with bit length 0, [dpketSize]
    announces 2 bytes, and [getData] writes 48 bytes into the target. *)
Definition overwritten_stream : list Z :=
  (repeat 0x11 48 ++ [0x00; 0x80; 0x01; 0x7a])
  ++ (repeat 0x01 51 ++ [0x7a])
  ++ (repeat 0x00 33 ++ [0x7a; 0x7a]).

(** ** Static utilities (bc7215.cpp, lines 302-446) *)

(** [BC7215_CRC8_POLY] of bc7215_config.h. *)
Definition BC7215_CRC8_POLY : Z := 0x07.

(** One turn of the inner loop of [crc8]; [crc] is a [uint8_t]. *)
Definition crc8_bit (crc : Z) : Z :=
  if negb (Z.land crc 0x80 =? 0)
  then u8 (Z.lxor (Z.shiftl crc 1) BC7215_CRC8_POLY)
  else u8 (Z.shiftl crc 1).

(** One turn of the outer loop: [crc ^= byte], then eight inner turns. *)
Definition crc8_byte (crc byte : Z) : Z :=
  Nat.iter 8 crc8_bit (Z.lxor crc byte).

(** [crc8(data, len)]; a read past the end of [data] is undefined in the
    source and reads 0 here. *)
Definition crc8 (data : list Z) (len : Z) : Z :=
  fold_left (fun crc i => crc8_byte crc (default 0 (data !! Z.to_nat i)))
            (seqZ 0 len) 0.

Definition calSize (dataPkt : DataPkt) : Z :=
  if pkt_bitLen dataPkt <? 0x1000 then (pkt_bitLen dataPkt + 7) / 8 + 2 else 0.

(** Caller memory for [copyDpkt]: a byte array indexed by address. *)
Definition mem_at (mem : list Z) (a : Z) : Z := default 0 (mem !! Z.to_nat a).

(** The packet a [bc7215DataVarPkt_t*] points at: [bitLen] in the two bytes at
    the address, low byte first, the data behind it. *)
Definition pktAt (mem : list Z) (a : Z) : DataPkt :=
  mkDataPkt (Z.lor (mem_at mem a) (Z.shiftl (mem_at mem (a + 1)) 8))
            (drop (Z.to_nat (a + 2)) mem).

(** [copyDpkt(target, source)] on addresses: front to end when the source
    lies behind the target, end to front when it lies before, nothing when
    they coincide. *)
Definition copyDpkt (target source : Z) (mem : list Z) : list Z :=
  let totalLen := calSize (pktAt mem source) in
  if source >? target then
    fold_left (fun m i => <[Z.to_nat (target + i) := mem_at m (source + i)]> m)
              (seqZ 0 totalLen) mem
  else if source <? target then
    fold_left (fun m i => <[Z.to_nat (target + i - 1) := mem_at m (source + i - 1)]> m)
              (reverse (seqZ 1 totalLen)) mem
  else mem.

(** [pkt->data[i]]. *)
Definition data_at (pkt : DataPkt) (i : Z) : Z := default 0 (pkt_data pkt !! Z.to_nat i).

(** The loop of [compareDpkt] for data sent MSB first: [n] turns comparing
    bit 0 and shifting right. *)
Fixpoint compareLow (n : nat) (dat1 dat2 : Z) : bool :=
  match n with
  | O => true
  | S n =>
      if negb (Z.land dat1 0x01 =? Z.land dat2 0x01) then false
      else compareLow n (Z.shiftr dat1 1) (Z.shiftr dat2 1)
  end.

(** The loop for data sent LSB first: [n] turns comparing bit 7 and shifting
    the [uint8_t] left. *)
Fixpoint compareHigh (n : nat) (dat1 dat2 : Z) : bool :=
  match n with
  | O => true
  | S n =>
      if negb (Z.land dat1 0x80 =? Z.land dat2 0x80) then false
      else compareHigh n (u8 (Z.shiftl dat1 1)) (u8 (Z.shiftl dat2 1))
  end.

Definition compareDpkt (sig : Z) (pkt1 pkt2 : DataPkt) : bool :=
  if negb (pkt_bitLen pkt1 =? pkt_bitLen pkt2) then false
  else
    let len := pkt_bitLen pkt1 / 8 in
    let bits := Z.land (pkt_bitLen pkt1) 0x07 in
    if existsb (fun i16 => negb (data_at pkt1 i16 =? data_at pkt2 i16)) (seqZ 0 len)
    then false
    else if negb (bits =? 0) then
      let dat1 := data_at pkt1 len in
      let dat2 := data_at pkt2 len in
      if dat1 =? dat2 then true
      else if Z.land sig 0x30 =? 0x30
           then compareLow (Z.to_nat bits) dat1 dat2
           else compareHigh (Z.to_nat bits) dat1 dat2
    else true.

(** ** Signature flags (bc7215.cpp, lines 302-320)

    [signature.bits] packs [sig : 6], [c56k : 1], [noCA : 1] into one byte,
    first member in the low bits (GCC on the little-endian targets of the
    library), so [c56k] is bit 6 and [noCA] bit 7 of [signature.inByte]. *)
Definition setC56K (formatPkt : FormatPkt) : FormatPkt :=
  mkFormatPkt (Z.lor (signature formatPkt) 0x40) (format formatPkt).

Definition clrC56K (formatPkt : FormatPkt) : FormatPkt :=
  mkFormatPkt (Z.land (signature formatPkt) 0xbf) (format formatPkt).

Definition setNOCA (formatPkt : FormatPkt) : FormatPkt :=
  mkFormatPkt (Z.lor (signature formatPkt) 0x80) (format formatPkt).

Definition clrNOCA (formatPkt : FormatPkt) : FormatPkt :=
  mkFormatPkt (Z.land (signature formatPkt) 0x7f) (format formatPkt).

(** The three fields of a signature byte. *)
Definition sig_bits (formatPkt : FormatPkt) : Z := Z.land (signature formatPkt) 0x3f.
Definition c56k_bit (formatPkt : FormatPkt) : bool := Z.testbit (signature formatPkt) 6.
Definition noCA_bit (formatPkt : FormatPkt) : bool := Z.testbit (signature formatPkt) 7.

(** ** Capture functions of the air-conditioner wrapper (bc7215ac.cpp, lines 3-68)

    [BC7215AC] holds a reference to the driver and the last captured sample.
    [rcvdMessage] is only handed to the protocol library and is left out.
    [delay(50)] lets time pass and touches no member; bytes arrive between
    calls, not inside them. *)
Record BC7215AC := mkBC7215AC {
  bc7215 : BC7215;
  initOK : bool;
  sampleReady : bool;
  rcvdFmt : FormatPkt;
  rcvdData : DataPkt;
  rcvdStatus : Z
}.

Definition set_bc7215 (v : BC7215) (a : BC7215AC) : BC7215AC :=
  mkBC7215AC v (initOK a) (sampleReady a) (rcvdFmt a) (rcvdData a) (rcvdStatus a).

Definition set_sampleReady (v : bool) (a : BC7215AC) : BC7215AC :=
  mkBC7215AC (bc7215 a) (initOK a) v (rcvdFmt a) (rcvdData a) (rcvdStatus a).

Definition set_rcvdStatus (v : Z) (a : BC7215AC) : BC7215AC :=
  mkBC7215AC (bc7215 a) (initOK a) (sampleReady a) (rcvdFmt a) (rcvdData a) v.

(** The constructor, over whatever the sample members hold at that point. *)
Definition newBC7215AC (bc7215Chip : BC7215) (fmt : FormatPkt) (data : DataPkt)
    (status : Z) : BC7215AC :=
  mkBC7215AC (setTx bc7215Chip) false false fmt data status.

Definition startCapture (a : BC7215AC) : option BC7215AC :=
  let c := setRx (bc7215 a) in
  c ← setRxMode 1 c;
  let c := clrData c in
  let c := clrFormat c in
  Some (set_sampleReady false (set_bc7215 c a)).

Definition stopCapture (a : BC7215AC) : BC7215AC :=
  set_bc7215 (setTx (bc7215 a)) a.

(** The branch both overloads of [signalCaptured] take when no format packet
    is ready. *)
Definition resendRxMode (c : BC7215) : option BC7215 :=
  let '(c, ready) := dataReady c in
  if ready then
    c ← setRxMode 1 c;
    let c := clrData c in
    Some (clrFormat c)
  else Some c.

(** [signalCaptured()], which stores the sample in the wrapper. *)
Definition signalCaptured (a : BC7215AC) : option (BC7215AC * bool) :=
  let '(c, ready) := formatReady (bc7215 a) in
  if ready then
    let '(c, fmt, _) := getFormat (rcvdFmt a) c in
    let '(c, data, status) := getData (rcvdData a) c in
    Some (mkBC7215AC c (initOK a) true fmt data status, true)
  else
    c ← resendRxMode c;
    Some (set_bc7215 c a, false).

(** [for (i = 0; i < n; i++) data[i] = ~data[i];] on [uint8_t]; a store past
    the end of the caller's array is undefined in the source and dropped
    here. *)
Definition invertBytes (n : Z) (data : list Z) : list Z :=
  fold_left (fun d i => <[Z.to_nat i := u8 (Z.lnot (default 0 (d !! Z.to_nat i)))]> d)
            (seqZ 0 n) data.

(** [signalCaptured(data, format)], which stores the sample in the caller's
    objects and undoes the inversion the status byte reports. *)
Definition signalCapturedTo (data : DataPkt) (format : FormatPkt) (a : BC7215AC)
    : option (BC7215AC * DataPkt * FormatPkt * bool) :=
  let '(c, ready) := formatReady (bc7215 a) in
  if ready then
    let '(c, format, _) := getFormat format c in
    let '(c, data, status) := getData data c in
    let a := set_rcvdStatus status (set_bc7215 c a) in
    let data :=
      if negb (Z.land (rcvdStatus a) 0x40 =? 0)
      then mkDataPkt (pkt_bitLen data)
                     (invertBytes (bytesFor (int16 c) (pkt_bitLen data))
                                  (pkt_data data))
      else data in
    Some (a, data, format, true)
  else
    c ← resendRxMode c;
    Some (set_bc7215 c a, data, format, false).

(** ** Notions used in the further properties *)

(** A value that fits a [uint8_t]. *)
Definition is_byte (x : Z) : Prop := 0 <= x < 256.

(** The bit of the last, partial byte that the [k]-th turn of the final loop
    compares: bit [k] when TP1:TP0 of the signature is 11, bit [7 - k]
    otherwise. *)
Definition comparedBit (sig k : Z) : Z :=
  if Z.land sig 0x30 =? 0x30 then k else 7 - k.

(** The bytes [byteStuffingSend] writes for one byte. *)
Definition wire_byte (b : Z) : list Z :=
  if (b =? 0x7a) || (b =? 0x7b) then [0x7b; Z.lor b 0x80] else [b].

(** The stuffed form of a byte string. *)
Definition stuffed (l : list Z) : list Z := flat_map wire_byte l.

(** [sendOneByte] does not block: BUSY is not wired, or reads low. *)
Definition busFree (s : BC7215) : Prop := busyPin s = BUSY_NC \/ busyLevel s = LOW.

(** A position of the ring buffer, [k] places after [p]. *)
Definition ringAt (p k : Z) : Z := (p + k) mod BC7215_BUFFER_SIZE.

(** The bytes of a data packet as the chip sends them, before stuffing:
    payload, status byte, bit length low byte first. *)
Definition dataFrame (payload : list Z) (status bitLength : Z) : list Z :=
  payload ++ [status; bitLength mod 256; bitLength / 256].

(** Bytes reaching the serial port. *)
Definition arrive (l : list Z) (s : BC7215) : BC7215 :=
  set_uart_rx (uart_rx s ++ l) s.

(** The packet counters of a reachable state. *)
Record Counts (s : BC7215) : Prop := mkCounts {
  cnt_byteCount : fOverLap s = false -> byteCount s <= BC7215_BUFFER_SIZE;
  cnt_datCount : datCount s <= BC7215_BUFFER_SIZE
}.

(** The array index [bufRead] and [bufBackRead] use. *)
Definition bufReadIndex (pos n : Z) : Z :=
  if pos + n >=? BC7215_BUFFER_SIZE then pos + n - BC7215_BUFFER_SIZE else pos + n.

Definition bufBackReadIndex (pos n : Z) : Z :=
  if pos >=? n then pos - n else BC7215_BUFFER_SIZE + pos - n.

(** * Properties *)

(** ** Frame lemmas for [processData] and [statusUpdate] *)

Ltac simp_state :=
  unfold fFormat, fData, fStarted, fOverLap, fComplete, modIsLow, modIsHigh in *;
  cbn [uart_rx uart_tx modPin busyPin modLevel busyLevel bc7215Status bitLen
       circularBuffer startPos datStartPos lastWritingPos datEndPos byteCount
       datCount previousData int16
       formatPktReady dataPktReady pktStarted overLap cmdComplete
       set_uart_rx set_uart_tx set_modLevel set_busyLevel set_bc7215Status
       set_bitLen set_circularBuffer set_startPos set_datStartPos
       set_lastWritingPos set_datEndPos set_byteCount set_datCount
       set_previousData set_formatPktReady set_dataPktReady set_pktStarted
       set_overLap set_cmdComplete] in *.

Ltac split_ifs :=
  simp_state;
  repeat (match goal with
          | |- context [if ?c then _ else _] => destruct c eqn:?
          end; simp_state).

Lemma processData_env data s :
  uart_rx (processData data s) = uart_rx s /\
  uart_tx (processData data s) = uart_tx s /\
  modPin (processData data s) = modPin s /\
  busyPin (processData data s) = busyPin s /\
  modLevel (processData data s) = modLevel s /\
  busyLevel (processData data s) = busyLevel s.
Proof. unfold processData. split_ifs; simp_state; auto 10. Qed.

Lemma processData_int16 data s : int16 (processData data s) = int16 s.
Proof. unfold processData. split_ifs; reflexivity. Qed.

Lemma feed_int16 l s : int16 (feed l s) = int16 s.
Proof.
  revert s. induction l as [|b l IH]; intros s; [reflexivity|].
  change (feed (b :: l) s) with (feed l (processData b s)).
  rewrite IH. apply processData_int16.
Qed.

Lemma processData_modIsLow data s :
  modIsLow (processData data s) = modIsLow s.
Proof.
  destruct (processData_env data s) as (_ & _ & Hp & _ & Hl & _).
  unfold modIsLow. now rewrite Hp, Hl.
Qed.

Lemma feed_app l1 l2 s : feed (l1 ++ l2) s = feed l2 (feed l1 s).
Proof. apply fold_left_app. Qed.

Lemma feed_modIsLow l s : modIsLow (feed l s) = modIsLow s.
Proof.
  revert s. induction l as [|b l IH]; intros s; cbn; [reflexivity|].
  rewrite IH. apply processData_modIsLow.
Qed.

Lemma set_uart_rx_id s : set_uart_rx (uart_rx s) s = s.
Proof. now destruct s. Qed.

Lemma processData_set_uart_rx data v s :
  processData data (set_uart_rx v s) = set_uart_rx v (processData data s).
Proof.
  unfold processData.
  split_ifs; try congruence; reflexivity.
Qed.

Lemma drain_feed l s :
  drain l (set_uart_rx l s) = set_uart_rx [] (feed l s).
Proof.
  revert s. induction l as [|b l IH]; intros s; cbn [drain feed fold_left].
  - reflexivity.
  - change (set_uart_rx l (set_uart_rx (b :: l) s)) with (set_uart_rx l s).
    rewrite processData_set_uart_rx. apply IH.
Qed.

(** [statusUpdate] hands every pending byte to [processData], oldest first,
    and leaves nothing pending. *)
Lemma statusUpdate_feed s :
  statusUpdate s = set_uart_rx [] (feed (uart_rx s) s).
Proof.
  unfold statusUpdate.
  rewrite <- (set_uart_rx_id s) at 2.
  apply drain_feed.
Qed.

(** ** Invariant of the reachable states *)

Lemma u8_range x : 0 <= u8 x < 256.
Proof. unfold u8. apply Z.mod_pos_bound. lia. Qed.

Lemma Inv_init i16 prev ModPin BusyPin busy :
  Inv (initOn i16 prev ModPin BusyPin busy).
Proof.
  split; unfold pos_ok, BC7215_BUFFER_SIZE, BC7215_MAX_RX_DATA_SIZE;
    cbn; try lia; try discriminate.
  reflexivity.
Qed.

Ltac inv_solve :=
  match goal with
  | H : Inv _ |- _ => destruct H
  end;
  split; split_ifs;
  unfold pos_ok, BC7215_BUFFER_SIZE, BC7215_MAX_RX_DATA_SIZE,
    sizeof_bc7215FormatPkt_t in *;
  simp_state;
  rewrite ?length_insert;
  try match goal with
      | |- context [u8 ?x] => pose proof (u8_range x)
      end;
  repeat match goal with
         | H : (_ =? _) = true |- _ => apply Z.eqb_eq in H
         | H : (_ >=? _) = true |- _ => apply Z.geb_le in H
         | H : (_ >=? _) = false |- _ => rewrite Z.geb_leb in H; apply Z.leb_gt in H
         | H : negb _ = true |- _ => apply negb_true_iff in H
         | H : negb _ = false |- _ => apply negb_false_iff in H
         end;
  try (intuition (try congruence; lia)).

Lemma Inv_processData data s : Inv s -> Inv (processData data s).
Proof. intros H. unfold processData. inv_solve. Qed.

Lemma Inv_feed l s : Inv s -> Inv (feed l s).
Proof.
  revert s. induction l as [|b l IH]; intros s H; cbn; [exact H|].
  apply IH, Inv_processData, H.
Qed.

Lemma Inv_set_uart_rx v s : Inv s -> Inv (set_uart_rx v s).
Proof. intros []. split; assumption. Qed.

Lemma Inv_statusUpdate s : Inv s -> Inv (statusUpdate s).
Proof. intros H. rewrite statusUpdate_feed. apply Inv_set_uart_rx, Inv_feed, H. Qed.

(** *** Calls that only write to the serial port *)

Lemma tx_only_refl s : tx_only s s.
Proof.
  exists (uart_tx s), (fComplete s). split; [|auto].
  now destruct s as [? ? ? ? ? ? []].
Qed.

Lemma tx_only_trans s1 s2 s3 : tx_only s1 s2 -> tx_only s2 s3 -> tx_only s1 s3.
Proof.
  intros (t1 & c1 & -> & H1) (t2 & c2 & -> & H2). exists t2, c2.
  split; [reflexivity|]. simp_state. intuition congruence.
Qed.

Lemma tx_only_set_cmdComplete s : tx_only s (set_cmdComplete false s).
Proof. exists (uart_tx s), false. split; [|auto]. now destruct s. Qed.

Lemma sendOneByte_tx_only data s s' : sendOneByte data s = Some s' -> tx_only s s'.
Proof.
  unfold sendOneByte. destruct (_ && _); [discriminate|].
  intros [= <-]. exists (uart_tx s ++ [data]), (fComplete s). split; [|auto].
  now destruct s as [? ? ? ? ? ? []].
Qed.

Lemma byteStuffingSend_tx_only data s s' :
  byteStuffingSend data s = Some s' -> tx_only s s'.
Proof.
  unfold byteStuffingSend. destruct (_ || _).
  - destruct (sendOneByte 123 s) as [s1|] eqn:E1; [|discriminate]. cbn.
    intros E2. eapply tx_only_trans; eauto using sendOneByte_tx_only.
  - apply sendOneByte_tx_only.
Qed.

Lemma stuffAll_tx_only src n s s' : stuffAll src n s = Some s' -> tx_only s s'.
Proof.
  unfold stuffAll. generalize (seqZ 0 n) as l. intros l.
  assert (G : forall acc, fold_left
            (fun acc i => s ← acc; byteStuffingSend (default 0 (src !! Z.to_nat i)) s)
            l acc = Some s' -> exists s0, acc = Some s0 /\ tx_only s0 s').
  { induction l as [|i l IH]; intros acc; cbn [fold_left].
    - intros ->. eauto using tx_only_refl.
    - intros H. apply IH in H as (s1 & E & T).
      destruct acc as [s0|]; [|discriminate]. cbn in E.
      exists s0. split; [reflexivity|].
      eapply tx_only_trans; eauto using byteStuffingSend_tx_only. }
  intros H. apply G in H as (s0 & [= <-] & T). exact T.
Qed.

Ltac tx_chain :=
  repeat match goal with
         | |- tx_only ?s ?s => apply tx_only_refl
         | H : Some _ = Some _ |- _ => injection H as <-
         | H : None = Some _ |- _ => discriminate H
         | H : sendOneByte _ _ = Some _ |- _ => apply sendOneByte_tx_only in H
         | H : byteStuffingSend _ _ = Some _ |- _ => apply byteStuffingSend_tx_only in H
         | H : stuffAll _ _ _ = Some _ |- _ => apply stuffAll_tx_only in H
         | H : mbind _ ?m = Some _ |- _ =>
             let E := fresh "E" in destruct m eqn:E; cbn [mbind option_bind] in H
         | H : (if ?c then _ else _) = Some _ |- _ => destruct c
         end;
  eauto 12 using tx_only_refl, tx_only_trans, tx_only_set_cmdComplete.

Lemma setShutDown_tx_only s s' : setShutDown s = Some s' -> tx_only s s'.
Proof. unfold setShutDown. intros H. tx_chain. Qed.

Lemma setRxMode_tx_only mode s s' : setRxMode mode s = Some s' -> tx_only s s'.
Proof. unfold setRxMode. intros H. tx_chain. Qed.

Lemma loadFormat_tx_only source s s' : loadFormat source s = Some s' -> tx_only s s'.
Proof. unfold loadFormat. intros H. tx_chain. Qed.

Lemma irTx_tx_only source s s' : irTx source s = Some s' -> tx_only s s'.
Proof. unfold irTx. intros H. tx_chain. Qed.

Lemma sendRaw_tx_only source size s s' : sendRaw source size s = Some s' -> tx_only s s'.
Proof. unfold sendRaw. intros H. tx_chain. Qed.

Lemma Inv_tx_only s s' : tx_only s s' -> Inv s -> Inv s'.
Proof. intros (tx & c & -> & _) []. split; assumption. Qed.

(** *** Every call keeps the invariant *)

Lemma Inv_clrData s : Inv s -> Inv (set_dataPktReady false s).
Proof. intros H. inv_solve. Qed.

Lemma Inv_clrFormat s : Inv s -> Inv (set_formatPktReady false s).
Proof. intros H. inv_solve. Qed.

Lemma Inv_setTx s : Inv s -> Inv (setTx s).
Proof. intros H. unfold setTx. inv_solve. Qed.

Lemma Inv_setRx s : Inv s -> Inv (setRx s).
Proof. intros H. unfold setRx. inv_solve. Qed.

Lemma Inv_exec c s s' : exec c s = Some s' -> Inv s -> Inv s'.
Proof.
  destruct c; cbn [exec]; intros H I;
    try (injection H as <-);
    eauto using Inv_setTx, Inv_setRx, Inv_clrData, Inv_clrFormat,
      Inv_statusUpdate, Inv_tx_only, setShutDown_tx_only, setRxMode_tx_only,
      loadFormat_tx_only, irTx_tx_only, sendRaw_tx_only.
  - (* getData *)
    unfold getData. destruct (fData (statusUpdate s)); cbn [fst];
      auto using Inv_clrData, Inv_statusUpdate.
  - (* getRaw *)
    unfold getRaw. destruct (fData (statusUpdate s)); cbn [fst];
      auto using Inv_clrData, Inv_statusUpdate.
  - (* getFormat *)
    unfold getFormat. destruct (fFormat (statusUpdate s)); cbn [fst];
      auto using Inv_clrFormat, Inv_statusUpdate.
  - (* a byte arrives *)
    apply Inv_set_uart_rx, I.
  - (* BUSY changes *)
    destruct I. split; assumption.
  - (* another driver writes the static *)
    destruct I. split; assumption.
Qed.

Lemma reachable_Inv s : reachable s -> Inv s.
Proof.
  induction 1 as [i16 prev mp bp busy | c s s' _ IH E].
  - apply Inv_init.
  - eapply Inv_exec; eassumption.
Qed.

(** Any byte sequence can reach [processData]: the bytes arrive and a
    query drains them. *)
Lemma exec_arrivals l s :
  uart_rx s = [] ->
  reachable s -> reachable (set_uart_rx l s).
Proof.
  intros E. induction l as [|b l IH] using rev_ind; intros R.
  - rewrite <- E, set_uart_rx_id. exact R.
  - apply (reach_step (EnvArrive b) (set_uart_rx l s)); [auto|].
    reflexivity.
Qed.

Lemma feed_set_uart_rx l v s :
  feed l (set_uart_rx v s) = set_uart_rx v (feed l s).
Proof.
  revert s. induction l as [|b l IH]; intros s; cbn [feed fold_left].
  - reflexivity.
  - rewrite processData_set_uart_rx. apply IH.
Qed.

Lemma feed_uart_rx l s : uart_rx (feed l s) = uart_rx s.
Proof.
  revert s. induction l as [|b l IH]; intros s; cbn [feed fold_left].
  - reflexivity.
  - unfold feed in IH. rewrite IH. apply processData_env.
Qed.

Lemma reachable_feed l s :
  uart_rx s = [] -> reachable s -> reachable (feed l s).
Proof.
  intros E0 R0.
  assert (R : reachable (set_uart_rx l s)) by (apply exec_arrivals; assumption).
  apply (reach_step CallDataReady) with (s' := statusUpdate (set_uart_rx l s)) in R;
    [|reflexivity].
  rewrite statusUpdate_feed, feed_set_uart_rx in R. simp_state.
  change (set_uart_rx [] (set_uart_rx l (feed l s)))
    with (set_uart_rx [] (feed l s)) in R.
  assert (E : uart_rx (feed l s) = []) by (rewrite feed_uart_rx; exact E0).
  rewrite <- E, set_uart_rx_id in R. exact R.
Qed.

Lemma reachable_feed_on l i16 prev ModPin BusyPin busy :
  reachable (feed l (initOn i16 prev ModPin BusyPin busy)).
Proof. apply reachable_feed; [reflexivity | apply reach_init]. Qed.

Lemma reachable_feed_init l ModPin BusyPin busy :
  reachable (feed l (init ModPin BusyPin busy)).
Proof.
  set (s := init ModPin BusyPin busy).
  assert (R : reachable (set_uart_rx l s))
    by (apply exec_arrivals; [reflexivity | apply reach_init]).
  apply (reach_step CallDataReady) with (s' := statusUpdate (set_uart_rx l s)) in R;
    [|reflexivity].
  rewrite statusUpdate_feed, feed_set_uart_rx in R. simp_state.
  change (set_uart_rx [] (set_uart_rx l (feed l s)))
    with (set_uart_rx [] (feed l s)) in R.
  assert (E : uart_rx (feed l s) = []) by (rewrite feed_uart_rx; reflexivity).
  rewrite <- E, set_uart_rx_id in R. exact R.
Qed.

(** ** Packet framing in receive mode *)

(** [!(x & 0x80)] tests bit 7, the error indicator of a status byte. *)
Lemma land_0x80_testbit x : (Z.land x 0x80 =? 0) = negb (Z.testbit x 7).
Proof.
  change 0x80 with (2 ^ 7).
  destruct (Z.testbit x 7) eqn:E; cbn [negb].
  - apply Z.eqb_neq. intros H.
    assert (B : Z.testbit (Z.land x (2 ^ 7)) 7 = true)
      by (rewrite Z.land_spec, E, Z.pow2_bits_true by lia; reflexivity).
    rewrite H in B. discriminate.
  - apply Z.eqb_eq. apply Z.bits_inj'. intros n Hn.
    rewrite Z.land_spec, Z.bits_0, Z.pow2_bits_eqb by lia.
    destruct (Z.eqb_spec 7 n) as [<-|]; [rewrite E; reflexivity|].
    apply andb_false_r.
Qed.

Ltac bool_hyps :=
  repeat match goal with
         | H : (_ =? _) = true |- _ => apply Z.eqb_eq in H
         | H : (_ =? _) = false |- _ => apply Z.eqb_neq in H
         | H : negb _ = true |- _ => apply negb_true_iff in H
         | H : negb _ = false |- _ => apply negb_false_iff in H
         | H : _ && _ = true |- _ => apply andb_true_iff in H as [? ?]
         end.

(** [bytesFor] on the values a [uint16_t] takes. *)
Lemma bytesFor_uint16 bits :
  0 <= bits < 65536 ->
  bytesFor false bits = (bits + 7) / 8 /\
  bytesFor true bits = ((bits + 7) mod 65536) / 8.
Proof.
  intros H. unfold bytesFor. split; [reflexivity|]. cbn [andb].
  destruct (Z.leb_spec 0xFFF9 bits), (Z.leb_spec bits 0xFFFF); cbn [andb]; try lia.
  - f_equal. apply Z.mod_unique with 1; lia.
  - f_equal. symmetry. apply Z.mod_small. lia.
Qed.

(** Where the sum wraps the result is 0. *)
Lemma bytesFor_positive i16 bits n :
  0 < n -> bytesFor i16 bits = n -> (bits + 7) / 8 = n.
Proof.
  unfold bytesFor. intros Hn.
  destruct (i16 && (0xFFF9 <=? bits) && (bits <=? 0xFFFF)) eqn:W; [| auto].
  apply andb_true_iff in W as [W W2]. apply andb_true_iff in W as [_ W1].
  apply Z.leb_le in W1, W2. intros H. exfalso.
  clear - W1 W2 H Hn. Z.div_mod_to_equations. lia.
Qed.

Lemma bytesFor_exact i16 bits :
  i16 = false \/ bits < 0xFFF9 -> bytesFor i16 bits = (bits + 7) / 8.
Proof.
  unfold bytesFor. intros [-> | H]; [reflexivity|].
  destruct (Z.leb_spec 0xFFF9 bits); [lia|]. now rewrite andb_false_r.
Qed.

(** X22. The first terminator of a packet.  In receive mode a terminator
    that finds a byte other than 0x7A in [previousData] accepts the bytes since
    the last packet start exactly when the overflow flag is unset, bit 7 of
    the status byte at backward offset 2 is clear and the byte count
    recomputed from the trailing bit-length field, in the board's [int],
    plus 3 equals the accumulated byte count.  Then data-ready is raised and
    start, end, count and bit length are recorded; otherwise nothing but
    [previousData] and the packet-in-progress flag changes.  The recomputed
    count is (bitLength+7)/8 unless [int] has 16 bits and the field holds
    0xFFF9 or more.  When the terminator closes a packet in progress no
    ready flag is up before it, so data-ready is up afterwards exactly when
    the packet was accepted. *)
Theorem first_terminator_validation (s : BC7215) :
  reachable s ->
  modIsLow s = false ->
  previousData s <> 0x7a ->
  let status := bufBackRead (circularBuffer s) (lastWritingPos s) 2 in
  let bitLength :=
    Z.lor (Z.shiftl (bufBackRead (circularBuffer s) (lastWritingPos s) 0) 8)
          (bufBackRead (circularBuffer s) (lastWritingPos s) 1) in
  let valid :=
    fOverLap s = false /\ Z.testbit status 7 = false /\
    bytesFor (int16 s) bitLength + 3 = byteCount s in
  let s' := processData 0x7a s in
  (valid ->
   fData s' = true /\ bitLen s' = bitLength /\ datStartPos s' = startPos s /\
   datEndPos s' = lastWritingPos s /\ datCount s' = byteCount s) /\
  (~ valid -> s' = set_pktStarted false (set_previousData 0x7a s)) /\
  fFormat s' = fFormat s /\
  (fData s' = true <-> valid \/ fData s = true) /\
  (int16 s = false \/ bitLength < 0xFFF9 ->
   bytesFor (int16 s) bitLength = (bitLength + 7) / 8) /\
  (fStarted s = true ->
   fFormat s' = false /\ (fData s' = true <-> valid)).
Proof.
  intros R M P. cbv zeta.
  pose proof (reachable_Inv s R) as I.
  assert (Fl : fStarted s = true -> fData s = false /\ fFormat s = false).
  { intros St. split.
    - destruct (fData s) eqn:E; [|reflexivity].
      pose proof (inv_data s I E). congruence.
    - destruct (fFormat s) eqn:E; [|reflexivity].
      destruct (inv_format s I E). congruence. }
  apply Z.eqb_neq in P.
  unfold processData. rewrite M, P. change (122 =? 122) with true. cbv iota.
  rewrite land_0x80_testbit.
  destruct (fOverLap s) eqn:O; cbn [negb];
    [| destruct (Z.testbit _ 7) eqn:B; cbn [negb];
       [| destruct (_ =? byteCount s) eqn:C ] ];
    simp_state; bool_hyps.
  4: { (* the byte count does not match *)
       split; [intros (_ & _ & V); congruence|]. split; [reflexivity|].
       split; [reflexivity|].
       split; [split; [auto | intros [(_ & _ & V) | D]; congruence]|].
       split; [apply bytesFor_exact|].
       intros St. destruct (Fl St) as [D F]. split; [exact F|].
       split; [congruence | intros (_ & _ & V); congruence]. }
  - (* the packet overflowed *)
    split; [intros (V & _); congruence|]. split; [reflexivity|].
    split; [reflexivity|].
    split; [split; [auto | intros [(V & _) | D]; congruence]|].
    split; [apply bytesFor_exact|].
    intros St. destruct (Fl St) as [D F]. split; [exact F|].
    split; [congruence | intros (V & _); congruence].
  - (* the status byte reports an error *)
    split; [intros (_ & V & _); congruence|]. split; [reflexivity|].
    split; [reflexivity|].
    split; [split; [auto | intros [(_ & V & _) | D]; congruence]|].
    split; [apply bytesFor_exact|].
    intros St. destruct (Fl St) as [D F]. split; [exact F|].
    split; [congruence | intros (_ & V & _); congruence].
  - (* every check passes *)
    split; [intros _; auto|].
    split; [intros N; exfalso; apply N; auto|].
    split; [reflexivity|].
    split; [split; [intros _; left; auto | reflexivity]|].
    split; [apply bytesFor_exact|].
    intros St. destruct (Fl St) as [D F]. split; [exact F|].
    split; [intros _; auto | reflexivity].
Qed.

Lemma first_terminator_validation_witness :
  reachable (feed [0xFF; 0x00; 0x02; 0x00] rx0) /\
  fData (processData 0x7a (feed [0xFF; 0x00; 0x02; 0x00] rx0)) = true /\
  processData 0x7a (feed [0x00; 0x02; 0xFF; 0x00] rx0)
  = set_pktStarted false (set_previousData 0x7a (feed [0x00; 0x02; 0xFF; 0x00] rx0)).
Proof.
  split; [apply reachable_feed_init|]. split.
  - destruct (first_terminator_validation (feed [0xFF; 0x00; 0x02; 0x00] rx0))
      as (V & _).
    + apply reachable_feed_init.
    + reflexivity.
    + vm_compute. discriminate.
    + apply V. vm_compute. auto.
  - destruct (first_terminator_validation (feed [0x00; 0x02; 0xFF; 0x00] rx0))
      as (_ & N & _).
    + apply reachable_feed_init.
    + reflexivity.
    + vm_compute. discriminate.
    + apply N. vm_compute. intros (_ & _ & H). discriminate H.
Defined.

(** C1.  Two inputs on which the validation of a data packet goes wrong.

    On a board with 16-bit [int] the packet [wrapped_length_packet] has
    three bytes, no overflow and no error bit, and announces 0xFFF9 bits,
    for which 8195 bytes would have to be there; [temp16 + 7] wraps to 0, the
    test [(temp16 + 7) / 8 + 3 == byteCount] reads 3 == 3, and the terminator
    accepts the packet.  On a board with 32-bit [int] the same bytes are
    dropped.

    With a second driver in the program the static [previousData] is no
    longer this driver's previous byte.  The well-formed packet FF 00 02 00
    is accepted when its terminator follows directly; when the other driver
    has processed a terminator in between, the terminator is taken for the
    second of two, and data-ready is raised with bit length 0 and nothing
    recorded. *)
Theorem C1_validation_defects :
  (let s := feed wrapped_length_packet avr0 in
   reachable s /\ modIsLow s = false /\ previousData s <> 0x7a /\
   fStarted s = true /\ fOverLap s = false /\ byteCount s = 3 /\
   Z.testbit (bufBackRead (circularBuffer s) (lastWritingPos s) 2) 7 = false /\
   Z.lor (Z.shiftl (bufBackRead (circularBuffer s) (lastWritingPos s) 0) 8)
         (bufBackRead (circularBuffer s) (lastWritingPos s) 1) = 0xFFF9 /\
   (0xFFF9 + 7) / 8 + 3 = 8195 /\
   fData (processData 0x7a s) = true /\
   bitLen (processData 0x7a s) = 0xFFF9 /\
   datCount (processData 0x7a s) = 3 /\
   fData (processData 0x7a (feed wrapped_length_packet rx0)) = false) /\
  (let s := feed [0xFF; 0x00; 0x02; 0x00] rx0 in
   reachable s /\
   fData (processData 0x7a s) = true /\ bitLen (processData 0x7a s) = 2 /\
   datCount (processData 0x7a s) = 4 /\
   exec (EnvOtherDriver 0x7a) s = Some (set_previousData 0x7a s) /\
   fData (processData 0x7a (set_previousData 0x7a s)) = true /\
   bitLen (processData 0x7a (set_previousData 0x7a s)) = 0 /\
   datCount (processData 0x7a (set_previousData 0x7a s)) = 0).
Proof.
  split; cbv zeta.
  - split; [apply reachable_feed_on|]. vm_compute. repeat split; discriminate.
  - split; [apply reachable_feed_init|]. vm_compute. repeat split.
Qed.

(** ** Byte stuffing *)

Lemma nextPos_ok p : pos_ok (nextPos p).
Proof.
  unfold nextPos, pos_ok. pose proof (u8_range (p + 1)).
  destruct (Z.geb_spec (u8 (p + 1)) BC7215_BUFFER_SIZE);
    unfold BC7215_BUFFER_SIZE, BC7215_MAX_RX_DATA_SIZE in *; lia.
Qed.

(** A byte other than the two reserved ones is stored, with bit 7 cleared if
    an escape byte came just before. *)
Lemma processData_store b r :
  modIsLow r = false -> b <> 0x7a -> b <> 0x7b ->
  let r' := processData b r in
  circularBuffer r' =
    <[Z.to_nat (nextPos (lastWritingPos r)) :=
        if previousData r =? 0x7b then Z.land b 0x7f else b]> (circularBuffer r) /\
  lastWritingPos r' = nextPos (lastWritingPos r) /\
  byteCount r' = u8 (countSoFar r + 1) /\
  previousData r' = b /\
  fStarted r' = true.
Proof.
  intros M Ha Hb. apply Z.eqb_neq in Ha, Hb. cbv zeta.
  unfold processData, nextPos, countSoFar. rewrite M, Ha, Hb.
  simp_state. destruct (pktStarted (bc7215Status r)) eqn:S; cbn [negb];
    split_ifs; rewrite ?S; auto 10; try congruence.
Qed.

(** The escape byte itself is not stored. *)
Lemma processData_escape r :
  modIsLow r = false ->
  let r' := processData 0x7b r in
  circularBuffer r' = circularBuffer r /\
  lastWritingPos r' = lastWritingPos r /\
  byteCount r' = countSoFar r /\
  countSoFar r' = countSoFar r /\
  previousData r' = 0x7b /\
  fStarted r' = true /\
  fOverLap r' = (fStarted r && fOverLap r) /\
  fData r' = (fStarted r && fData r) /\
  fFormat r' = (fStarted r && fFormat r).
Proof.
  intros M. cbv zeta.
  unfold processData, countSoFar. rewrite M.
  change (123 =? 122) with false. change (123 =? 123) with true. cbv iota.
  simp_state. destruct (pktStarted (bc7215Status r)) eqn:S; cbn [negb andb];
    split_ifs; rewrite ?S; auto 10; try congruence.
Qed.

Lemma sendOneByte_free data s :
  busyPin s = BUSY_NC \/ busyLevel s = LOW ->
  sendOneByte data s = Some (set_uart_tx (uart_tx s ++ [data]) s).
Proof.
  unfold sendOneByte. intros [-> | ->]; [reflexivity|].
  now rewrite andb_false_r.
Qed.

Lemma bufBackRead_last_written buf p v :
  length buf = Z.to_nat BC7215_BUFFER_SIZE -> pos_ok p ->
  bufBackRead (<[Z.to_nat p := v]> buf) p 0 = v.
Proof.
  intros L [H0 H1]. unfold bufBackRead, buf_at.
  destruct (Z.geb_spec p 0); [|lia]. rewrite Z.sub_0_r.
  destruct (Z.leb_spec 0 p); [|lia]. destruct (Z.ltb_spec p BC7215_BUFFER_SIZE); [|lia].
  cbn [andb]. rewrite list_lookup_insert_eq by lia. reflexivity.
Qed.

(** C2. For a byte b in 0..255 [byteStuffingSend] writes 0x7B, b|0x80 when b
    is 0x7A or 0x7B and b alone otherwise; a receive-mode driver with no
    escape pending that is handed those bytes stores exactly b, once, at the
    next buffer position. *)
Theorem C2_byte_stuffing_round_trip (b : Z) (s r : BC7215) :
  0 <= b < 256 ->
  busyPin s = BUSY_NC \/ busyLevel s = LOW ->
  reachable r ->
  modIsLow r = false ->
  previousData r <> 0x7b ->
  exists wire,
    byteStuffingSend b s = Some (set_uart_tx (uart_tx s ++ wire) s) /\
    (b = 0x7a \/ b = 0x7b -> wire = [0x7b; Z.lor b 0x80]) /\
    (b <> 0x7a -> b <> 0x7b -> wire = [b]) /\
    let r' := feed wire r in
    circularBuffer r' =
      <[Z.to_nat (nextPos (lastWritingPos r)) := b]> (circularBuffer r) /\
    lastWritingPos r' = nextPos (lastWritingPos r) /\
    bufBackRead (circularBuffer r') (lastWritingPos r') 0 = b /\
    byteCount r' = u8 (countSoFar r + 1) /\
    previousData r' <> 0x7b.
Proof.
  intros Hb Hfree R M P.
  pose proof (inv_len r (reachable_Inv r R)) as L.
  pose proof (nextPos_ok (lastWritingPos r)) as Hp.
  assert (Esc : forall e, e = 0x7a \/ e = 0x7b ->
    let r' := feed [0x7b; Z.lor e 0x80] r in
    circularBuffer r' =
      <[Z.to_nat (nextPos (lastWritingPos r)) := e]> (circularBuffer r) /\
    lastWritingPos r' = nextPos (lastWritingPos r) /\
    byteCount r' = u8 (countSoFar r + 1) /\
    previousData r' <> 0x7b).
  { intros e He. cbv zeta. cbn [feed fold_left].
    destruct (processData_escape r M) as (B1 & W1 & _ & C1 & P1 & _).
    assert (M1 : modIsLow (processData 0x7b r) = false)
      by (rewrite processData_modIsLow; exact M).
    assert (Ne : Z.lor e 0x80 <> 0x7a /\ Z.lor e 0x80 <> 0x7b /\
                 Z.land (Z.lor e 0x80) 0x7f = e)
      by (destruct He as [-> | ->]; repeat split; discriminate).
    destruct Ne as (Na & Nb & Nc).
    destruct (processData_store _ _ M1 Na Nb) as (B2 & W2 & C2 & P2 & _).
    rewrite B2, W2, C2, P2, B1, W1, C1, P1. change (123 =? 123) with true.
    cbv iota. rewrite Nc. repeat split; auto. }
  destruct (Z.eq_dec b 0x7a) as [Ea | Na]; [| destruct (Z.eq_dec b 0x7b) as [Eb | Nb]].
  - exists [0x7b; Z.lor b 0x80].
    destruct (Esc b (or_introl Ea)) as (B & W & C & Q).
    split; [| repeat split; auto; try congruence].
    + unfold byteStuffingSend. subst b. change (122 =? 122) with true. cbn [orb].
      rewrite sendOneByte_free by exact Hfree. cbn [mbind option_bind].
      rewrite sendOneByte_free by exact Hfree. simp_state.
      now rewrite <- app_assoc.
    + rewrite B, W. apply bufBackRead_last_written; assumption.
  - exists [0x7b; Z.lor b 0x80].
    destruct (Esc b (or_intror Eb)) as (B & W & C & Q).
    split; [| repeat split; auto; try congruence].
    + unfold byteStuffingSend. subst b. change (123 =? 123) with true.
      rewrite orb_true_r.
      rewrite sendOneByte_free by exact Hfree. cbn [mbind option_bind].
      rewrite sendOneByte_free by exact Hfree. simp_state.
      now rewrite <- app_assoc.
    + rewrite B, W. apply bufBackRead_last_written; assumption.
  - exists [b].
    destruct (processData_store b r M Na Nb) as (B & W & C & Q & _).
    apply Z.eqb_neq in P. rewrite P in B.
    split; [| repeat split; cbn [feed fold_left]; auto; try tauto; try congruence].
    + unfold byteStuffingSend.
      apply Z.eqb_neq in Na, Nb. rewrite Na, Nb. cbn [orb].
      apply sendOneByte_free, Hfree.
    + rewrite B, W. apply bufBackRead_last_written; assumption.
Qed.

Lemma C2_witness :
  exists wire,
    byteStuffingSend 0x7a rx0 = Some (set_uart_tx (uart_tx rx0 ++ wire) rx0) /\
    wire = [0x7b; 0xfa] /\
    bufBackRead (circularBuffer (feed wire rx0)) (lastWritingPos (feed wire rx0)) 0
      = 0x7a.
Proof.
  destruct (C2_byte_stuffing_round_trip 0x7a rx0 rx0) as (wire & S & E & _ & H).
  - lia.
  - left. reflexivity.
  - apply reach_init.
  - reflexivity.
  - vm_compute. discriminate.
  - exists wire. split; [exact S|]. split; [apply E; left; reflexivity|].
    apply H.
Defined.

(** ** One packet, byte by byte *)

(** The first byte of a packet. *)
Lemma processData_first b s :
  modIsLow s = false -> b <> 0x7a -> fStarted s = false ->
  let s' := processData b s in
  modIsLow s' = false /\ fStarted s' = true /\
  fData s' = false /\ fFormat s' = false /\ fOverLap s' = false /\
  fComplete s' = fComplete s /\
  previousData s' = b /\
  byteCount s' = (if b =? 0x7b then 0 else 1).
Proof.
  intros M Hb S. cbv zeta. rewrite processData_modIsLow.
  split; [exact M|]. apply Z.eqb_neq in Hb.
  unfold processData. rewrite M, Hb, S. cbn [negb].
  destruct (Z.eqb_spec b 0x7b) as [-> | Nb]; simp_state.
  - split_ifs; auto 10.
  - change (u8 (0 + 1)) with 1. change (1 >? BC7215_BUFFER_SIZE) with false.
    split_ifs; auto 10.
Qed.

Lemma accumulated_nonneg l : 0 <= accumulated l.
Proof.
  induction l as [|b l IH]; cbn [accumulated]; [lia|]. destruct (b =? 123); lia.
Qed.

Lemma accumulated_plain l :
  Forall (fun b => b <> 0x7b) l -> accumulated l = Z.of_nat (length l).
Proof.
  induction 1 as [|b l Hb _ IH]; [reflexivity|].
  cbn [accumulated length]. apply Z.eqb_neq in Hb. rewrite Hb, IH. lia.
Qed.

(** A non-terminator byte inside a packet. *)
Lemma processData_inside b s :
  modIsLow s = false -> b <> 0x7a -> fStarted s = true ->
  let s' := processData b s in
  modIsLow s' = false /\ fStarted s' = true /\
  fData s' = fData s /\ fFormat s' = fFormat s /\ fComplete s' = fComplete s /\
  previousData s' = b /\
  byteCount s' = (if b =? 0x7b then byteCount s else u8 (byteCount s + 1)) /\
  fOverLap s' =
    (if b =? 0x7b then fOverLap s
     else fOverLap s || (u8 (byteCount s + 1) >? BC7215_BUFFER_SIZE)).
Proof.
  intros M Hb S. cbv zeta. rewrite processData_modIsLow.
  split; [exact M|]. apply Z.eqb_neq in Hb.
  unfold processData. rewrite M, Hb, S. cbn [negb].
  destruct (Z.eqb_spec b 0x7b) as [-> | Nb]; simp_state.
  - auto 10.
  - split_ifs;
      repeat match goal with H : ?c = _ |- context [?c] => rewrite H end;
      rewrite ?orb_true_r, ?orb_false_r; auto 10.
Qed.

Lemma feed_inside l : forall s,
  modIsLow s = false -> fStarted s = true -> Forall (fun b => b <> 0x7a) l ->
  let s' := feed l s in
  fStarted s' = true /\ fData s' = fData s /\ fFormat s' = fFormat s /\
  (l <> [] -> previousData s' <> 0x7a) /\
  (fOverLap s = true -> fOverLap s' = true) /\
  (fOverLap s = false -> 0 <= byteCount s <= BC7215_BUFFER_SIZE ->
   if byteCount s + accumulated l <=? BC7215_BUFFER_SIZE
   then fOverLap s' = false /\ byteCount s' = byteCount s + accumulated l
   else fOverLap s' = true).
Proof.
  induction l as [|b l IH]; intros s M S F; cbv zeta.
  - cbn [feed fold_left accumulated]. repeat split; auto; try congruence.
    intros O B. rewrite Z.add_0_r.
    destruct (Z.leb_spec (byteCount s) BC7215_BUFFER_SIZE); [auto | lia].
  - inversion F as [|? ? Hb F']; subst.
    destruct (processData_inside b s M Hb S) as (M1 & S1 & D1 & F1 & _ & P1 & C1 & O1).
    destruct (IH (processData b s) M1 S1 F') as (S2 & D2 & F2 & P2 & O2 & A2).
    change (feed (b :: l) s) with (feed l (processData b s)).
    split; [exact S2|]. split; [congruence|]. split; [congruence|].
    split; [| split].
    + intros _. destruct l as [|c l]; [cbn [feed fold_left]; congruence | apply P2; discriminate].
    + intros O. apply O2. rewrite O1, O. now destruct (b =? 123).
    + intros O B. cbn [accumulated].
      pose proof (accumulated_nonneg l) as Hl.
      change BC7215_BUFFER_SIZE with 84 in *.
      destruct (Z.eqb_spec b 123) as [-> | Nb].
      * rewrite O in O1. rewrite <- C1, Z.add_0_l.
        apply A2; [exact O1 | rewrite C1; exact B].
      * assert (U : u8 (byteCount s + 1) = byteCount s + 1)
          by (unfold u8; apply Z.mod_small; lia).
        rewrite U in O1, C1. rewrite O in O1. cbn [orb] in O1.
        destruct (Z.gtb_spec (byteCount s + 1) 84) as [G | G].
        -- destruct (Z.leb_spec (byteCount s + (1 + accumulated l)) 84); [lia|].
           apply O2, O1.
        -- specialize (A2 O1). rewrite C1 in A2.
           replace (byteCount s + (1 + accumulated l))
             with (byteCount s + 1 + accumulated l) by lia.
           apply A2. lia.
Qed.

(** A terminator in receive mode. *)
Lemma processData_terminator s :
  modIsLow s = false ->
  let s' := processData 0x7a s in
  modIsLow s' = false /\ fStarted s' = false /\ previousData s' = 0x7a /\
  fOverLap s' = fOverLap s /\ byteCount s' = byteCount s /\
  fComplete s' = fComplete s /\
  (fOverLap s = true -> fData s' = fData s /\ fFormat s' = fFormat s) /\
  fFormat s' =
    (fFormat s ||
     (negb (fOverLap s) && (previousData s =? 0x7a)
      && (byteCount s =? sizeof_bc7215FormatPkt_t))).
Proof.
  intros M. cbv zeta. rewrite processData_modIsLow. split; [exact M|].
  unfold processData. rewrite M. change (122 =? 122) with true. cbv iota.
  simp_state. destruct (overLap (bc7215Status s)) eqn:O; cbn [negb andb].
  - simp_state. rewrite orb_false_r. repeat split; auto.
  - destruct (previousData s =? 122) eqn:P; cbn [andb];
      destruct (byteCount s =? sizeof_bc7215FormatPkt_t) eqn:C;
      split_ifs; rewrite ?orb_true_r, ?orb_false_r; repeat split; auto; congruence.
Qed.

(** C3. In receive mode with the overflow flag unset, a terminator arriving
    right after another terminator leaves format-ready set exactly when the
    byte count of the packet the first terminator closed is 33; so a fresh
    packet of n bytes, none of them reserved, followed by two terminators sets
    format-ready exactly when n = 33 (and not for 32 or 34). *)
Theorem C3_format_packet_detection :
  (forall s,
     reachable s -> modIsLow s = false ->
     fOverLap s = false -> previousData s = 0x7a ->
     (fFormat (processData 0x7a s) = true <->
      byteCount s = sizeof_bc7215FormatPkt_t)) /\
  (forall s payload,
     modIsLow s = false -> fStarted s = false -> payload <> [] ->
     Forall (fun b => b <> 0x7a /\ b <> 0x7b) payload ->
     (fFormat (feed (payload ++ [0x7a; 0x7a]) s) = true <->
      length payload = 33%nat)).
Proof.
  split.
  - intros s R M O P.
    destruct (processData_terminator s M) as (_ & _ & _ & _ & _ & _ & _ & F).
    rewrite F, O, P. change (122 =? 122) with true. cbn [negb andb].
    pose proof (inv_format s (reachable_Inv s R)) as I.
    destruct (fFormat s) eqn:E; cbn [orb].
    + split; [intros _; apply I; reflexivity | reflexivity].
    + apply Z.eqb_eq.
  - intros s [|b l] M S Ne F; [congruence|]. clear Ne.
    inversion F as [|? ? [Ha Hb] F']; subst.
    assert (Fa : Forall (fun b => b <> 0x7a) l)
      by (eapply Forall_impl; [exact F' | cbv beta; tauto]).
    assert (Fb : Forall (fun b => b <> 0x7b) l)
      by (eapply Forall_impl; [exact F' | cbv beta; tauto]).
    change (feed ((b :: l) ++ [0x7a; 0x7a]) s)
      with (feed (l ++ [0x7a; 0x7a]) (processData b s)).
    rewrite feed_app. cbn [feed fold_left].
    destruct (processData_first b s M Ha S)
      as (M1 & S1 & _ & F1 & O1 & _ & P1 & C1).
    apply Z.eqb_neq in Hb. rewrite Hb in C1.
    destruct (feed_inside l (processData b s) M1 S1 Fa)
      as (_ & _ & F2 & P2 & _ & A2).
    fold (feed l (processData b s)) in *.
    set (s2 := feed l (processData b s)) in *.
    assert (M2 : modIsLow s2 = false)
      by (unfold s2; rewrite feed_modIsLow; exact M1).
    assert (Q2 : previousData s2 <> 0x7a).
    { destruct l as [|c l]; [unfold s2; cbn [feed fold_left]; congruence|].
      apply P2. discriminate. }
    destruct (processData_terminator s2 M2)
      as (M3 & _ & P3 & O3 & C3 & _ & _ & F3).
    apply Z.eqb_neq in Q2. rewrite Q2, andb_false_r, andb_false_l, orb_false_r in F3.
    destruct (processData_terminator _ M3) as (_ & _ & _ & _ & _ & _ & _ & F4).
    rewrite F4, F3, F2, F1, P3, O3, C3. change (122 =? 122) with true.
    cbn [orb]. rewrite andb_true_r.
    specialize (A2 O1). rewrite C1 in A2.
    rewrite (accumulated_plain l Fb) in A2.
    change BC7215_BUFFER_SIZE with 84 in A2.
    unfold sizeof_bc7215FormatPkt_t. cbn [length].
    destruct (Z.leb_spec (1 + Z.of_nat (length l)) 84) as [L | L].
    + destruct A2 as [-> ->]; [lia|]. cbn [negb andb].
      rewrite Z.eqb_eq. lia.
    + rewrite A2 by lia. cbn [negb andb]. split; [discriminate | lia].
Qed.

Lemma C3_witness :
  fFormat (processData 0x7a (feed (repeat 0x01 33 ++ [0x7a]) rx0)) = true /\
  fFormat (feed (format_stream 33) rx0) = true /\
  ~ fFormat (feed (format_stream 32) rx0) = true /\
  ~ fFormat (feed (format_stream 34) rx0) = true.
Proof.
  pose proof C3_format_packet_detection as [T1 T2].
  assert (P : forall n, Forall (fun b => b <> 0x7a /\ b <> 0x7b) (repeat 0x01 n)).
  { intros n. induction n as [|n IH]; cbn [repeat]; constructor;
      [split; discriminate | exact IH]. }
  split; [| split; [| split]].
  - apply (T1 (feed (repeat 0x01 33 ++ [0x7a]) rx0)).
    + apply reachable_feed_init.
    + vm_compute. reflexivity.
    + vm_compute. reflexivity.
    + vm_compute. reflexivity.
    + vm_compute. reflexivity.
  - apply (T2 rx0 (repeat 0x01 33)).
    + vm_compute. reflexivity.
    + vm_compute. reflexivity.
    + discriminate.
    + apply P.
    + vm_compute. reflexivity.
  - intros H. apply (T2 rx0 (repeat 0x01 32)) in H.
    + vm_compute in H. discriminate.
    + vm_compute. reflexivity.
    + vm_compute. reflexivity.
    + discriminate.
    + apply P.
  - intros H. apply (T2 rx0 (repeat 0x01 34)) in H.
    + vm_compute in H. discriminate.
    + vm_compute. reflexivity.
    + vm_compute. reflexivity.
    + discriminate.
    + apply P.
Defined.

(** ** Transmit mode *)

Lemma modIsLow_spec s :
  modIsLow s = true <->
  (modPin s = MOD_LOW \/ (0 <= modPin s /\ modLevel s = LOW)).
Proof.
  unfold modIsLow, MOD_LOW, LOW.
  rewrite orb_true_iff, andb_true_iff, Z.eqb_eq, Z.geb_le.
  destruct (modLevel s); cbn [eqb]; intuition congruence.
Qed.

Lemma modIsLow_false s :
  ~ (modPin s = MOD_LOW \/ (0 <= modPin s /\ modLevel s = LOW)) ->
  modIsLow s = false.
Proof.
  intros H. destruct (modIsLow s) eqn:M; [|reflexivity].
  exfalso. apply H, modIsLow_spec, M.
Qed.

(** C4. While MOD is low (hard-wired [MOD_LOW], or a real MOD pin reading
    low) a terminator sets command-complete and changes nothing else, and any
    other byte changes nothing; the same terminator in receive mode closes the
    packet in progress and leaves command-complete alone. *)
Theorem C4_transmit_mode_terminator (data : Z) (s : BC7215) :
  (modPin s = MOD_LOW \/ (0 <= modPin s /\ modLevel s = LOW) ->
   (data = 0x7a -> processData data s = set_cmdComplete true s) /\
   (data <> 0x7a -> processData data s = s) /\
   let s' := processData data s in
   fComplete s' = (fComplete s || (data =? 0x7a)) /\
   circularBuffer s' = circularBuffer s /\
   byteCount s' = byteCount s /\ datCount s' = datCount s /\
   lastWritingPos s' = lastWritingPos s /\ startPos s' = startPos s /\
   datStartPos s' = datStartPos s /\ datEndPos s' = datEndPos s /\
   bitLen s' = bitLen s /\ previousData s' = previousData s /\
   fData s' = fData s /\ fFormat s' = fFormat s /\
   fStarted s' = fStarted s /\ fOverLap s' = fOverLap s) /\
  (~ (modPin s = MOD_LOW \/ (0 <= modPin s /\ modLevel s = LOW)) ->
   let s' := processData 0x7a s in
   fComplete s' = fComplete s /\ fStarted s' = false /\ previousData s' = 0x7a).
Proof.
  split.
  - intros H. apply modIsLow_spec in H. unfold processData. rewrite H.
    destruct (Z.eqb_spec data 0x7a) as [-> | N].
    + split; [reflexivity|]. split; [congruence|].
      simp_state. rewrite orb_true_r. auto 20.
    + split; [congruence|]. split; [reflexivity|].
      rewrite orb_false_r. auto 20.
  - intros H. apply modIsLow_false in H.
    destruct (processData_terminator s H) as (_ & S & P & _ & _ & C & _).
    auto.
Qed.

Lemma C4_witness :
  processData 0x7a tx0 = set_cmdComplete true tx0 /\
  processData 0x55 tx0 = tx0 /\
  fComplete (processData 0x7a rx0) = fComplete rx0.
Proof.
  destruct (C4_transmit_mode_terminator 0x7a tx0) as [T _].
  destruct (C4_transmit_mode_terminator 0x55 tx0) as [U _].
  destruct (C4_transmit_mode_terminator 0x7a rx0) as [_ V].
  split; [| split].
  - apply T; [left; reflexivity | reflexivity].
  - apply U; [left; reflexivity | discriminate].
  - apply V. intros [H | [H _]]; [discriminate H | apply H; reflexivity].
Defined.

Lemma processData_transmit data s :
  modIsLow s = true ->
  processData data s = if data =? 0x7a then set_cmdComplete true s else s.
Proof. intros M. unfold processData. now rewrite M. Qed.

Lemma tx_only_flags s s' :
  tx_only s s' ->
  fOverLap s' = fOverLap s /\ fData s' = fData s /\ fFormat s' = fFormat s /\
  fStarted s' = fStarted s /\ modIsLow s' = modIsLow s /\ uart_rx s' = uart_rx s /\
  (fComplete s' = true -> fComplete s = true).
Proof.
  intros (tx & c & -> & H). simp_state. repeat split. intuition congruence.
Qed.

(** ** Buffer overflow *)

(** Terminators after an overflow change neither flag. *)
Lemma feed_terminators_overflow k : forall s,
  modIsLow s = false -> fOverLap s = true ->
  let s' := feed (repeat 0x7a k) s in
  fOverLap s' = true /\ fData s' = fData s /\ fFormat s' = fFormat s.
Proof.
  induction k as [|k IH]; intros s M O; cbv zeta; cbn [repeat feed fold_left].
  - auto.
  - destruct (processData_terminator s M) as (M1 & _ & _ & O1 & _ & _ & K & _).
    destruct (K O) as [D1 F1]. rewrite O in O1.
    destruct (IH _ M1 O1) as (O2 & D2 & F2).
    fold (feed (repeat 122 k) (processData 122 s)).
    repeat split; congruence.
Qed.

(** C5. In receive mode, a packet whose accumulated bytes (every byte but the
    terminator and the escape prefix) outnumber [BC7215_BUFFER_SIZE] has the
    overflow flag set; while the flag is set no terminator marks the packet
    data-ready or format-ready; and the flag is cleared nowhere but in
    [processData], on the first byte of a new packet. *)
Theorem C5_overflow_blocks_ready :
  (forall s payload k,
     modIsLow s = false -> fStarted s = false ->
     Forall (fun b => b <> 0x7a) payload ->
     BC7215_BUFFER_SIZE < accumulated payload ->
     fOverLap (feed payload s) = true /\
     let s' := feed (payload ++ repeat 0x7a k) s in
     fOverLap s' = true /\ fData s' = false /\ fFormat s' = false) /\
  (forall s,
     modIsLow s = false -> fOverLap s = true ->
     let s' := processData 0x7a s in
     fOverLap s' = true /\ fData s' = fData s /\ fFormat s' = fFormat s) /\
  (forall b s,
     fOverLap s = true -> fOverLap (processData b s) = false ->
     modIsLow s = false /\ b <> 0x7a /\ fStarted s = false) /\
  (forall c s s',
     exec c s = Some s' ->
     fOverLap s' = fOverLap (if drains c then statusUpdate s else s)).
Proof.
  split; [| split; [| split]].
  - intros s [|b l] k M S F A; [cbn [accumulated] in A; discriminate A|].
    inversion F as [|? ? Hb F']; subst.
    destruct (processData_first b s M Hb S)
      as (M1 & S1 & D1 & F1 & O1 & _ & _ & C1).
    destruct (feed_inside l (processData b s) M1 S1 F')
      as (_ & D2 & F2 & _ & _ & A2).
    fold (feed l (processData b s)) in *.
    assert (O2 : fOverLap (feed l (processData b s)) = true).
    { cbn [accumulated] in A. change BC7215_BUFFER_SIZE with 84 in *.
      assert (B : 0 <= byteCount (processData b s) <= 84)
        by (rewrite C1; destruct (b =? 123); lia).
      specialize (A2 O1 B). rewrite C1 in A2.
      destruct (Z.leb_spec ((if b =? 123 then 0 else 1) + accumulated l) 84);
        [lia | exact A2]. }
    change (feed (b :: l) s) with (feed l (processData b s)).
    split; [exact O2|]. cbv zeta.
    change (feed ((b :: l) ++ repeat 122 k) s)
      with (feed (l ++ repeat 122 k) (processData b s)).
    rewrite feed_app.
    assert (M2 : modIsLow (feed l (processData b s)) = false)
      by (rewrite feed_modIsLow; exact M1).
    destruct (feed_terminators_overflow k _ M2 O2) as (O3 & D3 & F3).
    repeat split; congruence.
  - intros s M O. cbv zeta.
    destruct (processData_terminator s M) as (_ & _ & _ & O1 & _ & _ & K & _).
    destruct (K O). repeat split; congruence.
  - intros b s O H.
    destruct (modIsLow s) eqn:M.
    { rewrite (processData_transmit b s M) in H.
      destruct (b =? 122); simp_state; congruence. }
    destruct (Z.eqb_spec b 0x7a) as [-> | Nb].
    { destruct (processData_terminator s M) as (_ & _ & _ & O1 & _). congruence. }
    destruct (fStarted s) eqn:S; [| auto].
    destruct (processData_inside b s M Nb S) as (_ & _ & _ & _ & _ & _ & _ & O1).
    rewrite O in O1. destruct (b =? 123); cbn [orb] in O1; congruence.
  - intros c s s' H.
    destruct c; cbn [exec drains] in *;
      try (injection H as <-);
      try (unfold isBusy, dataReady, getLen, dpketSize, formatReady, cmdCompleted,
             clrData, clrFormat, setTx, setRx;
           cbn [fst]; split_ifs; reflexivity).
    + apply setShutDown_tx_only, tx_only_flags in H. apply H.
    + apply setRxMode_tx_only, tx_only_flags in H. apply H.
    + unfold getData. destruct (fData (statusUpdate s)); reflexivity.
    + unfold getRaw. destruct (fData (statusUpdate s)); reflexivity.
    + unfold getFormat. destruct (fFormat (statusUpdate s)); reflexivity.
    + apply loadFormat_tx_only, tx_only_flags in H. apply H.
    + apply irTx_tx_only, tx_only_flags in H. apply H.
    + apply sendRaw_tx_only, tx_only_flags in H. apply H.
Qed.

Lemma C5_witness :
  fOverLap (feed (repeat 0x01 85) rx0) = true /\
  fData (feed (repeat 0x01 85 ++ repeat 0x7a 2) rx0) = false /\
  fFormat (feed (repeat 0x01 85 ++ repeat 0x7a 2) rx0) = false.
Proof.
  destruct C5_overflow_blocks_ready as (T & _).
  destruct (T rx0 (repeat 0x01 85) 2%nat) as (O & _ & D & F).
  - vm_compute. reflexivity.
  - vm_compute. reflexivity.
  - generalize 85%nat as n. intros n.
    induction n as [|n IH]; cbn [repeat]; constructor; [discriminate | exact IH].
  - vm_compute. reflexivity.
  - auto.
Defined.

(** ** Busy query *)

Lemma statusUpdate_env s :
  uart_rx (statusUpdate s) = [] /\
  modPin (statusUpdate s) = modPin s /\ modLevel (statusUpdate s) = modLevel s /\
  modIsLow (statusUpdate s) = modIsLow s.
Proof.
  rewrite statusUpdate_feed. simp_state.
  assert (H : forall l t, modPin (feed l t) = modPin t /\ modLevel (feed l t) = modLevel t).
  { induction l as [|b l IH]; intros t; [auto|].
    change (feed (b :: l) t) with (feed l (processData b t)).
    destruct (IH (processData b t)) as [-> ->].
    destruct (processData_env b t) as (_ & _ & -> & _ & -> & _). auto. }
  destruct (H (uart_rx s) s) as [-> ->]. auto.
Qed.

(** C6. [isBusy] first hands every pending serial byte to [processData] and
    leaves none pending; then, when MOD is hard-wired low or a real MOD pin
    reads low, it answers the negation of command-complete, and in every other
    wiring (whatever BUSY is, [BUSY_NC] included) the packet-in-progress
    flag. *)
Theorem C6_isBusy (s : BC7215) :
  let s' := fst (isBusy s) in
  s' = statusUpdate s /\
  s' = set_uart_rx [] (feed (uart_rx s) s) /\
  uart_rx s' = [] /\
  (modPin s = MOD_LOW \/ (0 <= modPin s /\ modLevel s = LOW) ->
   snd (isBusy s) = negb (fComplete s')) /\
  (~ (modPin s = MOD_LOW \/ (0 <= modPin s /\ modLevel s = LOW)) ->
   snd (isBusy s) = fStarted s').
Proof.
  cbv zeta. unfold isBusy. cbn [fst snd].
  destruct (statusUpdate_env s) as (E & _ & _ & M).
  split; [reflexivity|]. split; [apply statusUpdate_feed|]. split; [exact E|].
  rewrite M. split; intros H.
  - apply modIsLow_spec in H. now rewrite H.
  - apply modIsLow_false in H. now rewrite H.
Qed.

Lemma C6_witness :
  snd (isBusy (set_uart_rx [0x7a] tx0)) = false /\
  snd (isBusy (set_uart_rx [0x01] rx0)) = true.
Proof.
  destruct (C6_isBusy (set_uart_rx [0x7a] tx0)) as (_ & _ & _ & T & _).
  destruct (C6_isBusy (set_uart_rx [0x01] rx0)) as (_ & _ & _ & _ & R).
  split.
  - rewrite T; [vm_compute; reflexivity | left; reflexivity].
  - rewrite R; [vm_compute; reflexivity |].
    intros [H | [H _]]; [discriminate H | apply H; reflexivity].
Defined.

(** ** Entering transmit mode *)

(** Against C7 as stated.  The claim that [setTx] leaves data-ready, format-ready, overflow and
    packet-in-progress all false fails on a reachable state: the overflow
    flag survives. *)
Lemma C7_counterexample :
  ~ (fData (setTx overflowed) = false /\ fFormat (setTx overflowed) = false /\
     fOverLap (setTx overflowed) = false /\ fStarted (setTx overflowed) = false /\
     fComplete (setTx overflowed) = true).
Proof. vm_compute. intros (_ & _ & H & _). discriminate H. Qed.

(** C7 (amended). For every prior state [setTx] clears data-ready,
    format-ready and packet-in-progress and sets command-complete; the
    overflow flag keeps its value; a real MOD pin is driven low; nothing else
    changes. *)
Theorem C7_setTx_flags (s : BC7215) :
  fData (setTx s) = false /\ fFormat (setTx s) = false /\
  fStarted (setTx s) = false /\ fComplete (setTx s) = true /\
  fOverLap (setTx s) = fOverLap s /\
  modLevel (setTx s) = (if modPin s >=? 0 then LOW else modLevel s) /\
  setTx s =
    set_bc7215Status (mkStatus false false false (fOverLap s) true)
      (if modPin s >=? 0 then set_modLevel LOW s else s).
Proof. unfold setTx. split_ifs; auto 10. Qed.

(** ** End-to-end: a two-bit data packet *)

(** In receive mode [processData] does not look at the pins any further. *)
Lemma processData_set_wiring b mp bp busy s :
  modIsLow s = false -> modIsLow (set_wiring mp bp busy s) = false ->
  processData b (set_wiring mp bp busy s) = set_wiring mp bp busy (processData b s).
Proof.
  intros M M'. unfold processData. rewrite M, M'. unfold set_wiring.
  split_ifs; try congruence; reflexivity.
Qed.

Lemma feed_set_wiring l mp bp busy : forall s,
  modIsLow s = false -> modIsLow (set_wiring mp bp busy s) = false ->
  feed l (set_wiring mp bp busy s) = set_wiring mp bp busy (feed l s).
Proof.
  induction l as [|b l IH]; intros s M M'; [reflexivity|].
  change (feed (b :: l) ?x) with (feed l (processData b x)).
  rewrite processData_set_wiring by assumption.
  apply IH; [now rewrite processData_modIsLow|].
  rewrite <- processData_set_wiring by assumption.
  now rewrite processData_modIsLow.
Qed.

Lemma init_receive mp bp busy :
  mp <> MOD_LOW ->
  init mp bp busy = set_wiring mp bp busy rx0 /\
  modIsLow (set_wiring mp bp busy rx0) = false.
Proof.
  intros H. split; [reflexivity|].
  unfold modIsLow, set_wiring. cbn [modPin modLevel rx0 init].
  apply Z.eqb_neq in H. change MOD_LOW with (-2) in H. rewrite H.
  apply andb_false_r.
Qed.

(** Against C8 as stated.  The stream 0x00, 0x02, 0xFF, 0x00, 0x7A does not
    become data-ready with
    bit length 2: the driver takes the last two bytes, 0xFF and 0x00, as the
    bit length 255 and expects 35 bytes. *)
Lemma C8_counterexample :
  ~ (fData (feed scenarioB_header_first rx0) = true /\
     bitLen (feed scenarioB_header_first rx0) = 2).
Proof. vm_compute. intros [H _]. discriminate H. Qed.

(** C8 (amended). From a fresh driver in receive mode the stream
    0xFF, 0x00, 0x02, 0x00, 0x7A (payload byte 0xFF, status byte 0x00, bit
    length 2 in the last two bytes, low byte first) accumulates 4 bytes,
    which is ceil(2/8)+3, has the status error bit clear, and is marked
    data-ready with bit length 2; [getRaw] and [getData] hand out the payload
    byte 0xFF.  The stream 0x00, 0x02, 0xFF, 0x00, 0x7A also accumulates 4
    bytes but is read as status 0x02 and bit length 255, and is dropped. *)
Theorem C8_two_bit_packet (ModPin BusyPin : Z) (busy : bool) :
  ModPin <> MOD_LOW ->
  let fresh := init ModPin BusyPin busy in
  let s := feed scenarioB_trailer fresh in
  let t := feed scenarioB_header_first fresh in
  byteCount s = 4 /\ (2 + 7) / 8 + 3 = 4 /\
  bufBackRead (circularBuffer s) (lastWritingPos s) 2 = 0x00 /\
  fData s = true /\ bitLen s = 2 /\
  snd (getRaw [0] 1 s) = 1 /\ snd (fst (getRaw [0] 1 s)) = [0xFF] /\
  snd (fst (getData (mkDataPkt 0 [0]) s)) = mkDataPkt 2 [0xFF] /\
  snd (getData (mkDataPkt 0 [0]) s) = 0x00 /\
  byteCount t = 4 /\
  bufBackRead (circularBuffer t) (lastWritingPos t) 2 = 0x02 /\
  Z.lor (Z.shiftl (bufBackRead (circularBuffer t) (lastWritingPos t) 0) 8)
        (bufBackRead (circularBuffer t) (lastWritingPos t) 1) = 255 /\
  fData t = false.
Proof.
  intros H. cbv zeta.
  destruct (init_receive ModPin BusyPin busy H) as [-> M].
  rewrite !feed_set_wiring by (exact M || reflexivity).
  vm_compute. repeat split.
Qed.

Lemma C8_witness :
  fData (feed scenarioB_trailer (init 4 5 LOW)) = true /\
  bitLen (feed scenarioB_trailer (init 4 5 LOW)) = 2 /\
  snd (fst (getRaw [0] 1 (feed scenarioB_trailer (init 4 5 LOW)))) = [0xFF].
Proof.
  destruct (C8_two_bit_packet 4 5 LOW) as (_ & _ & _ & D & L & _ & R & _).
  - discriminate.
  - auto.
Defined.

(** ** Retrieving a data packet *)

Lemma getData_not_ready target s :
  fData (statusUpdate s) = false ->
  getData target s = (statusUpdate s, target, 0xff).
Proof. intros H. unfold getData. now rewrite H. Qed.

Lemma getData_ready target s :
  fData (statusUpdate s) = true ->
  let s' := statusUpdate s in
  getData target s =
    (set_dataPktReady false s',
     mkDataPkt (bitLen s')
       (copyOut (circularBuffer s') (datStartPos s') (datCount s' - 3)
                (pkt_data target)),
     bufBackRead (circularBuffer s') (datEndPos s') 2).
Proof. intros H. cbv zeta. unfold getData. now rewrite H. Qed.

(** [copyOut] overwrites the first [n] entries of the destination and no
    others. *)
Lemma copyOut_lookup buf pos n dst i :
  0 <= n <= Z.of_nat (length dst) -> 0 <= i ->
  copyOut buf pos n dst !! Z.to_nat i =
    if i <? n then Some (bufRead buf pos (u8 i)) else dst !! Z.to_nat i.
Proof.
  intros Hn Hi. unfold copyOut.
  set (f := fun (d : list Z) (i : Z) => <[Z.to_nat i := bufRead buf pos (u8 i)]> d).
  assert (L : forall m d, length (fold_left f m d) = length d).
  { induction m as [|x m IHm]; intros d; cbn [fold_left]; [reflexivity|].
    rewrite IHm. apply length_insert. }
  assert (G : forall k : nat, (k <= length dst)%nat ->
            fold_left f (seqZ 0 (Z.of_nat k)) dst !! Z.to_nat i =
              if i <? Z.of_nat k then Some (bufRead buf pos (u8 i))
              else dst !! Z.to_nat i).
  { induction k as [|k IH]; intros Hk.
    - change (Z.of_nat 0) with 0. rewrite seqZ_nil by lia. cbn [fold_left].
      destruct (Z.ltb_spec i 0); [lia | reflexivity].
    - rewrite seqZ_S, fold_left_app. cbn [fold_left].
      rewrite Z.add_0_l. unfold f at 1.
      destruct (Z.eq_dec i (Z.of_nat k)) as [-> | Ne].
      + rewrite list_lookup_insert_eq by (rewrite L; lia).
        destruct (Z.ltb_spec (Z.of_nat k) (Z.of_nat (S k)));
          [reflexivity | lia].
      + rewrite list_lookup_insert_ne by lia. rewrite IH by lia.
        destruct (Z.ltb_spec i (Z.of_nat k)),
                 (Z.ltb_spec i (Z.of_nat (S k)));
          (reflexivity || lia). }
  specialize (G (Z.to_nat n)). rewrite Z2Nat.id in G by lia.
  apply G. lia.
Qed.

(** A packet accepted by its own terminator is recorded with a byte count
    that agrees with its bit length as the driver rounds it, so that
    [getData], which copies [datCount - 3] bytes, copies as many as [getRaw]
    and [dpketSize] announce: (bitLen+7)/8 of them, unless [int] has 16 bits
    and the sum wraps. *)
Lemma accepted_count_matches s :
  modIsLow s = false -> previousData s <> 0x7a -> fData s = false ->
  fData (processData 0x7a s) = true ->
  let s' := processData 0x7a s in
  datCount s' - 3 = bytesFor (int16 s') (bitLen s') /\
  (int16 s = false \/ bitLen s' < 0xFFF9 ->
   datCount s' - 3 = (bitLen s' + 7) / 8).
Proof.
  intros M P D. cbv zeta. apply Z.eqb_neq in P.
  unfold processData. rewrite M, P. change (122 =? 122) with true. cbv iota.
  split_ifs; bool_hyps; intros H; try congruence.
  split; [lia|]. intros E. rewrite <- (bytesFor_exact _ _ E). lia.
Qed.

(** C9 at a failing input.  After [stale_stream] data-ready is up with bit
    length 1: [dpketSize] announces 3 bytes and [getRaw] copies the one
    payload byte, but [getData], which loops to [datCount - 3], copies none
    and leaves the target's data as it was. *)
Theorem C9_getData_stale_count :
  let s := feed stale_stream rx0 in
  reachable s /\ uart_rx s = [] /\
  fData s = true /\ bitLen s = 1 /\ (bitLen s + 7) / 8 = 1 /\
  snd (dpketSize s) = 3 /\ datCount s = 0 /\
  getData (mkDataPkt 0 [0xAA]) s =
    (set_dataPktReady false s, mkDataPkt 1 [0xAA], 0x01) /\
  snd (fst (getRaw [0xAA] 1 s)) = [0x00].
Proof.
  cbv zeta. split; [apply reachable_feed_init|].
  vm_compute. repeat split.
Qed.

Lemma getData_overwritten_packet :
  let s := feed overwritten_stream rx0 in
  fData s = true /\ bitLen s = 0 /\ snd (dpketSize s) = 2 /\ datCount s = 51 /\
  pkt_data (snd (fst (getData (mkDataPkt 0 (repeat 0xAA 50)) s))) =
    repeat 0x01 18 ++ repeat 0x00 30 ++ [0xAA; 0xAA].
Proof. vm_compute. repeat split. Qed.

(** ** Shutdown and command-complete *)

(** In receive mode no byte touches [cmdComplete]. *)
Lemma processData_receive_complete b s :
  modIsLow s = false -> fComplete (processData b s) = fComplete s.
Proof.
  intros M. destruct (Z.eq_dec b 0x7a) as [-> | Nb].
  - apply (processData_terminator s M).
  - destruct (fStarted s) eqn:S.
    + apply (processData_inside b s M Nb S).
    + apply (processData_first b s M Nb S).
Qed.

Lemma feed_receive_complete l : forall s,
  modIsLow s = false -> fComplete (feed l s) = fComplete s.
Proof.
  induction l as [|b l IH]; intros s M; [reflexivity|].
  change (feed (b :: l) s) with (feed l (processData b s)).
  rewrite IH by (rewrite processData_modIsLow; exact M).
  apply processData_receive_complete, M.
Qed.

(** In transmit mode only a terminator sets it. *)
Lemma feed_transmit_complete l : forall s,
  modIsLow s = true -> fComplete (feed l s) = true ->
  fComplete s = true \/ In 0x7a l.
Proof.
  induction l as [|b l IH]; intros s M H; [auto|].
  change (feed (b :: l) s) with (feed l (processData b s)) in H.
  apply IH in H; [| rewrite processData_modIsLow; exact M].
  destruct H as [H | H]; [| right; right; exact H].
  rewrite (processData_transmit b s M) in H.
  destruct (Z.eqb_spec b 0x7a) as [-> | Nb]; [right; left; reflexivity | auto].
Qed.

Lemma statusUpdate_complete s :
  fComplete (statusUpdate s) = true ->
  fComplete s = true \/ (modIsLow s = true /\ In 0x7a (uart_rx s)).
Proof.
  rewrite statusUpdate_feed. simp_state.
  change (cmdComplete (bc7215Status ?x)) with (fComplete x).
  destruct ((modPin s =? -2) || (modPin s >=? 0) && eqb (modLevel s) LOW) eqn:M;
    intros H.
  - apply feed_transmit_complete in H; [tauto | exact M].
  - rewrite feed_receive_complete in H by exact M. auto.
Qed.

(** C10. [setShutDown], whenever it returns, leaves command-complete false.
    With MOD hard-wired high or a real MOD pin reading high it returns without
    writing a byte, and [cmdCompleted] then answers false whatever is pending
    on the serial port.  Command-complete is raised again only by [setTx] or
    by a terminator that [processData] sees while MOD is low; a terminator in
    receive mode does not raise it. *)
Theorem C10_setShutDown_clears_cmdComplete :
  (forall s s', setShutDown s = Some s' -> fComplete s' = false) /\
  (forall s,
     modPin s = MOD_HIGH \/ (0 <= modPin s /\ modLevel s = HIGH) ->
     setShutDown s = Some (set_cmdComplete false s) /\
     uart_tx (set_cmdComplete false s) = uart_tx s /\
     snd (cmdCompleted (set_cmdComplete false s)) = false) /\
  (forall s,
     modIsLow s = true -> busyPin s = BUSY_NC \/ busyLevel s = LOW ->
     exists s', setShutDown s = Some s' /\
                uart_tx s' = uart_tx s ++ [0xf7; 0x00] /\ fComplete s' = false) /\
  (forall b s,
     fComplete s = false -> fComplete (processData b s) = true ->
     b = 0x7a /\ modIsLow s = true) /\
  (forall c s s',
     exec c s = Some s' -> fComplete s = false -> fComplete s' = true ->
     c = CallSetTx \/
     (drains c = true /\ modIsLow s = true /\ In 0x7a (uart_rx s))).
Proof.
  split; [| split; [| split; [| split]]].
  - intros s s'. unfold setShutDown.
    destruct (if modIsLow s then _ else _) as [s1|]; cbn [mbind option_bind];
      [| discriminate].
    intros [= <-]. reflexivity.
  - intros s H.
    assert (M : modIsLow s = false).
    { unfold modIsLow, MOD_HIGH, HIGH, LOW in *.
      destruct H as [-> | [H ->]]; [reflexivity|].
      cbn [eqb]. rewrite andb_false_r, orb_false_r. apply Z.eqb_neq. lia. }
    split; [| split].
    + unfold setShutDown. rewrite M. reflexivity.
    + reflexivity.
    + unfold cmdCompleted. cbn [snd].
      rewrite statusUpdate_feed.
      change (fComplete (set_uart_rx [] ?x)) with (fComplete x).
      rewrite feed_receive_complete; [reflexivity | exact M].
  - intros s M B. unfold setShutDown. rewrite M.
    rewrite sendOneByte_free by exact B. cbn [mbind option_bind].
    rewrite sendOneByte_free by exact B. cbn [mbind option_bind].
    eexists. split; [reflexivity|]. simp_state.
    rewrite <- app_assoc. auto.
  - intros b s C H.
    destruct (modIsLow s) eqn:M.
    + rewrite (processData_transmit b s M) in H.
      destruct (Z.eqb_spec b 0x7a); [auto | congruence].
    + rewrite processData_receive_complete in H by exact M. congruence.
  - intros c s s' E C H.
    assert (D : forall x, fComplete (set_dataPktReady false x) = fComplete x)
      by reflexivity.
    assert (F : forall x, fComplete (set_formatPktReady false x) = fComplete x)
      by reflexivity.
    assert (U : fComplete (statusUpdate s) = true ->
                modIsLow s = true /\ In 0x7a (uart_rx s)).
    { intros K. apply statusUpdate_complete in K as [K | K]; [congruence | exact K]. }
    destruct c; cbn [exec drains] in *;
      try (left; reflexivity);
      try (injection E as <-);
      try (right; split; [reflexivity|]; apply U; exact H);
      try (exfalso; revert H; unfold setRx, clrData, clrFormat;
           split_ifs; congruence).
    + apply setShutDown_tx_only, tx_only_flags in E. intuition congruence.
    + apply setRxMode_tx_only, tx_only_flags in E. intuition congruence.
    + right. split; [reflexivity|]. apply U. revert H. unfold getData.
      destruct (fData (statusUpdate s)); cbn [fst]; rewrite ?D; auto.
    + right. split; [reflexivity|]. apply U. revert H. unfold getRaw.
      destruct (fData (statusUpdate s)); cbn [fst]; rewrite ?D; auto.
    + right. split; [reflexivity|]. apply U. revert H. unfold getFormat.
      destruct (fFormat (statusUpdate s)); cbn [fst]; rewrite ?F; auto.
    + apply loadFormat_tx_only, tx_only_flags in E. intuition congruence.
    + apply irTx_tx_only, tx_only_flags in E. intuition congruence.
    + apply sendRaw_tx_only, tx_only_flags in E. intuition congruence.
Qed.

Lemma C10_witness :
  setShutDown (setTx rx0) = Some (set_cmdComplete false (setTx rx0)) /\
  snd (cmdCompleted (set_uart_rx [0x7a] (set_cmdComplete false (setTx rx0)))) = false /\
  fComplete (processData 0x7a (set_cmdComplete false tx0)) = true.
Proof.
  destruct C10_setShutDown_clears_cmdComplete as (_ & T & _ & P & _).
  split; [| split].
  - apply (T (setTx rx0)). left. reflexivity.
  - destruct (T (set_uart_rx [0x7a] (setTx rx0))) as (_ & _ & H).
    + left. reflexivity.
    + exact H.
  - destruct (fComplete (processData 0x7a (set_cmdComplete false tx0))) eqn:E;
      [reflexivity|].
    vm_compute in E. discriminate E.
Defined.

(** * Further properties of the code *)

(** * Further properties of the code *)

(** ** CRC-8 *)

(** Checking a property of bytes by running through all 256 of them. *)
Lemma forall_bytes (f : Z -> bool) :
  forallb f (seqZ 0 256) = true -> forall x, 0 <= x < 256 -> f x = true.
Proof.
  intros H x Hx. rewrite forallb_forall in H. apply H.
  apply list_elem_of_In, elem_of_seqZ. lia.
Qed.

Lemma crc8_bit_range crc : 0 <= crc8_bit crc < 256.
Proof. unfold crc8_bit. destruct (negb _); apply u8_range. Qed.

Lemma crc8_byte_range crc byte : 0 <= crc8_byte crc byte < 256.
Proof. unfold crc8_byte. cbn [Nat.iter]. apply crc8_bit_range. Qed.

(** Over a whole list the loop of [crc8] is a left fold of [crc8_byte]. *)
Lemma crc8_fold_from data : forall crc k,
  fold_left (fun crc i => crc8_byte crc (default 0 ((k ++ data) !! Z.to_nat i)))
            (seqZ (Z.of_nat (length k)) (Z.of_nat (length data))) crc
  = fold_left crc8_byte data crc.
Proof.
  induction data as [|b data IH]; intros crc k; [reflexivity|].
  cbn [length]. rewrite Nat2Z.inj_succ, <- Z.add_1_r.
  rewrite seqZ_cons by lia. cbn [fold_left].
  rewrite Nat2Z.id, list_lookup_middle by reflexivity. cbn [default].
  replace (Z.succ (Z.of_nat (length k))) with (Z.of_nat (length (k ++ [b])))
    by (rewrite length_app; cbn [length]; lia).
  replace (Z.pred (Z.of_nat (length data) + 1)) with (Z.of_nat (length data)) by lia.
  replace (k ++ b :: data) with ((k ++ [b]) ++ data) by (now rewrite <- app_assoc).
  apply IH.
Qed.

Lemma crc8_fold data :
  crc8 data (Z.of_nat (length data)) = fold_left crc8_byte data 0.
Proof. apply (crc8_fold_from data 0 []). Qed.

Lemma crc8_range data len : 0 <= crc8 data len < 256.
Proof.
  unfold crc8. generalize (seqZ 0 len) as l. intros l.
  assert (G : forall crc, 0 <= crc < 256 ->
            0 <= fold_left (fun crc i => crc8_byte crc (default 0 (data !! Z.to_nat i)))
                   l crc < 256).
  { induction l as [|i l IH]; intros crc H; cbn [fold_left]; [exact H|].
    apply IH, crc8_byte_range. }
  apply G. lia.
Qed.

(** X1. A message followed by its own CRC has CRC 0. *)
Theorem crc8_append_check data :
  crc8 (data ++ [crc8 data (Z.of_nat (length data))])
       (Z.of_nat (length data) + 1) = 0.
Proof.
  replace (Z.of_nat (length data) + 1)
    with (Z.of_nat (length (data ++ [crc8 data (Z.of_nat (length data))])))
    by (rewrite length_app; cbn [length]; lia).
  rewrite !crc8_fold, fold_left_app. cbn [fold_left].
  unfold crc8_byte. rewrite Z.lxor_nilpotent. reflexivity.
Qed.

Lemma lxor_byte x y : is_byte x -> is_byte y -> is_byte (Z.lxor x y).
Proof.
  intros Hx Hy. split; [apply Z.lxor_nonneg; unfold is_byte in *; lia|].
  apply Z.ltb_lt.
  pose proof (forall_bytes
    (fun x => forallb (fun y => Z.lxor x y <? 256) (seqZ 0 256))) as G.
  assert (E : forallb (fun x => forallb (fun y => Z.lxor x y <? 256) (seqZ 0 256))
                      (seqZ 0 256) = true) by (vm_compute; reflexivity).
  specialize (G E x Hx).
  apply (forall_bytes (fun y => Z.lxor x y <? 256) G y Hy).
Qed.

(** Eight turns of the inner loop never map two bytes to the same value. *)
Lemma crc8_rounds_injective x y :
  is_byte x -> is_byte y ->
  Nat.iter 8 crc8_bit x = Nat.iter 8 crc8_bit y -> x = y.
Proof.
  intros Hx Hy E.
  set (f := fun x => forallb
         (fun y => implb (Nat.iter 8 crc8_bit x =? Nat.iter 8 crc8_bit y) (x =? y))
         (seqZ 0 256)).
  assert (A : forallb f (seqZ 0 256) = true) by (vm_compute; reflexivity).
  pose proof (forall_bytes f A x Hx) as B. unfold f in B.
  pose proof (forall_bytes _ B y Hy) as C. cbv beta in C.
  rewrite E, Z.eqb_refl in C. cbn [implb] in C. apply Z.eqb_eq, C.
Qed.

Lemma crc8_byte_injective c1 c2 d :
  is_byte c1 -> is_byte c2 -> is_byte d ->
  crc8_byte c1 d = crc8_byte c2 d -> c1 = c2.
Proof.
  intros H1 H2 Hd E. unfold crc8_byte in E.
  apply crc8_rounds_injective in E; [| apply lxor_byte; assumption ..].
  rewrite <- (Z.lxor_0_r c1), <- (Z.lxor_0_r c2), <- (Z.lxor_nilpotent d).
  rewrite <- !Z.lxor_assoc. congruence.
Qed.

(** X2. Changing one byte of a message always changes its CRC. *)
Theorem crc8_detects_single_byte l1 a b l2 :
  is_byte a -> is_byte b -> Forall is_byte l2 -> a <> b ->
  crc8 (l1 ++ a :: l2) (Z.of_nat (length (l1 ++ a :: l2)))
  <> crc8 (l1 ++ b :: l2) (Z.of_nat (length (l1 ++ b :: l2))).
Proof.
  intros Ha Hb Hl Hab. rewrite !crc8_fold, !fold_left_app. cbn [fold_left].
  assert (Hc : is_byte (fold_left crc8_byte l1 0)).
  { rewrite <- crc8_fold. apply crc8_range. }
  set (c := fold_left crc8_byte l1 0) in *.
  assert (N : crc8_byte c a <> crc8_byte c b).
  { unfold crc8_byte. intros E.
    apply crc8_rounds_injective in E; [| apply lxor_byte; assumption ..].
    apply Hab.
    rewrite <- (Z.lxor_0_l a), <- (Z.lxor_0_l b), <- (Z.lxor_nilpotent c).
    rewrite !Z.lxor_assoc. congruence. }
  assert (R1 : is_byte (crc8_byte c a)) by apply crc8_byte_range.
  assert (R2 : is_byte (crc8_byte c b)) by apply crc8_byte_range.
  revert N R1 R2. generalize (crc8_byte c a) (crc8_byte c b). clear - Hl.
  induction Hl as [|d l2 Hd _ IH]; intros x y N Rx Ry; cbn [fold_left]; [exact N|].
  apply IH; [| apply crc8_byte_range ..].
  intros E. apply N. apply (crc8_byte_injective x y d); assumption.
Qed.

Lemma crc8_detects_single_byte_witness :
  crc8 [0x12; 0x34; 0x56] 3 <> crc8 [0x12; 0x35; 0x56] 3.
Proof.
  apply (crc8_detects_single_byte [0x12] 0x34 0x35 [0x56]).
  - unfold is_byte. lia.
  - unfold is_byte. lia.
  - repeat constructor; unfold is_byte; lia.
  - discriminate.
Defined.

(** X3. Zero bytes in front of a message do not change its CRC (the
    register starts at 0), so the CRC alone cannot tell how many there
    were. *)
Theorem crc8_leading_zeros n data :
  crc8 (repeat 0 n ++ data) (Z.of_nat (length (repeat 0 n ++ data)))
  = crc8 data (Z.of_nat (length data)).
Proof.
  rewrite !crc8_fold, fold_left_app.
  induction n as [|n IH]; cbn [repeat fold_left]; [reflexivity|].
  exact IH.
Qed.

(** ** Packet comparison *)

Lemma land_1_testbit d : Z.land d 0x01 = Z.b2z (Z.testbit d 0).
Proof.
  change 0x01 with (Z.ones 1). rewrite Z.land_ones by lia.
  change (2 ^ 1) with 2. symmetry. apply Z.bit0_mod.
Qed.

Lemma land_0x80_b2z d : Z.land d 0x80 = 128 * Z.b2z (Z.testbit d 7).
Proof.
  pose proof (land_0x80_testbit d) as H.
  destruct (Z.testbit d 7) eqn:E; cbn [negb Z.b2z] in *.
  - apply Z.eqb_neq in H.
    change (128 * 1) with (2 ^ 7). change 0x80 with (2 ^ 7).
    apply Z.bits_inj'. intros n Hn.
    rewrite Z.land_spec, Z.pow2_bits_eqb by lia.
    destruct (Z.eqb_spec 7 n) as [<- |]; [now rewrite E | apply andb_false_r].
  - apply Z.eqb_eq in H. rewrite H. reflexivity.
Qed.

Lemma b2z_eqb a b : (Z.b2z a =? Z.b2z b) = Bool.eqb a b.
Proof. now destruct a, b. Qed.

Lemma compareLow_spec n : forall dat1 dat2,
  compareLow n dat1 dat2 = true <->
  (forall k, 0 <= k < Z.of_nat n -> Z.testbit dat1 k = Z.testbit dat2 k).
Proof.
  induction n as [|n IH]; intros d1 d2; cbn [compareLow].
  - split; [intros _ k Hk; lia | reflexivity].
  - rewrite !land_1_testbit, b2z_eqb.
    destruct (Bool.eqb (Z.testbit d1 0) (Z.testbit d2 0)) eqn:E; cbn [negb].
    + apply eqb_prop in E. rewrite IH. split; intros H k Hk.
      * destruct (Z.eq_dec k 0) as [-> | Nk]; [exact E|].
        specialize (H (k - 1)). rewrite !Z.shiftr_spec in H by lia.
        replace (k - 1 + 1) with k in H by lia. apply H. lia.
      * rewrite !Z.shiftr_spec by lia. apply H. lia.
    + split; [discriminate|]. intros H.
      rewrite (H 0), eqb_reflx in E by lia. discriminate.
Qed.

Lemma compareHigh_spec n : forall dat1 dat2,
  (n <= 8)%nat ->
  compareHigh n dat1 dat2 = true <->
  (forall k, 0 <= k < Z.of_nat n -> Z.testbit dat1 (7 - k) = Z.testbit dat2 (7 - k)).
Proof.
  induction n as [|n IH]; intros d1 d2 Hn; cbn [compareHigh].
  - split; [intros _ k Hk; lia | reflexivity].
  - rewrite !land_0x80_b2z.
    replace (128 * Z.b2z (Z.testbit d1 7) =? 128 * Z.b2z (Z.testbit d2 7))
      with (Bool.eqb (Z.testbit d1 7) (Z.testbit d2 7))
      by (now destruct (Z.testbit d1 7), (Z.testbit d2 7)).
    assert (S : forall d k, 0 <= k < Z.of_nat n ->
                Z.testbit (u8 (Z.shiftl d 1)) (7 - k) = Z.testbit d (7 - (k + 1))).
    { intros d k Hk. unfold u8. change 256 with (2 ^ 8).
      rewrite Z.mod_pow2_bits_low by lia. rewrite Z.shiftl_spec by lia.
      f_equal. lia. }
    destruct (Bool.eqb (Z.testbit d1 7) (Z.testbit d2 7)) eqn:E; cbn [negb].
    + apply eqb_prop in E. rewrite IH by lia. split; intros H k Hk.
      * destruct (Z.eq_dec k 0) as [-> | Nk]; [exact E|].
        specialize (H (k - 1)). rewrite !S in H by lia.
        replace (k - 1 + 1) with k in H by lia. apply H. lia.
      * rewrite !S by lia. apply H. lia.
    + split; [discriminate|]. intros H.
      specialize (H 0). change (7 - 0) with 7 in H.
      rewrite H, eqb_reflx in E by lia. discriminate.
Qed.

(** X4. Two packets compare equal exactly when their bit lengths are equal,
    their whole bytes are equal, and the bitLen mod 8 bits of the last,
    partial byte that the signature selects are equal; the other bits of
    that byte are not looked at. *)
Theorem compareDpkt_spec sig pkt1 pkt2 :
  0 <= pkt_bitLen pkt1 ->
  compareDpkt sig pkt1 pkt2 = true <->
  pkt_bitLen pkt1 = pkt_bitLen pkt2 /\
  (forall i, 0 <= i < pkt_bitLen pkt1 / 8 -> data_at pkt1 i = data_at pkt2 i) /\
  (forall k, 0 <= k < pkt_bitLen pkt1 mod 8 ->
     Z.testbit (data_at pkt1 (pkt_bitLen pkt1 / 8)) (comparedBit sig k) =
     Z.testbit (data_at pkt2 (pkt_bitLen pkt1 / 8)) (comparedBit sig k)).
Proof.
  intros Hlen. unfold compareDpkt, comparedBit.
  assert (B : Z.land (pkt_bitLen pkt1) 0x07 = pkt_bitLen pkt1 mod 8).
  { change 0x07 with (Z.ones 3). now rewrite Z.land_ones by lia. }
  rewrite B. pose proof (Z.mod_pos_bound (pkt_bitLen pkt1) 8 ltac:(lia)) as Hb.
  set (len := pkt_bitLen pkt1 / 8). set (bits := pkt_bitLen pkt1 mod 8) in *.
  destruct (Z.eqb_spec (pkt_bitLen pkt1) (pkt_bitLen pkt2)) as [El | Nl]; cbn [negb];
    [| split; [discriminate | tauto]].
  assert (W : existsb (fun i16 => negb (data_at pkt1 i16 =? data_at pkt2 i16))
                      (seqZ 0 len) = false <->
              (forall i, 0 <= i < len -> data_at pkt1 i = data_at pkt2 i)).
  { rewrite <- not_true_iff_false, existsb_exists. split.
    - intros H i Hi. destruct (Z.eq_dec (data_at pkt1 i) (data_at pkt2 i)) as [|N]; [assumption|].
      exfalso. apply H. exists i. split.
      + apply list_elem_of_In, elem_of_seqZ. lia.
      + apply negb_true_iff, Z.eqb_neq, N.
    - intros H (i & Hi & Hn). apply list_elem_of_In, elem_of_seqZ in Hi.
      apply negb_true_iff, Z.eqb_neq in Hn. apply Hn, H. lia. }
  destruct (existsb _ (seqZ 0 len)) eqn:Ex.
  { split; [discriminate|]. intros (_ & H & _).
    apply W in H. discriminate. }
  assert (Hw := proj1 W eq_refl).
  destruct (Z.eqb_spec bits 0) as [E0 | N0]; cbn [negb].
  { split; [| reflexivity]. intros _. repeat split; auto. intros k Hk. lia. }
  destruct (Z.eqb_spec (data_at pkt1 len) (data_at pkt2 len)) as [Ed | Nd].
  { split; [| reflexivity]. intros _. repeat split; auto.
    intros k _. now rewrite Ed. }
  destruct (Z.land sig 48 =? 48).
  - rewrite compareLow_spec, Z2Nat.id by lia. tauto.
  - rewrite compareHigh_spec, Z2Nat.id by lia. tauto.
Qed.

Lemma compareDpkt_spec_witness :
  compareDpkt 0x30 (mkDataPkt 12 [0x5A; 0xF3]) (mkDataPkt 12 [0x5A; 0x03]) = true /\
  compareDpkt 0x00 (mkDataPkt 12 [0x5A; 0xF3]) (mkDataPkt 12 [0x5A; 0x03]) = false.
Proof.
  split.
  - apply (compareDpkt_spec 0x30 (mkDataPkt 12 [0x5A; 0xF3])
                                 (mkDataPkt 12 [0x5A; 0x03])).
    + cbn [pkt_bitLen]. lia.
    + split; [reflexivity | split].
      * intros i Hi. cbn [pkt_bitLen] in Hi. change (12 / 8) with 1 in Hi.
        assert (i = 0) as -> by lia. reflexivity.
      * intros k Hk.
        cbn [pkt_bitLen] in Hk. change (12 mod 8) with 4 in Hk.
        assert (K : k = 0 \/ k = 1 \/ k = 2 \/ k = 3) by lia.
        destruct K as [-> | [-> | [-> | ->]]]; reflexivity.
  - destruct (compareDpkt 0x00 (mkDataPkt 12 [0x5A; 0xF3])
                               (mkDataPkt 12 [0x5A; 0x03])) eqn:E; [| reflexivity].
    apply compareDpkt_spec in E; [| cbn [pkt_bitLen]; lia].
    destruct E as (_ & _ & E). cbn [pkt_bitLen] in E.
    change (12 mod 8) with 4 in E. specialize (E 0 ltac:(lia)).
    vm_compute in E. discriminate E.
Defined.

(** ** Copying a data packet *)

Lemma mem_at_insert (m : list Z) (j : nat) (v a : Z) :
  (j < length m)%nat -> 0 <= a ->
  mem_at (<[j := v]> m) a = if Nat.eqb (Z.to_nat a) j then v else mem_at m a.
Proof.
  intros Hj Ha. unfold mem_at.
  destruct (Nat.eqb_spec (Z.to_nat a) j) as [-> | N].
  - now rewrite list_lookup_insert_eq.
  - now rewrite list_lookup_insert_ne by congruence.
Qed.

(** The front-to-end loop, for a source behind the target. *)
Lemma copy_forward t s mem (k : nat) :
  0 <= t < s -> s + Z.of_nat k <= Z.of_nat (length mem) ->
  let m' := fold_left
              (fun m i => <[Z.to_nat (t + i) := mem_at m (s + i)]> m)
              (seqZ 0 (Z.of_nat k)) mem in
  length m' = length mem /\
  (forall i, 0 <= i < Z.of_nat k -> mem_at m' (t + i) = mem_at mem (s + i)) /\
  (forall a, 0 <= a -> a < t \/ t + Z.of_nat k <= a -> mem_at m' a = mem_at mem a).
Proof.
  intros Hts. induction k as [|k IH]; intros Hb; cbv zeta.
  - change (Z.of_nat 0) with 0. rewrite seqZ_nil by lia. cbn [fold_left].
    repeat split; auto. intros i Hi. lia.
  - rewrite seqZ_S, fold_left_app. cbn [fold_left]. rewrite Z.add_0_l.
    destruct IH as (L & C & U); [lia|].
    set (m := fold_left _ (seqZ 0 (Z.of_nat k)) mem) in *.
    assert (J : (Z.to_nat (t + Z.of_nat k) < length m)%nat) by (rewrite L; lia).
    split; [now rewrite length_insert|]. split.
    + intros i Hi. rewrite mem_at_insert by (exact J || lia).
      destruct (Nat.eqb_spec (Z.to_nat (t + i)) (Z.to_nat (t + Z.of_nat k))) as [E | N].
      * replace i with (Z.of_nat k) by lia. apply U; lia.
      * apply C. lia.
    + intros a Ha Hout. rewrite mem_at_insert by (exact J || lia).
      destruct (Nat.eqb_spec (Z.to_nat a) (Z.to_nat (t + Z.of_nat k))) as [E | N];
        [lia | apply U; lia].
Qed.

(** The end-to-front loop, for a source before the target. *)
Lemma copy_backward t s (k : nat) : forall mem,
  0 <= s < t -> t + Z.of_nat k <= Z.of_nat (length mem) ->
  let m' := fold_left
              (fun m i => <[Z.to_nat (t + i - 1) := mem_at m (s + i - 1)]> m)
              (reverse (seqZ 1 (Z.of_nat k))) mem in
  length m' = length mem /\
  (forall i, 0 <= i < Z.of_nat k -> mem_at m' (t + i) = mem_at mem (s + i)) /\
  (forall a, 0 <= a -> a < t \/ t + Z.of_nat k <= a -> mem_at m' a = mem_at mem a).
Proof.
  induction k as [|k IH]; intros mem Hst Hb; cbv zeta.
  - change (Z.of_nat 0) with 0. rewrite seqZ_nil by lia. cbn [reverse fold_left].
    change (rev_append [] []) with (@nil Z). cbn [fold_left].
    repeat split; auto. intros i Hi. lia.
  - rewrite seqZ_S, reverse_snoc. cbn [fold_left].
    replace (t + (1 + Z.of_nat k) - 1) with (t + Z.of_nat k) by lia.
    replace (s + (1 + Z.of_nat k) - 1) with (s + Z.of_nat k) by lia.
    assert (J : (Z.to_nat (t + Z.of_nat k) < length mem)%nat) by lia.
    set (m1 := <[Z.to_nat (t + Z.of_nat k) := mem_at mem (s + Z.of_nat k)]> mem).
    assert (L1 : length m1 = length mem) by apply length_insert.
    destruct (IH m1 Hst) as (L & C & U); [rewrite L1; lia|].
    split; [congruence|]. split.
    + intros i Hi. destruct (Z.eq_dec i (Z.of_nat k)) as [-> | N].
      * rewrite U by lia. unfold m1. rewrite mem_at_insert by (exact J || lia).
        now rewrite Nat.eqb_refl.
      * rewrite C by lia. unfold m1. rewrite mem_at_insert by (exact J || lia).
        destruct (Nat.eqb_spec (Z.to_nat (s + i)) (Z.to_nat (t + Z.of_nat k)));
          [lia | reflexivity].
    + intros a Ha Hout. rewrite U by lia. unfold m1.
      rewrite mem_at_insert by (exact J || lia).
      destruct (Nat.eqb_spec (Z.to_nat a) (Z.to_nat (t + Z.of_nat k)));
        [lia | reflexivity].
Qed.

Lemma calSize_range dataPkt :
  0 <= pkt_bitLen dataPkt -> 0 <= calSize dataPkt <= 514.
Proof.
  intros H. unfold calSize.
  destruct (Z.ltb_spec (pkt_bitLen dataPkt) 0x1000); [| lia].
  pose proof (Z.div_pos (pkt_bitLen dataPkt + 7) 8 ltac:(lia) ltac:(lia)).
  pose proof (Z.div_lt_upper_bound (pkt_bitLen dataPkt + 7) 8 513 ltac:(lia) ltac:(lia)).
  lia.
Qed.

(** X5. [copyDpkt] moves the [calSize] bytes of the source packet to the
    target also when the two regions overlap: afterwards the target region
    holds what the source region held before, and no byte outside the
    target region has changed. *)
Theorem copyDpkt_moves target source mem :
  0 <= target -> 0 <= source ->
  let n := calSize (pktAt mem source) in
  source + n <= Z.of_nat (length mem) ->
  target + n <= Z.of_nat (length mem) ->
  let mem' := copyDpkt target source mem in
  length mem' = length mem /\
  (forall i, 0 <= i < n -> mem_at mem' (target + i) = mem_at mem (source + i)) /\
  (forall a, 0 <= a -> a < target \/ target + n <= a -> mem_at mem' a = mem_at mem a).
Proof.
  intros Ht Hs n Bs Bt. cbv zeta. unfold copyDpkt. fold n.
  destruct (Z.lt_ge_cases n 0) as [Neg | Hn].
  { rewrite !seqZ_nil by lia. change (reverse []) with (@nil Z). cbn [fold_left].
    assert (E : (if source >? target then mem
                 else if source <? target then mem else mem) = mem)
      by (destruct (source >? target), (source <? target); reflexivity).
    rewrite E. repeat split; auto. intros i Hi. lia. }
  rewrite <- (Z2Nat.id n) by exact Hn.
  destruct (Z.gtb_spec source target) as [G | G].
  - apply copy_forward; lia.
  - destruct (Z.ltb_spec source target) as [L | L].
    + apply copy_backward; lia.
    + assert (source = target) as -> by lia. auto.
Qed.

(** A 12-bit packet (0x0C, 0x00, 0xAA, 0xBB) at address 0, moved one byte up. *)
Lemma copyDpkt_moves_witness :
  copyDpkt 1 0 [0x0C; 0x00; 0xAA; 0xBB; 0x77; 0x99]
  = [0x0C; 0x0C; 0x00; 0xAA; 0xBB; 0x99].
Proof.
  pose proof (copyDpkt_moves 1 0 [0x0C; 0x00; 0xAA; 0xBB; 0x77; 0x99]) as H.
  cbv zeta in H.
  destruct H as (_ & _ & _); try lia; try (vm_compute; discriminate).
  vm_compute. reflexivity.
Defined.

(** ** What the transmit calls put on the wire *)

Lemma busFree_set_uart_tx tx s : busFree s -> busFree (set_uart_tx tx s).
Proof. exact (fun H => H). Qed.

Lemma byteStuffingSend_free b s :
  busFree s ->
  byteStuffingSend b s = Some (set_uart_tx (uart_tx s ++ wire_byte b) s).
Proof.
  intros F. unfold byteStuffingSend, wire_byte.
  destruct ((b =? 122) || (b =? 123)).
  - rewrite sendOneByte_free by exact F. cbn [mbind option_bind].
    rewrite sendOneByte_free by exact F. simp_state.
    now rewrite <- app_assoc.
  - apply sendOneByte_free, F.
Qed.

Lemma stuffAll_free src n s :
  busFree s ->
  stuffAll src n s =
    Some (set_uart_tx
            (uart_tx s ++ stuffed (map (fun i => default 0 (src !! Z.to_nat i)) (seqZ 0 n)))
            s).
Proof.
  intros F. unfold stuffAll. generalize (seqZ 0 n) as l. intros l.
  revert s F. induction l as [|i l IH]; intros s F.
  - cbn [fold_left map stuffed flat_map]. rewrite app_nil_r. now destruct s.
  - cbn [fold_left mbind option_bind map stuffed flat_map].
    rewrite byteStuffingSend_free by exact F.
    rewrite IH by exact F. simp_state.
    change (set_uart_tx ?a (set_uart_tx ?b s)) with (set_uart_tx a s).
    now rewrite <- app_assoc.
Qed.

(** Reading the first [n] bytes of an object that has them. *)
Lemma read_prefix (src : list Z) n :
  0 <= n <= Z.of_nat (length src) ->
  map (fun i => default 0 (src !! Z.to_nat i)) (seqZ 0 n) = take (Z.to_nat n) src.
Proof.
  intros H. apply list_eq. intros j.
  rewrite list_lookup_fmap.
  destruct (decide (j < Z.to_nat n)%nat) as [L | G].
  - rewrite lookup_seqZ_lt by lia. cbn [fmap option_fmap option_map].
    rewrite Z.add_0_l, Nat2Z.id, lookup_take_lt by lia.
    destruct (src !! j) eqn:E; [reflexivity|].
    apply lookup_ge_None in E. lia.
  - rewrite lookup_seqZ_ge by lia. rewrite lookup_take_ge by lia. reflexivity.
Qed.

Lemma wire_byte_no_terminator b : Forall (fun w => w <> 0x7a) (wire_byte b).
Proof.
  unfold wire_byte.
  destruct (Z.eqb_spec b 0x7a) as [-> | Na]; cbn [orb].
  - repeat constructor; discriminate.
  - destruct (Z.eqb_spec b 0x7b) as [-> | Nb].
    + repeat constructor; discriminate.
    + repeat constructor. exact Na.
Qed.

(** Stuffed bytes never contain the terminator. *)
Lemma stuffed_no_terminator l : Forall (fun w => w <> 0x7a) (stuffed l).
Proof.
  induction l as [|b l IH]; cbn [stuffed flat_map]; [constructor|].
  apply Forall_app. split; [apply wire_byte_no_terminator | exact IH].
Qed.

Lemma read_cons b (src : list Z) n :
  0 <= n ->
  map (fun i => default 0 ((b :: src) !! Z.to_nat i)) (seqZ 0 (n + 1))
  = b :: map (fun i => default 0 (src !! Z.to_nat i)) (seqZ 0 n).
Proof.
  intros Hn. rewrite seqZ_cons by lia. cbn [map Z.to_nat lookup list_lookup default].
  f_equal. replace (Z.pred (n + 1)) with n by lia.
  change (Z.succ 0) with (1 + 0). rewrite <- fmap_add_seqZ.
  change (Z.add 1 <$> seqZ 0 n) with (map (Z.add 1) (seqZ 0 n)).
  rewrite map_map. apply map_ext_in. intros i Hi.
  apply list_elem_of_In, elem_of_seqZ in Hi.
  replace (Z.to_nat (1 + i)) with (S (Z.to_nat i)) by lia. reflexivity.
Qed.

(** When BUSY is wired and reads high, no byte gets out. *)
Lemma sendOneByte_blocked data s :
  ~ busFree s -> sendOneByte data s = None.
Proof.
  intros H. unfold sendOneByte, busFree, BUSY_NC, HIGH, LOW in *.
  destruct (Z.eqb_spec (busyPin s) (-3)) as [E | N]; [tauto|].
  destruct (busyLevel s); [reflexivity | tauto].
Qed.

Lemma busFree_dec s : busFree s \/ ~ busFree s.
Proof.
  unfold busFree, BUSY_NC, LOW.
  destruct (Z.eq_dec (busyPin s) (-3)); [auto|].
  destruct (busyLevel s); [right | auto]. intros [|]; congruence.
Qed.

(** X6. In transmit mode [irTx] takes a packet of 8 to 4095 bits: it clears
    command-complete and writes 0xF5, 0x02 and then the stuffed form of the
    first [calSize] bytes of the packet (bit length, low byte first, and the
    data), in which no 0x7A occurs.  In receive mode, or for any other bit
    length, it writes nothing and changes nothing. *)
Theorem irTx_on_the_wire source s :
  (modIsLow s = true -> 8 <= pkt_bitLen source < 0x1000 -> busFree s ->
   (pkt_bitLen source + 7) / 8 <= Z.of_nat (length (pkt_data source)) ->
   let sent := take (Z.to_nat (calSize source)) (dataBytes source) in
   irTx source s =
     Some (set_uart_tx (uart_tx s ++ [0xf5; 0x02] ++ stuffed sent)
             (set_cmdComplete false s)) /\
   Z.of_nat (length sent) = (pkt_bitLen source + 7) / 8 + 2 /\
   Forall (fun w => w <> 0x7a) (stuffed sent)) /\
  (modIsLow s = false \/ pkt_bitLen source < 8 \/ 0x1000 <= pkt_bitLen source ->
   irTx source s = Some s).
Proof.
  split.
  - intros M [H8 H4] F Hl. cbv zeta.
    assert (C : calSize source = 2 + (pkt_bitLen source + 7) / 8).
    { unfold calSize. destruct (Z.ltb_spec (pkt_bitLen source) 0x1000); lia. }
    assert (P : 0 <= (pkt_bitLen source + 7) / 8) by (apply Z.div_pos; lia).
    assert (Ld : Z.of_nat (length (dataBytes source))
                 = 2 + Z.of_nat (length (pkt_data source)))
      by (unfold dataBytes; cbn [length]; lia).
    split; [| split].
    + unfold irTx. rewrite M.
      destruct (Z.geb_spec (pkt_bitLen source) 8); [| lia].
      destruct (Z.ltb_spec (pkt_bitLen source) 0x1000); [| lia]. cbn [andb].
      rewrite sendOneByte_free by exact F. cbn [mbind option_bind].
      rewrite sendOneByte_free by exact F. cbn [mbind option_bind].
      rewrite stuffAll_free by exact F. simp_state.
      rewrite read_prefix by lia. rewrite C.
      change (set_uart_tx ?a (set_uart_tx ?b (set_uart_tx ?c ?x)))
        with (set_uart_tx a x).
      now rewrite <- !app_assoc.
    + rewrite length_take. lia.
    + apply stuffed_no_terminator.
  - intros H. unfold irTx. destruct (modIsLow s); [| reflexivity].
    destruct H as [H | [H | H]]; [discriminate | |].
    + destruct (Z.geb_spec (pkt_bitLen source) 8); [lia | reflexivity].
    + destruct (Z.ltb_spec (pkt_bitLen source) 0x1000); [lia |].
      now rewrite andb_false_r.
Qed.

Lemma irTx_on_the_wire_witness :
  irTx (mkDataPkt 12 [0x7a; 0x05]) tx0 =
    Some (set_uart_tx [0xf5; 0x02; 0x0c; 0x00; 0x7b; 0xfa; 0x05]
            (set_cmdComplete false tx0)) /\
  irTx (mkDataPkt 7 [0x55]) tx0 = Some tx0.
Proof.
  destruct (irTx_on_the_wire (mkDataPkt 12 [0x7a; 0x05]) tx0) as [T _].
  destruct (irTx_on_the_wire (mkDataPkt 7 [0x55]) tx0) as [_ U].
  split.
  - destruct T as (E & _); [reflexivity | cbn [pkt_bitLen]; lia | left; reflexivity
                           | vm_compute; discriminate |].
    exact E.
  - apply U. right. left. cbn [pkt_bitLen]. lia.
Defined.

(** X7. For 1 to 511 bytes [sendRaw] does exactly what [irTx] does with a
    packet of that data and a bit length of eight times the byte count;
    from 512 bytes up it does nothing. *)
Theorem sendRaw_is_irTx source size s :
  (1 <= size < 0x200 ->
   sendRaw source size s = irTx (mkDataPkt (size * 8) source) s) /\
  (0x200 <= size -> sendRaw source size s = Some s).
Proof.
  split.
  - intros Hs. unfold sendRaw, irTx. cbn [pkt_bitLen].
    destruct (modIsLow s); [| reflexivity].
    destruct (Z.ltb_spec size 0x200); [| lia].
    destruct (Z.geb_spec (size * 8) 8); [| lia].
    destruct (Z.ltb_spec (size * 8) 0x1000); [| lia]. cbn [andb].
    destruct (busFree_dec (set_cmdComplete false s)) as [F | B].
    + repeat (rewrite ?sendOneByte_free, ?byteStuffingSend_free by exact F;
              cbn [mbind option_bind]).
      rewrite !stuffAll_free by exact F. simp_state.
      replace (2 + (size * 8 + 7) / 8) with (size + 1 + 1)
        by (Z.div_mod_to_equations; lia).
      unfold dataBytes. cbn [pkt_bitLen pkt_data].
      rewrite !read_cons by lia. cbn [stuffed flat_map].
      change (set_uart_tx ?a (set_uart_tx ?b ?x)) with (set_uart_tx a x).
      now rewrite <- !app_assoc.
    + rewrite !sendOneByte_blocked by exact B. reflexivity.
  - intros Hs. unfold sendRaw. destruct (modIsLow s); [| reflexivity].
    destruct (Z.ltb_spec size 0x200); [lia | reflexivity].
Qed.

Lemma sendRaw_is_irTx_witness :
  sendRaw [0x41; 0x7b] 2 tx0 = irTx (mkDataPkt 16 [0x41; 0x7b]) tx0 /\
  sendRaw [] 0x200 tx0 = Some tx0.
Proof.
  destruct (sendRaw_is_irTx [0x41; 0x7b] 2 tx0) as [T _].
  destruct (sendRaw_is_irTx [] 0x200 tx0) as [_ U].
  split; [apply T | apply U]; lia.
Defined.

(** X8. In transmit mode [loadFormat] writes 0xF6, 0x01 and the stuffed form
    of the 33 bytes of the format packet, and leaves the flags alone; in
    receive mode it writes nothing. *)
Theorem loadFormat_on_the_wire source s :
  (modIsLow s = true -> busFree s -> length (format source) = 32%nat ->
   loadFormat source s =
     Some (set_uart_tx (uart_tx s ++ [0xf6; 0x01] ++ stuffed (formatBytes source)) s)) /\
  (modIsLow s = false -> loadFormat source s = Some s).
Proof.
  split.
  - intros M F L. unfold loadFormat. rewrite M.
    rewrite sendOneByte_free by exact F. cbn [mbind option_bind].
    rewrite sendOneByte_free by exact F. cbn [mbind option_bind].
    rewrite stuffAll_free by exact F. simp_state.
    rewrite read_prefix
      by (unfold formatBytes, sizeof_bc7215FormatPkt_t; cbn [length]; lia).
    rewrite take_ge
      by (unfold formatBytes, sizeof_bc7215FormatPkt_t; cbn [length]; lia).
    change (set_uart_tx ?a (set_uart_tx ?b (set_uart_tx ?c ?x)))
      with (set_uart_tx a x).
    now rewrite <- !app_assoc.
  - intros M. unfold loadFormat. now rewrite M.
Qed.

Lemma loadFormat_on_the_wire_witness :
  loadFormat (mkFormatPkt 0x34 (repeat 0x7a 32)) tx0 =
    Some (set_uart_tx ([0xf6; 0x01; 0x34] ++ stuffed (repeat 0x7a 32)) tx0).
Proof.
  destruct (loadFormat_on_the_wire (mkFormatPkt 0x34 (repeat 0x7a 32)) tx0) as [T _].
  rewrite T; [reflexivity | reflexivity | left; reflexivity | reflexivity].
Defined.

(** ** Receiving what was stuffed *)

Lemma nextPos_ring p : pos_ok p -> nextPos p = ringAt p 1.
Proof.
  unfold pos_ok, nextPos, ringAt, u8. change BC7215_BUFFER_SIZE with 84. intros H.
  rewrite (Z.mod_small (p + 1) 256) by lia.
  destruct (Z.geb_spec (p + 1) 84); Z.div_mod_to_equations; lia.
Qed.

Lemma ringAt_ok p k : pos_ok (ringAt p k).
Proof. unfold pos_ok, ringAt. change BC7215_BUFFER_SIZE with 84. Z.div_mod_to_equations. lia. Qed.

Lemma ringAt_ringAt p j k : ringAt (ringAt p j) k = ringAt p (j + k).
Proof.
  unfold ringAt. change BC7215_BUFFER_SIZE with 84.
  rewrite Zplus_mod_idemp_l. f_equal. lia.
Qed.

Lemma ringAt_distinct p j k :
  0 <= j < k -> k - j < BC7215_BUFFER_SIZE -> ringAt p j <> ringAt p k.
Proof.
  unfold ringAt. change BC7215_BUFFER_SIZE with 84. intros. Z.div_mod_to_equations. lia.
Qed.

(** [bufRead] and [bufBackRead] from positions inside the buffer. *)
Lemma bufRead_ring buf p n :
  pos_ok p -> 0 <= n < BC7215_BUFFER_SIZE ->
  bufRead buf p n = buf_at buf (ringAt p n).
Proof.
  unfold pos_ok, bufRead, ringAt. change BC7215_BUFFER_SIZE with 84. intros Hp Hn.
  destruct (Z.geb_spec (p + n) 84); f_equal; Z.div_mod_to_equations; lia.
Qed.

Lemma bufBackRead_ring buf p n :
  pos_ok p -> 0 <= n < BC7215_BUFFER_SIZE ->
  bufBackRead buf p n = buf_at buf (ringAt p (BC7215_BUFFER_SIZE - n)).
Proof.
  unfold pos_ok, bufBackRead, ringAt. change BC7215_BUFFER_SIZE with 84. intros Hp Hn.
  destruct (Z.geb_spec p n); f_equal; Z.div_mod_to_equations; lia.
Qed.

Lemma buf_at_insert buf p a v :
  length buf = Z.to_nat BC7215_BUFFER_SIZE -> pos_ok p -> pos_ok a ->
  buf_at (<[Z.to_nat p := v]> buf) a = if a =? p then v else buf_at buf a.
Proof.
  unfold pos_ok, buf_at. intros L Hp Ha.
  destruct (Z.leb_spec 0 a); [| lia].
  destruct (Z.ltb_spec a BC7215_BUFFER_SIZE); [| lia]. cbn [andb].
  destruct (Z.eqb_spec a p) as [-> | N].
  - now rewrite list_lookup_insert_eq by lia.
  - now rewrite list_lookup_insert_ne by lia.
Qed.

(** Everything a byte other than 0x7A and 0x7B does to the receive side. *)
Lemma processData_plain b r :
  modIsLow r = false -> b <> 0x7a -> b <> 0x7b ->
  let r' := processData b r in
  modIsLow r' = false /\ uart_rx r' = uart_rx r /\
  circularBuffer r' =
    <[Z.to_nat (nextPos (lastWritingPos r)) :=
        if previousData r =? 0x7b then Z.land b 0x7f else b]> (circularBuffer r) /\
  lastWritingPos r' = nextPos (lastWritingPos r) /\
  byteCount r' = u8 (countSoFar r + 1) /\
  previousData r' = b /\ fStarted r' = true /\
  startPos r' = (if fStarted r then startPos r else nextPos (lastWritingPos r)) /\
  fOverLap r' =
    ((fStarted r && fOverLap r) || (u8 (countSoFar r + 1) >? BC7215_BUFFER_SIZE)).
Proof.
  intros M Ha Hb. cbv zeta. rewrite processData_modIsLow.
  split; [exact M|]. split; [apply processData_env|].
  apply Z.eqb_neq in Ha, Hb.
  unfold processData, nextPos, countSoFar. rewrite M, Ha, Hb.
  simp_state. destruct (pktStarted (bc7215Status r)) eqn:S; cbn [negb andb orb];
    split_ifs;
    repeat match goal with H : ?c = _ |- context [?c] => rewrite H end;
    rewrite ?orb_true_r, ?orb_false_r; auto 10; try congruence.
Qed.

Lemma processData_escape_prefix r :
  modIsLow r = false ->
  let r' := processData 0x7b r in
  modIsLow r' = false /\ uart_rx r' = uart_rx r /\
  circularBuffer r' = circularBuffer r /\
  lastWritingPos r' = lastWritingPos r /\
  countSoFar r' = countSoFar r /\
  previousData r' = 0x7b /\ fStarted r' = true /\
  startPos r' = (if fStarted r then startPos r else nextPos (lastWritingPos r)) /\
  fOverLap r' = (fStarted r && fOverLap r).
Proof.
  intros M. cbv zeta. rewrite processData_modIsLow.
  split; [exact M|]. split; [apply processData_env|].
  unfold processData, nextPos, countSoFar. rewrite M.
  change (123 =? 122) with false. change (123 =? 123) with true. cbv iota.
  simp_state. destruct (pktStarted (bc7215Status r)) eqn:S; cbn [negb andb];
    split_ifs; rewrite ?S; auto 10; try congruence.
Qed.

(** The stuffed form of one byte, received with no escape pending, stores that
    byte. *)
Lemma feed_wire_byte b r :
  modIsLow r = false -> previousData r <> 0x7b ->
  let r' := feed (wire_byte b) r in
  modIsLow r' = false /\ uart_rx r' = uart_rx r /\
  circularBuffer r' =
    <[Z.to_nat (nextPos (lastWritingPos r)) := b]> (circularBuffer r) /\
  lastWritingPos r' = nextPos (lastWritingPos r) /\
  byteCount r' = u8 (countSoFar r + 1) /\
  previousData r' <> 0x7a /\ previousData r' <> 0x7b /\ fStarted r' = true /\
  startPos r' = (if fStarted r then startPos r else nextPos (lastWritingPos r)) /\
  fOverLap r' =
    ((fStarted r && fOverLap r) || (u8 (countSoFar r + 1) >? BC7215_BUFFER_SIZE)).
Proof.
  intros M P. cbv zeta. unfold wire_byte.
  destruct (Z.eqb_spec b 0x7a) as [Ea | Na]; cbn [orb];
    [| destruct (Z.eqb_spec b 0x7b) as [Eb | Nb]].
  3: { cbn [feed fold_left].
       destruct (processData_plain b r M Na Nb) as (M' & U & B & W & C & Q & S & T & O).
       apply Z.eqb_neq in P. rewrite P in B. rewrite Q. auto 12. }
  all: cbn [feed fold_left];
    destruct (processData_escape_prefix r M) as (M1 & U1 & B1 & W1 & C1 & P1 & S1 & T1 & O1);
    assert (Ne : Z.lor b 0x80 <> 0x7a /\ Z.lor b 0x80 <> 0x7b /\
                 Z.land (Z.lor b 0x80) 0x7f = b) by (subst b; repeat split; discriminate);
    destruct Ne as (Nx & Ny & Nz);
    destruct (processData_plain _ _ M1 Nx Ny) as (M2 & U2 & B2 & W2 & C2 & Q2 & S2 & T2 & O2);
    rewrite U2, B2, W2, C2, Q2, T2, O2, U1, B1, W1, C1, P1, S1, T1, O1;
    change (123 =? 123) with true; cbv iota; rewrite Nz; cbn [andb];
    repeat split; auto.
Qed.

(** The stuffed form of a byte string, received inside a packet that still
    fits the buffer, lands in consecutive ring positions. *)
Lemma feed_stuffed_inside m : forall r,
  modIsLow r = false -> fStarted r = true ->
  previousData r <> 0x7a -> previousData r <> 0x7b ->
  fOverLap r = false -> pos_ok (lastWritingPos r) ->
  length (circularBuffer r) = Z.to_nat BC7215_BUFFER_SIZE ->
  0 <= byteCount r -> byteCount r + Z.of_nat (length m) <= BC7215_BUFFER_SIZE ->
  let r' := feed (stuffed m) r in
  modIsLow r' = false /\ uart_rx r' = uart_rx r /\ fStarted r' = true /\
  previousData r' <> 0x7a /\ previousData r' <> 0x7b /\
  lastWritingPos r' = ringAt (lastWritingPos r) (Z.of_nat (length m)) /\
  byteCount r' = byteCount r + Z.of_nat (length m) /\
  fOverLap r' = false /\ startPos r' = startPos r /\
  length (circularBuffer r') = Z.to_nat BC7215_BUFFER_SIZE /\
  (forall j, (j < length m)%nat ->
     buf_at (circularBuffer r') (ringAt (lastWritingPos r) (1 + Z.of_nat j))
     = default 0 (m !! j)) /\
  (forall a, pos_ok a ->
     (forall j, (j < length m)%nat -> a <> ringAt (lastWritingPos r) (1 + Z.of_nat j)) ->
     buf_at (circularBuffer r') a = buf_at (circularBuffer r) a).
Proof.
  induction m as [|b m IH]; intros r M St Pa Pb O W L C0 C; cbv zeta.
  - cbn [stuffed flat_map feed fold_left length].
    repeat split; auto.
    + unfold ringAt, pos_ok in *. change (Z.of_nat 0) with 0.
      rewrite Z.add_0_r, Z.mod_small; [reflexivity | exact W].
    + change (Z.of_nat 0) with 0. lia.
    + intros j Hj. cbn [length] in Hj. lia.
  - change (stuffed (b :: m)) with (wire_byte b ++ stuffed m).
    rewrite feed_app. cbn [length] in C.
    destruct (feed_wire_byte b r M Pb)
      as (M1 & U1 & B1 & W1 & C1 & Pa1 & Pb1 & S1 & T1 & O1).
    set (r1 := feed (wire_byte b) r) in *.
    unfold countSoFar in C1, O1. rewrite St in C1, O1, T1. rewrite O in O1.
    change BC7215_BUFFER_SIZE with 84 in C.
    assert (Cu : u8 (byteCount r + 1) = byteCount r + 1)
      by (unfold u8; apply Z.mod_small; lia).
    rewrite Cu in C1, O1. cbn [andb orb] in O1.
    assert (O1' : fOverLap r1 = false).
    { rewrite O1. change BC7215_BUFFER_SIZE with 84.
      destruct (Z.gtb_spec (byteCount r + 1) 84); [lia | reflexivity]. }
    rewrite (nextPos_ring _ W) in B1, W1.
    assert (L1 : length (circularBuffer r1) = Z.to_nat BC7215_BUFFER_SIZE)
      by (rewrite B1, length_insert; exact L).
    assert (W1' : pos_ok (lastWritingPos r1)) by (rewrite W1; apply ringAt_ok).
    destruct (IH r1 M1 S1 Pa1 Pb1 O1' W1' L1) as
      (M2 & U2 & S2 & Pa2 & Pb2 & W2 & C2 & O2 & T2 & L2 & R2 & F2);
      [rewrite C1; lia | rewrite C1; change BC7215_BUFFER_SIZE with 84; lia |].
    split; [exact M2|]. split; [congruence|]. split; [exact S2|].
    split; [exact Pa2|]. split; [exact Pb2|].
    split; [rewrite W2, W1, ringAt_ringAt; f_equal; cbn [length]; lia|].
    split; [rewrite C2, C1; cbn [length]; lia|].
    split; [exact O2|]. split; [congruence|]. split; [exact L2|].
    split.
    + intros [|j] Hj; cbn [length] in Hj.
      * change (default 0 ((b :: m) !! 0%nat)) with b. change (1 + Z.of_nat 0) with 1.
        rewrite F2.
        -- rewrite B1, buf_at_insert by (exact L || apply ringAt_ok).
           now rewrite Z.eqb_refl.
        -- apply ringAt_ok.
        -- intros j Hj'. rewrite W1, ringAt_ringAt.
           apply ringAt_distinct; change BC7215_BUFFER_SIZE with 84; lia.
      * change ((b :: m) !! S j) with (m !! j). rewrite <- (R2 j) by lia.
        rewrite W1, ringAt_ringAt. do 2 f_equal. lia.
    + intros a Ha Hne. rewrite F2; [| exact Ha |].
      * rewrite B1, buf_at_insert by (exact L || exact Ha || apply ringAt_ok).
        destruct (Z.eqb_spec a (ringAt (lastWritingPos r) 1)) as [E | N];
          [| reflexivity].
        exfalso. apply (Hne 0%nat); [cbn [length]; lia | exact E].
      * intros j Hj. rewrite W1, ringAt_ringAt.
        replace (1 + (1 + Z.of_nat j)) with (1 + Z.of_nat (S j)) by lia.
        apply Hne. cbn [length]. lia.
Qed.

(** The same for a whole packet, from the first byte on. *)
Lemma feed_stuffed_packet b m r :
  modIsLow r = false -> fStarted r = false -> previousData r <> 0x7b ->
  pos_ok (lastWritingPos r) ->
  length (circularBuffer r) = Z.to_nat BC7215_BUFFER_SIZE ->
  Z.of_nat (length (b :: m)) <= BC7215_BUFFER_SIZE ->
  let r' := feed (stuffed (b :: m)) r in
  modIsLow r' = false /\ uart_rx r' = uart_rx r /\
  previousData r' <> 0x7a /\
  lastWritingPos r' = ringAt (lastWritingPos r) (Z.of_nat (length (b :: m))) /\
  byteCount r' = Z.of_nat (length (b :: m)) /\
  fOverLap r' = false /\ startPos r' = ringAt (lastWritingPos r) 1 /\
  length (circularBuffer r') = Z.to_nat BC7215_BUFFER_SIZE /\
  (forall j, (j < length (b :: m))%nat ->
     buf_at (circularBuffer r') (ringAt (lastWritingPos r) (1 + Z.of_nat j))
     = default 0 ((b :: m) !! j)) /\
  (forall a, pos_ok a ->
     (forall j, (j < length (b :: m))%nat ->
        a <> ringAt (lastWritingPos r) (1 + Z.of_nat j)) ->
     buf_at (circularBuffer r') a = buf_at (circularBuffer r) a).
Proof.
  intros M St Pb W L C. cbv zeta.
  change (stuffed (b :: m)) with (wire_byte b ++ stuffed m). rewrite feed_app.
  destruct (feed_wire_byte b r M Pb)
    as (M1 & U1 & B1 & W1 & C1 & Pa1 & Pb1 & S1 & T1 & O1).
  set (r1 := feed (wire_byte b) r) in *.
  unfold countSoFar in C1, O1. rewrite St in C1, O1, T1.
  change (u8 (0 + 1)) with 1 in C1, O1. cbn [andb orb] in O1.
  change (1 >? BC7215_BUFFER_SIZE) with false in O1.
  rewrite (nextPos_ring _ W) in B1, W1, T1.
  assert (L1 : length (circularBuffer r1) = Z.to_nat BC7215_BUFFER_SIZE)
    by (rewrite B1, length_insert; exact L).
  assert (W1' : pos_ok (lastWritingPos r1)) by (rewrite W1; apply ringAt_ok).
  cbn [length] in C.
  destruct (feed_stuffed_inside m r1 M1 S1 Pa1 Pb1 O1 W1' L1) as
    (M2 & U2 & S2 & Pa2 & Pb2 & W2 & C2 & O2 & T2 & L2 & R2 & F2);
    [rewrite C1; lia | rewrite C1; change BC7215_BUFFER_SIZE with 84 in *; lia |].
  split; [exact M2|]. split; [congruence|]. split; [exact Pa2|].
  split; [rewrite W2, W1, ringAt_ringAt; f_equal; cbn [length]; lia|].
  split; [rewrite C2, C1; cbn [length]; lia|].
  split; [exact O2|]. split; [congruence|]. split; [exact L2|].
  split.
  - intros [|j] Hj; cbn [length] in Hj.
    + change (default 0 ((b :: m) !! 0%nat)) with b. change (1 + Z.of_nat 0) with 1.
      rewrite F2.
      * rewrite B1, buf_at_insert by (exact L || apply ringAt_ok).
        now rewrite Z.eqb_refl.
      * apply ringAt_ok.
      * intros j Hj'. rewrite W1, ringAt_ringAt.
        apply ringAt_distinct; change BC7215_BUFFER_SIZE with 84 in *; lia.
    + change ((b :: m) !! S j) with (m !! j). rewrite <- (R2 j) by lia.
      rewrite W1, ringAt_ringAt. do 2 f_equal. lia.
  - intros a Ha Hne. rewrite F2; [| exact Ha |].
    + rewrite B1, buf_at_insert by (exact L || exact Ha || apply ringAt_ok).
      destruct (Z.eqb_spec a (ringAt (lastWritingPos r) 1)) as [E | N];
        [| reflexivity].
      exfalso. apply (Hne 0%nat); [cbn [length]; lia | exact E].
    + intros j Hj. rewrite W1, ringAt_ringAt.
      replace (1 + (1 + Z.of_nat j)) with (1 + Z.of_nat (S j)) by lia.
      apply Hne. cbn [length]. lia.
Qed.

(** ** Receiving a data packet *)

Lemma byte_pair_value hi lo :
  is_byte hi -> is_byte lo -> Z.lor (Z.shiftl hi 8) lo = hi * 256 + lo.
Proof.
  intros Hh Hl.
  set (f := fun hi => forallb (fun lo => Z.lor (Z.shiftl hi 8) lo =? hi * 256 + lo)
                              (seqZ 0 256)).
  assert (A : forallb f (seqZ 0 256) = true) by (vm_compute; reflexivity).
  pose proof (forall_bytes f A hi Hh) as B. unfold f in B.
  apply Z.eqb_eq, (forall_bytes _ B lo Hl).
Qed.

Lemma status_no_error st : 0 <= st < 128 -> (Z.land st 0x80 =? 0) = true.
Proof.
  intros H. rewrite land_0x80_testbit. apply negb_true_iff.
  destruct (Z.eq_dec st 0) as [-> | N]; [reflexivity|].
  apply Z.bits_above_log2; [lia|]. apply Z.log2_lt_pow2; lia.
Qed.

Lemma statusUpdate_idle s : uart_rx s = [] -> statusUpdate s = s.
Proof. intros E. unfold statusUpdate. now rewrite E. Qed.

(** What a packet's own terminator records when it accepts the packet. *)
Lemma processData_accept s :
  modIsLow s = false -> previousData s <> 0x7a -> fOverLap s = false ->
  (Z.land (bufBackRead (circularBuffer s) (lastWritingPos s) 2) 0x80 =? 0) = true ->
  bytesFor (int16 s)
    (Z.lor (Z.shiftl (bufBackRead (circularBuffer s) (lastWritingPos s) 0) 8)
           (bufBackRead (circularBuffer s) (lastWritingPos s) 1)) + 3
    = byteCount s ->
  let s' := processData 0x7a s in
  uart_rx s' = uart_rx s /\ fData s' = true /\
  bitLen s' = Z.lor (Z.shiftl (bufBackRead (circularBuffer s) (lastWritingPos s) 0) 8)
                    (bufBackRead (circularBuffer s) (lastWritingPos s) 1) /\
  datStartPos s' = startPos s /\ datEndPos s' = lastWritingPos s /\
  datCount s' = byteCount s /\ circularBuffer s' = circularBuffer s.
Proof.
  intros M P O St C. cbv zeta. apply Z.eqb_neq in P. apply Z.eqb_eq in C.
  unfold processData. rewrite M, P, O, St, C. change (122 =? 122) with true.
  cbn [negb]. simp_state. auto 10.
Qed.

(** A terminator in receive mode writes nothing into the buffer and moves
    neither the write position nor the packet start. *)
Lemma processData_terminator_frame s :
  modIsLow s = false ->
  let s' := processData 0x7a s in
  uart_rx s' = uart_rx s /\ circularBuffer s' = circularBuffer s /\
  startPos s' = startPos s /\ lastWritingPos s' = lastWritingPos s.
Proof.
  intros M. cbv zeta. unfold processData. rewrite M.
  change (122 =? 122) with true. cbv iota.
  split_ifs; auto.
Qed.

Lemma ringAt_wrap p k : ringAt p (k + BC7215_BUFFER_SIZE) = ringAt p k.
Proof.
  unfold ringAt. change BC7215_BUFFER_SIZE with 84.
  replace (p + (k + 84)) with (p + k + 1 * 84) by lia. apply Z_mod_plus_full.
Qed.

(** The state after a well-formed data packet has been received by an idle
    driver. *)
Lemma feed_data_packet s payload status bitLength :
  modIsLow s = false -> fStarted s = false -> previousData s <> 0x7b ->
  pos_ok (lastWritingPos s) ->
  length (circularBuffer s) = Z.to_nat BC7215_BUFFER_SIZE ->
  0 <= bitLength < 65536 ->
  (bitLength + 7) / 8 = Z.of_nat (length payload) ->
  Z.of_nat (length payload) + 3 <= BC7215_BUFFER_SIZE ->
  0 <= status < 128 ->
  let s' := feed (stuffed (dataFrame payload status bitLength) ++ [0x7a]) s in
  uart_rx s' = uart_rx s /\ fData s' = true /\ bitLen s' = bitLength /\
  datCount s' = Z.of_nat (length payload) + 3 /\
  bufBackRead (circularBuffer s') (datEndPos s') 2 = status /\
  pos_ok (datStartPos s') /\
  (forall j, (j < length payload)%nat ->
     buf_at (circularBuffer s') (ringAt (datStartPos s') (Z.of_nat j))
     = default 0 (payload !! j)) /\
  (* the rest is what a packet that follows needs to know *)
  modIsLow s' = false /\ fStarted s' = false /\ previousData s' = 0x7a /\
  length (circularBuffer s') = Z.to_nat BC7215_BUFFER_SIZE /\
  datStartPos s' = ringAt (lastWritingPos s) 1 /\
  datEndPos s' = lastWritingPos s' /\
  lastWritingPos s' = ringAt (lastWritingPos s) (Z.of_nat (length payload) + 3) /\
  bufBackRead (circularBuffer s') (datEndPos s') 1 = bitLength mod 256 /\
  bufBackRead (circularBuffer s') (datEndPos s') 0 = bitLength / 256.
Proof.
  intros M St Pb W L HL Hp Hfit Hst. cbv zeta. rewrite feed_app.
  set (msg := dataFrame payload status bitLength).
  assert (Lm : length msg = (length payload + 3)%nat)
    by (unfold msg, dataFrame; rewrite length_app; reflexivity).
  assert (Look : forall j, (j < length payload)%nat -> msg !! j = payload !! j)
    by (intros j Hj; unfold msg, dataFrame; now rewrite lookup_app_l).
  assert (Tr : msg !! length payload = Some status /\
               msg !! S (length payload) = Some (bitLength mod 256) /\
               msg !! S (S (length payload)) = Some (bitLength / 256)).
  { unfold msg, dataFrame. rewrite !lookup_app_r by lia.
    replace (length payload - length payload)%nat with 0%nat by lia.
    replace (S (length payload) - length payload)%nat with 1%nat by lia.
    replace (S (S (length payload)) - length payload)%nat with 2%nat by lia.
    auto. }
  destruct Tr as (T0 & T1 & T2).
  destruct msg as [|b m] eqn:Em; [cbn [length] in Lm; lia|].
  destruct (feed_stuffed_packet b m s M St Pb W L) as
    (M1 & U1 & Pa1 & W1 & C1 & O1 & S1 & L1 & R1 & _); [rewrite Lm; lia|].
  set (s1 := feed (stuffed (b :: m)) s) in *. rewrite Lm in *.
  cbn [feed fold_left].
  assert (W1' : pos_ok (lastWritingPos s1)) by (rewrite W1; apply ringAt_ok).
  assert (Back : forall k, 0 <= k <= 2 ->
            bufBackRead (circularBuffer s1) (lastWritingPos s1) k
            = default 0 ((b :: m) !! (length payload + 2 - Z.to_nat k)%nat)).
  { intros k Hk. rewrite bufBackRead_ring
      by (exact W1' || (change BC7215_BUFFER_SIZE with 84; lia)).
    rewrite W1, ringAt_ringAt.
    replace (Z.of_nat (length payload + 3) + (BC7215_BUFFER_SIZE - k))
      with (1 + Z.of_nat (length payload + 2 - Z.to_nat k) + BC7215_BUFFER_SIZE) by lia.
    rewrite ringAt_wrap. apply R1. lia. }
  assert (B2 : bufBackRead (circularBuffer s1) (lastWritingPos s1) 2 = status).
  { rewrite Back by lia. replace (length payload + 2 - Z.to_nat 2)%nat
      with (length payload) by lia. now rewrite T0. }
  assert (B1 : bufBackRead (circularBuffer s1) (lastWritingPos s1) 1 = bitLength mod 256).
  { rewrite Back by lia. replace (length payload + 2 - Z.to_nat 1)%nat
      with (S (length payload)) by lia. now rewrite T1. }
  assert (B0 : bufBackRead (circularBuffer s1) (lastWritingPos s1) 0 = bitLength / 256).
  { rewrite Back by lia. replace (length payload + 2 - Z.to_nat 0)%nat
      with (S (S (length payload))) by lia. now rewrite T2. }
  assert (V : Z.lor (Z.shiftl (bitLength / 256) 8) (bitLength mod 256) = bitLength).
  { rewrite byte_pair_value by (unfold is_byte; Z.div_mod_to_equations; lia).
    Z.div_mod_to_equations. lia. }
  destruct (processData_accept s1 M1 Pa1 O1) as (U2 & D2 & BL & DS & DE & DC & CB).
  { rewrite B2. apply status_no_error, Hst. }
  { rewrite B0, B1, V, C1, bytesFor_exact; [lia|].
    right. change BC7215_BUFFER_SIZE with 84 in Hfit.
    clear - Hp Hfit. Z.div_mod_to_equations. lia. }
  destruct (processData_terminator s1 M1) as (M3 & S3 & P3 & _).
  destruct (processData_terminator_frame s1 M1) as (_ & _ & _ & W3).
  rewrite U2, BL, DS, DE, DC, CB, B0, B1, B2, V, C1, S1, W3, W1.
  split; [exact U1|]. split; [exact D2|]. split; [reflexivity|].
  split; [lia|]. split; [reflexivity|]. split; [apply ringAt_ok|].
  split; [intros j Hj; rewrite ringAt_ringAt, R1 by lia; now rewrite Look|].
  repeat split; auto. f_equal. lia.
Qed.

(** X9. A data packet received whole is handed out whole.  When an idle
    driver in receive mode, with no escape byte pending, receives the stuffed
    form of payload, status byte (error bit clear) and bit length, followed
    by a terminator, and the payload has the ceil(bitLength/8) bytes the
    length announces and fits the buffer with its three trailing bytes, then
    [dataReady] is true, [getLen] is the bit length, [dpketSize] is the
    payload size plus 2, and [getData] returns the status byte and writes the
    bit length and exactly the payload into the target. *)
Theorem data_packet_round_trip s payload status bitLength target :
  reachable s -> modIsLow s = false -> fStarted s = false ->
  previousData s <> 0x7b -> uart_rx s = [] ->
  0 <= bitLength < 65536 ->
  (bitLength + 7) / 8 = Z.of_nat (length payload) ->
  Z.of_nat (length payload) + 3 <= BC7215_BUFFER_SIZE ->
  0 <= status < 128 ->
  (length payload <= length (pkt_data target))%nat ->
  let arrived :=
    set_uart_rx (stuffed (dataFrame payload status bitLength) ++ [0x7a]) s in
  snd (dataReady arrived) = true /\
  snd (getLen arrived) = bitLength /\
  snd (dpketSize arrived) = Z.of_nat (length payload) + 2 /\
  snd (getData target arrived) = status /\
  snd (fst (getData target arrived)) =
    mkDataPkt bitLength (payload ++ drop (length payload) (pkt_data target)) /\
  fData (fst (fst (getData target arrived))) = false.
Proof.
  intros R M St Pb E HL Hp Hfit Hst Ht. cbv zeta.
  pose proof (reachable_Inv s R) as I.
  destruct (feed_data_packet s payload status bitLength M St Pb
              (inv_lastWritingPos s I) (inv_len s I) HL Hp Hfit Hst)
    as (U & D & BL & DC & SB & DS & Rd & _).
  set (wire := stuffed (dataFrame payload status bitLength) ++ [0x7a]) in *.
  assert (SU : statusUpdate (set_uart_rx wire s) = feed wire s).
  { rewrite statusUpdate_feed. simp_state. rewrite feed_set_uart_rx.
    change (set_uart_rx [] (set_uart_rx wire (feed wire s)))
      with (set_uart_rx [] (feed wire s)).
    rewrite <- E, <- U. apply set_uart_rx_id. }
  unfold dataReady, getLen, dpketSize, getData. rewrite SU, D. cbn [fst snd].
  rewrite BL, DC, SB.
  rewrite bytesFor_exact
    by (right; change BC7215_BUFFER_SIZE with 84 in Hfit;
        clear - Hp Hfit; Z.div_mod_to_equations; lia).
  rewrite Hp.
  split; [reflexivity|]. split; [reflexivity|]. split; [reflexivity|].
  split; [reflexivity|]. split; [| reflexivity].
  cbn [pkt_data pkt_bitLen]. f_equal. apply list_eq. intros i.
  replace (Z.of_nat (length payload) + 3 - 3) with (Z.of_nat (length payload)) by lia.
  rewrite <- (Nat2Z.id i) at 1.
  rewrite copyOut_lookup by lia.
  destruct (Z.ltb_spec (Z.of_nat i) (Z.of_nat (length payload))) as [Lt | Ge].
  - change BC7215_BUFFER_SIZE with 84 in Hfit.
    assert (Ui : u8 (Z.of_nat i) = Z.of_nat i) by (unfold u8; apply Z.mod_small; lia).
    rewrite Ui, bufRead_ring by (exact DS || (change BC7215_BUFFER_SIZE with 84; lia)).
    rewrite Rd by lia. rewrite lookup_app_l by lia.
    destruct (payload !! i) eqn:Ei; [reflexivity|].
    apply lookup_ge_None in Ei. lia.
  - rewrite Nat2Z.id, lookup_app_r by lia. rewrite lookup_drop. f_equal. lia.
Qed.

Lemma data_packet_round_trip_witness :
  snd (getData (mkDataPkt 0 [0; 0; 0])
         (set_uart_rx (stuffed (dataFrame [0x7a; 0x0b] 0x05 12) ++ [0x7a]) rx0)) = 0x05 /\
  snd (fst (getData (mkDataPkt 0 [0; 0; 0])
         (set_uart_rx (stuffed (dataFrame [0x7a; 0x0b] 0x05 12) ++ [0x7a]) rx0)))
    = mkDataPkt 12 [0x7a; 0x0b; 0].
Proof.
  destruct (data_packet_round_trip rx0 [0x7a; 0x0b] 0x05 12 (mkDataPkt 0 [0; 0; 0]))
    as (_ & _ & _ & S & T & _).
  - apply reach_init.
  - reflexivity.
  - reflexivity.
  - vm_compute. discriminate.
  - reflexivity.
  - lia.
  - reflexivity.
  - vm_compute. discriminate.
  - lia.
  - cbn [length pkt_data]. lia.
  - split; [exact S | exact T].
Defined.

(** ** Receiving a format packet *)

(** Filling the first [n] entries of an array from a function of the index. *)
Lemma fill_lookup (g : Z -> Z) n (dst : list Z) (i : nat) :
  0 <= n <= Z.of_nat (length dst) ->
  fold_left (fun d k => <[Z.to_nat k := g k]> d) (seqZ 0 n) dst !! i =
    if Z.of_nat i <? n then Some (g (Z.of_nat i)) else dst !! i.
Proof.
  intros Hn.
  set (f := fun (d : list Z) (k : Z) => <[Z.to_nat k := g k]> d).
  assert (L : forall m d, length (fold_left f m d) = length d).
  { induction m as [|x m IHm]; intros d; cbn [fold_left]; [reflexivity|].
    rewrite IHm. apply length_insert. }
  assert (G : forall k : nat, (k <= length dst)%nat ->
            fold_left f (seqZ 0 (Z.of_nat k)) dst !! i =
              if Z.of_nat i <? Z.of_nat k then Some (g (Z.of_nat i)) else dst !! i).
  { induction k as [|k IH]; intros Hk.
    - change (Z.of_nat 0) with 0. rewrite seqZ_nil by lia. cbn [fold_left].
      destruct (Z.ltb_spec (Z.of_nat i) 0); [lia | reflexivity].
    - rewrite seqZ_S, fold_left_app. cbn [fold_left].
      rewrite Z.add_0_l. unfold f at 1. rewrite Nat2Z.id.
      destruct (Nat.eq_dec i k) as [-> | Ne].
      + rewrite list_lookup_insert_eq by (rewrite L; lia).
        destruct (Z.ltb_spec (Z.of_nat k) (Z.of_nat (S k))); [reflexivity | lia].
      + rewrite list_lookup_insert_ne by lia. rewrite IH by lia.
        destruct (Z.ltb_spec (Z.of_nat i) (Z.of_nat k)),
                 (Z.ltb_spec (Z.of_nat i) (Z.of_nat (S k)));
          (reflexivity || lia). }
  specialize (G (Z.to_nat n)). rewrite Z2Nat.id in G by lia.
  apply G. lia.
Qed.

(** X10. A format packet received whole is handed out whole.  When an idle
    driver in receive mode, with no escape byte pending, receives the stuffed
    form of a signature byte and 32 format bytes followed by two terminators,
    [formatReady] is true and [getFormat] returns the signature and writes
    exactly those 33 bytes into the target, whatever their values. *)
Theorem format_packet_round_trip s sig fmt target :
  reachable s -> modIsLow s = false -> fStarted s = false ->
  previousData s <> 0x7b -> uart_rx s = [] ->
  length fmt = 32%nat -> length (format target) = 32%nat ->
  let arrived := set_uart_rx (stuffed (sig :: fmt) ++ [0x7a; 0x7a]) s in
  snd (formatReady arrived) = true /\
  snd (getFormat target arrived) = sig /\
  snd (fst (getFormat target arrived)) = mkFormatPkt sig fmt /\
  fFormat (fst (fst (getFormat target arrived))) = false.
Proof.
  intros R M St Pb E Lf Lt. cbv zeta.
  pose proof (reachable_Inv s R) as I.
  destruct (feed_stuffed_packet sig fmt s M St Pb
              (inv_lastWritingPos s I) (inv_len s I)) as
    (M1 & U1 & Pa1 & W1 & C1 & O1 & S1 & L1 & R1 & _);
    [cbn [length]; rewrite Lf; change BC7215_BUFFER_SIZE with 84; lia|].
  set (s1 := feed (stuffed (sig :: fmt)) s) in *.
  destruct (processData_terminator s1 M1) as (M2 & _ & P2 & O2 & C2 & _ & _ & _).
  destruct (processData_terminator_frame s1 M1) as (U2 & B2 & T2 & _).
  set (s2 := processData 0x7a s1) in *.
  destruct (processData_terminator s2 M2) as (_ & _ & _ & _ & _ & _ & _ & F3).
  destruct (processData_terminator_frame s2 M2) as (U3 & B3 & T3 & _).
  set (s3 := processData 0x7a s2) in *.
  rewrite O2, O1, P2, C2, C1 in F3. cbn [length] in F3. rewrite Lf in F3.
  change (122 =? 122) with true in F3.
  change (Z.of_nat 33 =? sizeof_bc7215FormatPkt_t) with true in F3.
  cbn [negb andb] in F3. rewrite orb_true_r in F3.
  set (wire := stuffed (sig :: fmt) ++ [0x7a; 0x7a]).
  assert (Fs : feed wire s = s3).
  { unfold wire. rewrite feed_app. reflexivity. }
  assert (SU : statusUpdate (set_uart_rx wire s) = s3).
  { rewrite statusUpdate_feed. simp_state. rewrite feed_set_uart_rx, Fs.
    change (set_uart_rx [] (set_uart_rx wire s3)) with (set_uart_rx [] s3).
    rewrite <- E, <- U1, <- U2, <- U3. apply set_uart_rx_id. }
  unfold formatReady, getFormat. rewrite SU, F3. cbn [fst snd].
  assert (Sp : pos_ok (startPos s3)) by (rewrite T3, T2, S1; apply ringAt_ok).
  assert (Rd : forall j, (j < 33)%nat ->
            bufRead (circularBuffer s3) (startPos s3) (Z.of_nat j)
            = default 0 ((sig :: fmt) !! j)).
  { intros j Hj. rewrite bufRead_ring
      by (exact Sp || (change BC7215_BUFFER_SIZE with 84; lia)).
    rewrite B3, B2, T3, T2, S1, ringAt_ringAt. apply R1.
    cbn [length]. lia. }
  split; [reflexivity|]. split; [apply (Rd 0%nat); lia|]. split; [| reflexivity].
  cbn [signature format]. f_equal; [apply (Rd 0%nat); lia|].
  apply list_eq. intros i.
  rewrite (fill_lookup (fun k => bufRead (circularBuffer s3) (startPos s3) (k + 1)))
    by lia.
  destruct (Z.ltb_spec (Z.of_nat i) 32) as [Lt32 | Ge32].
  - replace (Z.of_nat i + 1) with (Z.of_nat (S i)) by lia.
    rewrite Rd by lia. change ((sig :: fmt) !! S i) with (fmt !! i).
    destruct (fmt !! i) eqn:Ei; [reflexivity|].
    apply lookup_ge_None in Ei. lia.
  - rewrite !lookup_ge_None_2 by lia. reflexivity.
Qed.

Lemma format_packet_round_trip_witness :
  snd (fst (getFormat (mkFormatPkt 0 (repeat 0 32))
         (set_uart_rx (stuffed (0x34 :: repeat 0x7b 32) ++ [0x7a; 0x7a]) rx0)))
  = mkFormatPkt 0x34 (repeat 0x7b 32).
Proof.
  apply (format_packet_round_trip rx0 0x34 (repeat 0x7b 32)
           (mkFormatPkt 0 (repeat 0 32))).
  - apply reach_init.
  - reflexivity.
  - reflexivity.
  - vm_compute. discriminate.
  - reflexivity.
  - reflexivity.
  - reflexivity.
Defined.

(** ** Reading packets out *)

(** X11. [getRaw] while it stays inside the buffer.  In a reachable state,
    let n be min(size, bytes) when a data packet is ready, where bytes is
    (bitLen+7)/8 as the board's [int] computes it, and 0 otherwise.  If every
    offset below n, cut to [uint8_t] as [bufRead] takes it, indexes inside
    [circularBuffer] from the recorded start, then [getRaw] returns n, writes
    exactly those n buffer entries, leaves every later byte of the
    destination alone, and clears data-ready. *)
Theorem getRaw_clamps addr size s :
  reachable s ->
  0 <= size <= Z.of_nat (length addr) ->
  let s1 := statusUpdate s in
  let n := if fData s1 then Z.min size (bytesFor (int16 s1) (bitLen s1)) else 0 in
  (forall i, 0 <= i < n -> pos_ok (bufReadIndex (datStartPos s1) (u8 i))) ->
  snd (getRaw addr size s) = n /\
  n <= size /\
  fData (fst (fst (getRaw addr size s))) = false /\
  (forall i : nat,
     snd (fst (getRaw addr size s)) !! i =
       if Z.of_nat i <? n
       then circularBuffer s1 !! Z.to_nat (bufReadIndex (datStartPos s1) (u8 (Z.of_nat i)))
       else addr !! i).
Proof.
  intros R Hs. cbv zeta. intros In.
  pose proof (inv_len _ (Inv_statusUpdate s (reachable_Inv s R))) as L.
  unfold getRaw.
  destruct (fData (statusUpdate s)) eqn:D; cbn [fst snd].
  - set (m := bytesFor (int16 (statusUpdate s)) (bitLen (statusUpdate s))) in *.
    simp_state. fold m.
    assert (E : (if size >? m then m else size) = Z.min size m)
      by (destruct (Z.gtb_spec size m); lia).
    rewrite E. split; [reflexivity|]. split; [lia|]. split; [reflexivity|].
    intros i. destruct (Z.lt_ge_cases (Z.min size m) 0) as [Neg | Pos].
    + unfold copyOut. rewrite seqZ_nil by lia. cbn [fold_left].
      destruct (Z.ltb_spec (Z.of_nat i) (Z.min size m)); [lia | reflexivity].
    + rewrite <- (Nat2Z.id i) at 1. rewrite copyOut_lookup by lia.
      rewrite Nat2Z.id.
      destruct (Z.ltb_spec (Z.of_nat i) (Z.min size m)) as [Lt | Ge]; [| reflexivity].
      specialize (In (Z.of_nat i) ltac:(lia)).
      set (k := u8 (Z.of_nat i)) in *.
      assert (B : bufRead (circularBuffer (statusUpdate s))
                    (datStartPos (statusUpdate s)) k
                  = buf_at (circularBuffer (statusUpdate s))
                      (bufReadIndex (datStartPos (statusUpdate s)) k)).
      { unfold bufRead, bufReadIndex.
        destruct (datStartPos (statusUpdate s) + k >=? BC7215_BUFFER_SIZE);
          reflexivity. }
      rewrite B. unfold buf_at, pos_ok in *.
      destruct (Z.leb_spec 0 (bufReadIndex (datStartPos (statusUpdate s)) k));
        [| lia].
      destruct (Z.ltb_spec (bufReadIndex (datStartPos (statusUpdate s)) k)
                  BC7215_BUFFER_SIZE); [| lia].
      cbn [andb].
      destruct (circularBuffer (statusUpdate s)
                  !! Z.to_nat (bufReadIndex (datStartPos (statusUpdate s)) k))
        eqn:Lk; [reflexivity|].
      apply lookup_ge_None in Lk. lia.
  - split; [reflexivity|]. split; [lia|]. split; [exact D|].
    intros i. destruct (Z.ltb_spec (Z.of_nat i) 0); [lia | reflexivity].
Qed.

Lemma getRaw_clamps_witness :
  snd (getRaw [9; 9; 9] 2
         (set_uart_rx (stuffed (dataFrame [0xA1] 0x05 3) ++ [0x7a]) rx0)) = 1 /\
  snd (fst (getRaw [9; 9; 9] 2
         (set_uart_rx (stuffed (dataFrame [0xA1] 0x05 3) ++ [0x7a]) rx0))) !! 0%nat
    = Some 0xA1 /\
  snd (fst (getRaw [9; 9; 9] 2
         (set_uart_rx (stuffed (dataFrame [0xA1] 0x05 3) ++ [0x7a]) rx0))) !! 1%nat
    = Some 9.
Proof.
  destruct (getRaw_clamps [9; 9; 9] 2
              (set_uart_rx (stuffed (dataFrame [0xA1] 0x05 3) ++ [0x7a]) rx0))
    as (N & _ & _ & W).
  - apply exec_arrivals; [reflexivity | apply reach_init].
  - cbn [length]. lia.
  - intros i Hi.
    assert (i = 0) as -> by (vm_compute in Hi; destruct Hi as [A B];
      destruct i as [|p|p]; [reflexivity | destruct p; discriminate B
                            | exfalso; apply A; reflexivity]).
    vm_compute. split; [discriminate | reflexivity].
  - split; [rewrite N; vm_compute; reflexivity|].
    split; rewrite W; vm_compute; reflexivity.
Defined.

(** X12. A packet is handed out once.  In the state [getData], [getRaw] or
    [getFormat] returns, and until further bytes arrive, the data queries
    (respectively the format queries) report nothing: [dataReady] is false,
    [getLen] and [dpketSize] are 0, [getData] returns 0xFF and [getRaw] 0,
    both without touching their destination. *)
Theorem packets_are_read_once s target addr size target' addr' size' ftarget ftarget' :
  (forall s1, s1 = fst (fst (getData target s)) \/ s1 = fst (fst (getRaw addr size s)) ->
     snd (dataReady s1) = false /\ snd (getLen s1) = 0 /\ snd (dpketSize s1) = 0 /\
     getData target' s1 = (s1, target', 0xff) /\
     getRaw addr' size' s1 = (s1, addr', 0)) /\
  (forall s1, s1 = fst (fst (getFormat ftarget s)) ->
     snd (formatReady s1) = false /\
     getFormat ftarget' s1 = (s1, ftarget', 0xff)).
Proof.
  assert (U : uart_rx (statusUpdate s) = []) by apply statusUpdate_env.
  split.
  - intros s1 H.
    assert (E : uart_rx s1 = [] /\ fData s1 = false).
    { destruct H as [-> | ->]; [unfold getData | unfold getRaw];
        destruct (fData (statusUpdate s)) eqn:D; cbn [fst]; auto. }
    destruct E as [E D].
    unfold dataReady, getLen, dpketSize, getData, getRaw.
    rewrite (statusUpdate_idle s1 E), D. auto.
  - intros s1 H.
    assert (E : uart_rx s1 = [] /\ fFormat s1 = false).
    { subst s1. unfold getFormat.
      destruct (fFormat (statusUpdate s)) eqn:D; cbn [fst]; auto. }
    destruct E as [E D].
    unfold formatReady, getFormat.
    rewrite (statusUpdate_idle s1 E), D. auto.
Qed.

Lemma packets_are_read_once_witness :
  let s := set_uart_rx (stuffed (dataFrame [0xA1] 0x05 3) ++ [0x7a]) rx0 in
  snd (getData (mkDataPkt 0 [0]) s) = 0x05 /\
  snd (getData (mkDataPkt 0 [0]) (fst (fst (getData (mkDataPkt 0 [0]) s)))) = 0xff.
Proof.
  cbv zeta. split; [vm_compute; reflexivity|].
  destruct (packets_are_read_once
              (set_uart_rx (stuffed (dataFrame [0xA1] 0x05 3) ++ [0x7a]) rx0)
              (mkDataPkt 0 [0]) [] 0 (mkDataPkt 0 [0]) [] 0
              (mkFormatPkt 0 []) (mkFormatPkt 0 [])) as [T _].
  destruct (T _ (or_introl eq_refl)) as (_ & _ & _ & G & _).
  rewrite G. reflexivity.
Defined.

(** X13. Polling is incremental: draining after each of two bursts of bytes
    leaves the driver in the same state as draining once after both. *)
Theorem polling_is_incremental l1 l2 s :
  statusUpdate (arrive l2 (statusUpdate (arrive l1 s)))
  = statusUpdate (arrive (l1 ++ l2) s).
Proof.
  unfold arrive. rewrite !statusUpdate_feed. simp_state.
  repeat (rewrite !feed_set_uart_rx; simp_state).
  change ([] ++ l2) with l2.
  rewrite (app_assoc (uart_rx s) l1 l2), (feed_app (uart_rx s ++ l1) l2).
  reflexivity.
Qed.

(** ** Bounds *)

Ltac counts_solve :=
  match goal with
  | H : Counts _ |- _ => destruct H
  end;
  split; split_ifs;
  change BC7215_BUFFER_SIZE with 84 in *;
  simp_state;
  repeat match goal with
         | H : (_ =? _) = true |- _ => apply Z.eqb_eq in H
         | H : (_ >? _) = false |- _ => rewrite Z.gtb_ltb in H; apply Z.ltb_ge in H
         | H : negb _ = true |- _ => apply negb_true_iff in H
         | H : negb _ = false |- _ => apply negb_false_iff in H
         end;
  try (intuition (try congruence; lia)).

Lemma Counts_processData data s : Counts s -> Counts (processData data s).
Proof. intros H. unfold processData. counts_solve. Qed.

Lemma Counts_feed l : forall s, Counts s -> Counts (feed l s).
Proof.
  induction l as [|b l IH]; intros s H; [exact H|].
  apply (IH (processData b s)), Counts_processData, H.
Qed.

Lemma Counts_statusUpdate s : Counts s -> Counts (statusUpdate s).
Proof.
  intros H. rewrite statusUpdate_feed.
  destruct (Counts_feed (uart_rx s) s H). split; assumption.
Qed.

Lemma Counts_flag_cleared s :
  Counts s -> Counts (set_dataPktReady false s) /\ Counts (set_formatPktReady false s).
Proof. intros []. split; split; assumption. Qed.

Lemma Counts_tx_only s s' : tx_only s s' -> Counts s -> Counts s'.
Proof. intros (tx & c & -> & _) []. split; assumption. Qed.

Lemma Counts_exec c s s' : exec c s = Some s' -> Counts s -> Counts s'.
Proof.
  destruct c; cbn [exec]; intros H I;
    try (injection H as <-);
    eauto using Counts_statusUpdate, Counts_tx_only, setShutDown_tx_only,
      setRxMode_tx_only, loadFormat_tx_only, irTx_tx_only, sendRaw_tx_only.
  - unfold setTx. counts_solve.
  - unfold setRx. counts_solve.
  - apply Counts_flag_cleared, I.
  - unfold getData. destruct (fData (statusUpdate s)); cbn [fst];
      [apply Counts_flag_cleared|]; apply Counts_statusUpdate, I.
  - unfold getRaw. destruct (fData (statusUpdate s)); cbn [fst];
      [apply Counts_flag_cleared|]; apply Counts_statusUpdate, I.
  - apply Counts_flag_cleared, I.
  - unfold getFormat. destruct (fFormat (statusUpdate s)); cbn [fst];
      [apply Counts_flag_cleared|]; apply Counts_statusUpdate, I.
  - destruct I. split; assumption.
  - destruct I. split; assumption.
  - destruct I. split; assumption.
Qed.

Lemma reachable_Counts s : reachable s -> Counts s.
Proof.
  induction 1 as [i16 prev mp bp busy | c s s' _ IH E].
  - split; cbn; intros; discriminate.
  - eapply Counts_exec; eassumption.
Qed.

(** X14. Which reads stay inside the buffer.  In every reachable state the
    buffer has its 84 entries, the next write position is inside it, and so
    is every index that [processData] reads back (offsets 0 to 2 from the
    last written or the recorded end position), that [getData] reads
    (offsets below [datCount - 3] from the recorded start, which fit the
    [uint8_t] parameter) and that [getFormat] reads (offsets 0 to 32 from
    the packet start).  [getRaw] is not bounded that way: the index it reads
    for offset i is inside the buffer exactly when the recorded start plus i,
    cut to [uint8_t], is below 168; and after [overrun_stream] data-ready is
    up with the recorded start at 0 and 192 bytes announced, so that
    [getRaw] with a size of 169 or more reads offset 168 at index 84, the
    first one past the array. *)
Theorem buffer_accesses_in_bounds s :
  reachable s ->
  length (circularBuffer s) = Z.to_nat BC7215_BUFFER_SIZE /\
  pos_ok (nextPos (lastWritingPos s)) /\
  (forall n, 0 <= n <= 2 ->
     pos_ok (bufBackReadIndex (lastWritingPos s) n) /\
     pos_ok (bufBackReadIndex (datEndPos s) n)) /\
  (forall i, 0 <= i < datCount s - 3 ->
     u8 i = i /\ pos_ok (bufReadIndex (datStartPos s) i)) /\
  (forall i, 0 <= i <= 32 -> pos_ok (bufReadIndex (startPos s) i)) /\
  (forall p k,
     bufRead (circularBuffer s) p k = buf_at (circularBuffer s) (bufReadIndex p k) /\
     bufBackRead (circularBuffer s) p k
       = buf_at (circularBuffer s) (bufBackReadIndex p k)) /\
  (forall i,
     pos_ok (bufReadIndex (datStartPos s) (u8 i)) <->
     datStartPos s + u8 i < 2 * BC7215_BUFFER_SIZE) /\
  (let s0 := feed overrun_stream rx0 in
   reachable s0 /\ uart_rx s0 = [] /\ fData s0 = true /\ datStartPos s0 = 0 /\
   bytesFor (int16 s0) (bitLen s0) = 192 /\
   bufReadIndex (datStartPos s0) (u8 168) = BC7215_BUFFER_SIZE).
Proof.
  intros R. destruct (reachable_Inv s R) as [L W S DS DE _ DC _ _].
  destruct (reachable_Counts s R) as [_ C].
  unfold pos_ok, bufReadIndex, bufBackReadIndex in *.
  change BC7215_BUFFER_SIZE with 84 in *.
  split; [exact L|]. split; [apply nextPos_ok|].
  split; [| split; [| split; [| split; [| split]]]].
  - intros n Hn. split.
    + destruct (Z.geb_spec (lastWritingPos s) n); lia.
    + destruct (Z.geb_spec (datEndPos s) n); lia.
  - intros i Hi. split; [unfold u8; apply Z.mod_small; lia|].
    destruct (Z.geb_spec (datStartPos s + i) 84); lia.
  - intros i Hi. destruct (Z.geb_spec (startPos s + i) 84); lia.
  - intros p k. unfold bufRead, bufBackRead. change BC7215_BUFFER_SIZE with 84.
    split; [destruct (p + k >=? 84) | destruct (p >=? k)]; reflexivity.
  - intros i. pose proof (u8_range i).
    destruct (Z.geb_spec (datStartPos s + u8 i) 84); lia.
  - cbv zeta. split; [apply reachable_feed_init|].
    vm_compute. repeat split.
Qed.

Lemma buffer_accesses_in_bounds_witness :
  pos_ok (bufBackReadIndex (lastWritingPos (feed (repeat 0x01 200) rx0)) 2).
Proof.
  destruct (buffer_accesses_in_bounds (feed (repeat 0x01 200) rx0)) as (_ & _ & H & _).
  - apply reachable_feed_init.
  - destruct (H 2 ltac:(lia)) as [G _]. exact G.
Defined.

(** X15. Ready and busy exclude each other: in every reachable state in
    which a packet is in progress neither data-ready nor format-ready is
    set, so in receive wiring [isBusy] and the ready queries are never true
    together. *)
Theorem in_progress_excludes_ready s :
  reachable s -> fStarted s = true -> fData s = false /\ fFormat s = false.
Proof.
  intros R St. pose proof (reachable_Inv s R) as I.
  split.
  - destruct (fData s) eqn:D; [| reflexivity].
    pose proof (inv_data s I D) as H. congruence.
  - destruct (fFormat s) eqn:F; [| reflexivity].
    destruct (inv_format s I F) as (H & _). congruence.
Qed.

Lemma in_progress_excludes_ready_witness :
  fData (feed (stuffed (dataFrame [0xA1] 0x05 3) ++ [0x7a; 0x33]) rx0) = false.
Proof.
  destruct (in_progress_excludes_ready
              (feed (stuffed (dataFrame [0xA1] 0x05 3) ++ [0x7a; 0x33]) rx0))
    as [H _].
  - apply reachable_feed_init.
  - vm_compute. reflexivity.
  - exact H.
Defined.

(** ** Packets that are dropped *)

(** While a packet is being received from an idle driver no ready flag is
    up. *)
Lemma feed_packet_flags l s :
  modIsLow s = false -> fStarted s = false -> l <> [] ->
  Forall (fun w => w <> 0x7a) l ->
  fData (feed l s) = false /\ fFormat (feed l s) = false.
Proof.
  intros M St Ne F. destruct l as [|w l]; [congruence|].
  inversion F as [|? ? Hw F']; subst.
  destruct (processData_first w s M Hw St) as (M1 & S1 & D1 & F1 & _).
  destruct (feed_inside l (processData w s) M1 S1 F') as (_ & D2 & F2 & _).
  change (feed (w :: l) s) with (feed l (processData w s)).
  split; congruence.
Qed.

Lemma stuffed_nonempty b m : stuffed (b :: m) <> [].
Proof.
  cbn [stuffed flat_map]. unfold wire_byte.
  destruct ((b =? 122) || (b =? 123)); discriminate.
Qed.

(** Looking back from the end of a packet just received. *)
Lemma packet_back_read b m r k :
  modIsLow r = false -> fStarted r = false -> previousData r <> 0x7b ->
  pos_ok (lastWritingPos r) ->
  length (circularBuffer r) = Z.to_nat BC7215_BUFFER_SIZE ->
  Z.of_nat (length (b :: m)) <= BC7215_BUFFER_SIZE ->
  (k < length (b :: m))%nat ->
  let r' := feed (stuffed (b :: m)) r in
  bufBackRead (circularBuffer r') (lastWritingPos r') (Z.of_nat k)
  = default 0 ((b :: m) !! (length (b :: m) - 1 - k)%nat).
Proof.
  intros M St Pb W L C Hk. cbv zeta.
  destruct (feed_stuffed_packet b m r M St Pb W L C) as
    (_ & _ & _ & W1 & _ & _ & _ & _ & R1 & _).
  change BC7215_BUFFER_SIZE with 84 in C.
  rewrite bufBackRead_ring
    by ((rewrite W1; apply ringAt_ok) || (change BC7215_BUFFER_SIZE with 84; lia)).
  rewrite W1, ringAt_ringAt.
  replace (Z.of_nat (length (b :: m)) + (BC7215_BUFFER_SIZE - Z.of_nat k))
    with (1 + Z.of_nat (length (b :: m) - 1 - k) + BC7215_BUFFER_SIZE) by lia.
  rewrite ringAt_wrap. apply R1. lia.
Qed.

(** A first terminator that finds one of its checks failing only closes the
    packet. *)
Lemma processData_drop s :
  modIsLow s = false -> previousData s <> 0x7a ->
  negb (fOverLap s)
  && (Z.land (bufBackRead (circularBuffer s) (lastWritingPos s) 2) 0x80 =? 0)
  && (bytesFor (int16 s)
        (Z.lor (Z.shiftl (bufBackRead (circularBuffer s) (lastWritingPos s) 0) 8)
               (bufBackRead (circularBuffer s) (lastWritingPos s) 1)) + 3
      =? byteCount s) = false ->
  processData 0x7a s = set_pktStarted false (set_previousData 0x7a s).
Proof.
  intros M P H. apply Z.eqb_neq in P.
  unfold processData. rewrite M, P. change (122 =? 122) with true. cbv iota.
  destruct (negb (fOverLap s)); [| reflexivity].
  destruct (Z.land _ 128 =? 0); [| reflexivity].
  cbn [andb] in H. rewrite H. reflexivity.
Qed.

Lemma status_error st : 128 <= st < 256 -> (Z.land st 0x80 =? 0) = false.
Proof.
  intros H.
  assert (A : forallb (fun st => implb (128 <=? st) (negb (Z.land st 0x80 =? 0)))
                      (seqZ 0 256) = true) by (vm_compute; reflexivity).
  pose proof (forall_bytes _ A st ltac:(lia)) as B. cbv beta in B.
  destruct (Z.leb_spec 128 st); [| lia]. cbn [implb] in B.
  now apply negb_true_iff in B.
Qed.

(** X16. A data packet that fits the buffer but carries the error bit in its
    status byte, or whose bit-length field, rounded up to bytes the way the
    board's [int] does it, does not match the number of payload bytes
    received, is dropped without a trace: [dataReady] stays false, [getLen]
    is 0 and [getData] returns 0xFF and leaves the target alone.  The
    rounding is (bitLength+7)/8 except on a board with 16-bit [int] for
    0xFFF9 bits or more, where it is 0. *)
Theorem data_packet_dropped s payload status bitLength target :
  reachable s -> modIsLow s = false -> fStarted s = false ->
  previousData s <> 0x7b -> uart_rx s = [] ->
  0 <= bitLength < 65536 -> 0 <= status < 256 ->
  Z.of_nat (length payload) + 3 <= BC7215_BUFFER_SIZE ->
  128 <= status \/ bytesFor (int16 s) bitLength <> Z.of_nat (length payload) ->
  let arrived :=
    set_uart_rx (stuffed (dataFrame payload status bitLength) ++ [0x7a]) s in
  (snd (dataReady arrived) = false /\
   snd (getLen arrived) = 0 /\
   snd (getData target arrived) = 0xff /\
   snd (fst (getData target arrived)) = target) /\
  bytesFor (int16 s) bitLength =
    (if int16 s && (0xFFF9 <=? bitLength) then 0 else (bitLength + 7) / 8).
Proof.
  intros R M St Pb E HL Hst Hfit Bad. cbv zeta.
  pose proof (reachable_Inv s R) as I.
  set (msg := dataFrame payload status bitLength).
  assert (Lm : length msg = (length payload + 3)%nat)
    by (unfold msg, dataFrame; rewrite length_app; reflexivity).
  assert (Tr : msg !! length payload = Some status /\
               msg !! S (length payload) = Some (bitLength mod 256) /\
               msg !! S (S (length payload)) = Some (bitLength / 256)).
  { unfold msg, dataFrame. rewrite !lookup_app_r by lia.
    replace (length payload - length payload)%nat with 0%nat by lia.
    replace (S (length payload) - length payload)%nat with 1%nat by lia.
    replace (S (S (length payload)) - length payload)%nat with 2%nat by lia.
    auto. }
  destruct Tr as (T0 & T1 & T2).
  destruct msg as [|b m] eqn:Em; [cbn [length] in Lm; lia|].
  pose proof (inv_lastWritingPos s I) as W. pose proof (inv_len s I) as L.
  assert (C : Z.of_nat (length (b :: m)) <= BC7215_BUFFER_SIZE) by (rewrite Lm; lia).
  destruct (feed_stuffed_packet b m s M St Pb W L C) as
    (M1 & U1 & Pa1 & W1 & C1 & O1 & _).
  pose proof (packet_back_read b m s 0 M St Pb W L C ltac:(rewrite Lm; lia)) as B0.
  pose proof (packet_back_read b m s 1 M St Pb W L C ltac:(rewrite Lm; lia)) as B1.
  pose proof (packet_back_read b m s 2 M St Pb W L C ltac:(rewrite Lm; lia)) as B2.
  cbv zeta in B0, B1, B2. rewrite Lm in B0, B1, B2, C1.
  replace (length payload + 3 - 1 - 0)%nat with (S (S (length payload))) in B0 by lia.
  replace (length payload + 3 - 1 - 1)%nat with (S (length payload)) in B1 by lia.
  replace (length payload + 3 - 1 - 2)%nat with (length payload) in B2 by lia.
  rewrite T2 in B0. rewrite T1 in B1. rewrite T0 in B2. cbn [from_option id] in B0, B1, B2.
  change (Z.of_nat 0) with 0 in B0. change (Z.of_nat 1) with 1 in B1.
  change (Z.of_nat 2) with 2 in B2.
  destruct (feed_packet_flags (stuffed (b :: m)) s M St (stuffed_nonempty b m)
              (stuffed_no_terminator (b :: m))) as [D1 _].
  set (s1 := feed (stuffed (b :: m)) s) in *.
  assert (I16 : int16 s1 = int16 s) by apply feed_int16.
  assert (Dr : processData 0x7a s1 = set_pktStarted false (set_previousData 0x7a s1)).
  { apply processData_drop; [exact M1 | exact Pa1 |].
    rewrite B0, B1, B2, C1, O1, I16. cbn [negb andb].
    rewrite byte_pair_value by (unfold is_byte; clear - HL; Z.div_mod_to_equations; lia).
    replace (bitLength / 256 * 256 + bitLength mod 256) with bitLength
      by (clear; Z.div_mod_to_equations; lia).
    destruct Bad as [Hi | Ne].
    - now rewrite status_error by lia.
    - apply andb_false_iff. right. apply Z.eqb_neq. lia. }
  set (wire := stuffed (b :: m) ++ [0x7a]).
  assert (Fs : feed wire s = set_pktStarted false (set_previousData 0x7a s1)).
  { unfold wire. rewrite feed_app. cbn [feed fold_left]. exact Dr. }
  assert (SU : statusUpdate (set_uart_rx wire s)
               = set_pktStarted false (set_previousData 0x7a s1)).
  { rewrite <- Fs, statusUpdate_feed. simp_state. rewrite feed_set_uart_rx.
    change (set_uart_rx [] (set_uart_rx wire (feed wire s)))
      with (set_uart_rx [] (feed wire s)).
    rewrite <- E, <- (feed_uart_rx wire s). apply set_uart_rx_id. }
  split.
  - unfold dataReady, getLen, getData. rewrite SU. simp_state.
    unfold fData in D1. rewrite !D1. cbn [fst snd]. auto.
  - unfold bytesFor.
    destruct (Z.leb_spec bitLength 0xFFFF) as [_ | Gt]; [| lia].
    rewrite andb_true_r.
    destruct (int16 s && (0xFFF9 <=? bitLength)) eqn:Wr; [| reflexivity].
    apply andb_true_iff in Wr as [_ Wr]. apply Z.leb_le in Wr.
    clear - HL Wr. Z.div_mod_to_equations. lia.
Qed.

Lemma data_packet_dropped_witness :
  snd (getData (mkDataPkt 0 [0x99])
         (set_uart_rx (stuffed (dataFrame [0xA1] 0x85 3) ++ [0x7a]) rx0)) = 0xff /\
  snd (getData (mkDataPkt 0 [0x99])
         (set_uart_rx (stuffed (dataFrame [0xA1; 0xA2] 0x05 3) ++ [0x7a]) rx0)) = 0xff.
Proof.
  split.
  - destruct (data_packet_dropped rx0 [0xA1] 0x85 3 (mkDataPkt 0 [0x99]))
      as ((_ & _ & G & _) & _); try exact G; try reflexivity; try lia.
    + apply reach_init.
    + vm_compute. discriminate.
    + cbn [length]. change BC7215_BUFFER_SIZE with 84. lia.
  - destruct (data_packet_dropped rx0 [0xA1; 0xA2] 0x05 3 (mkDataPkt 0 [0x99]))
      as ((_ & _ & G & _) & _); try exact G; try reflexivity; try lia.
    + apply reach_init.
    + vm_compute. discriminate.
    + cbn [length]. change BC7215_BUFFER_SIZE with 84. lia.
    + right. vm_compute. discriminate.
Defined.

(** ** A data packet followed by a format packet *)

(** What [getData] hands out, given what the recorded packet region holds. *)
Lemma getData_hands_out t payload target :
  uart_rx t = [] -> fData t = true ->
  datCount t = Z.of_nat (length payload) + 3 ->
  Z.of_nat (length payload) + 3 <= BC7215_BUFFER_SIZE ->
  pos_ok (datStartPos t) ->
  (forall j, (j < length payload)%nat ->
     buf_at (circularBuffer t) (ringAt (datStartPos t) (Z.of_nat j))
     = default 0 (payload !! j)) ->
  (length payload <= length (pkt_data target))%nat ->
  getData target t =
    (set_dataPktReady false t,
     mkDataPkt (bitLen t) (payload ++ drop (length payload) (pkt_data target)),
     bufBackRead (circularBuffer t) (datEndPos t) 2).
Proof.
  intros E D DC Hfit DS Rd Ht.
  unfold getData. rewrite (statusUpdate_idle t E), D, DC.
  cbn [pkt_data pkt_bitLen]. f_equal. f_equal. f_equal.
  apply list_eq. intros i.
  replace (Z.of_nat (length payload) + 3 - 3) with (Z.of_nat (length payload)) by lia.
  rewrite <- (Nat2Z.id i) at 1.
  rewrite copyOut_lookup by lia.
  destruct (Z.ltb_spec (Z.of_nat i) (Z.of_nat (length payload))) as [Lt | Ge].
  - change BC7215_BUFFER_SIZE with 84 in Hfit.
    assert (Ui : u8 (Z.of_nat i) = Z.of_nat i) by (unfold u8; apply Z.mod_small; lia).
    rewrite Ui, bufRead_ring by (exact DS || (change BC7215_BUFFER_SIZE with 84; lia)).
    rewrite Rd by lia. rewrite lookup_app_l by lia.
    destruct (payload !! i) eqn:Ei; [reflexivity|].
    apply lookup_ge_None in Ei. lia.
  - rewrite Nat2Z.id, lookup_app_r by lia. rewrite lookup_drop. f_equal. lia.
Qed.

(** What [getFormat] hands out, given what the last packet region holds. *)
Lemma getFormat_hands_out t sig fmt target :
  uart_rx t = [] -> fFormat t = true -> pos_ok (startPos t) ->
  (forall j, (j < 33)%nat ->
     buf_at (circularBuffer t) (ringAt (startPos t) (Z.of_nat j))
     = default 0 ((sig :: fmt) !! j)) ->
  length fmt = 32%nat -> length (format target) = 32%nat ->
  getFormat target t = (set_formatPktReady false t, mkFormatPkt sig fmt, sig).
Proof.
  intros E F Sp R Lf Lt.
  assert (Rd : forall j, (j < 33)%nat ->
            bufRead (circularBuffer t) (startPos t) (Z.of_nat j)
            = default 0 ((sig :: fmt) !! j)).
  { intros j Hj. rewrite bufRead_ring
      by (exact Sp || (change BC7215_BUFFER_SIZE with 84; lia)).
    apply R, Hj. }
  unfold getFormat. rewrite (statusUpdate_idle t E), F.
  cbn [signature format].
  pose proof (Rd 0%nat ltac:(lia)) as R0. change (Z.of_nat 0) with 0 in R0.
  rewrite R0. cbn [lookup list_lookup from_option id].
  f_equal. f_equal. f_equal.
  apply list_eq. intros i.
  rewrite (fill_lookup (fun k => bufRead (circularBuffer t) (startPos t) (k + 1)))
    by lia.
  destruct (Z.ltb_spec (Z.of_nat i) 32) as [Lt32 | Ge32].
  - replace (Z.of_nat i + 1) with (Z.of_nat (S i)) by lia.
    rewrite Rd by lia. change ((sig :: fmt) !! S i) with (fmt !! i).
    destruct (fmt !! i) eqn:Ei; [reflexivity|].
    apply lookup_ge_None in Ei. lia.
  - rewrite !lookup_ge_None_2 by lia. reflexivity.
Qed.

(** Only a terminator touches the record of the last data packet. *)
Lemma processData_dat_frame b s :
  b <> 0x7a ->
  let s' := processData b s in
  datStartPos s' = datStartPos s /\ datEndPos s' = datEndPos s /\
  datCount s' = datCount s.
Proof.
  intros Hb. cbv zeta. apply Z.eqb_neq in Hb.
  unfold processData. rewrite Hb. split_ifs; auto.
Qed.

Lemma feed_dat_frame l s :
  Forall (fun w => w <> 0x7a) l ->
  datStartPos (feed l s) = datStartPos s /\ datEndPos (feed l s) = datEndPos s /\
  datCount (feed l s) = datCount s.
Proof.
  intros F. revert s. induction F as [|b l Hb F IH]; intros s; [auto|].
  change (feed (b :: l) s) with (feed l (processData b s)).
  destruct (IH (processData b s)) as (-> & -> & ->).
  apply processData_dat_frame, Hb.
Qed.

(** The second of two terminators after 33 bytes: the format packet is
    flagged and the data packet recorded before it is offered again. *)
Lemma processData_format_close s :
  modIsLow s = false -> previousData s = 0x7a -> fOverLap s = false ->
  byteCount s = sizeof_bc7215FormatPkt_t ->
  byteCount s + datCount s <= BC7215_BUFFER_SIZE ->
  (Z.land (bufBackRead (circularBuffer s) (datEndPos s) 2) 0x80 =? 0) = true ->
  let s' := processData 0x7a s in
  fFormat s' = true /\ fData s' = true /\
  bitLen s' = Z.lor (Z.shiftl (bufBackRead (circularBuffer s) (datEndPos s) 0) 8)
                    (bufBackRead (circularBuffer s) (datEndPos s) 1) /\
  datStartPos s' = datStartPos s /\ datEndPos s' = datEndPos s /\
  datCount s' = datCount s.
Proof.
  intros M P O C Fit St. cbv zeta. apply Z.leb_le in Fit. apply Z.eqb_eq in C.
  unfold processData. rewrite M, P, O. change (122 =? 122) with true.
  cbn [negb]. simp_state. rewrite C. cbv iota. simp_state. rewrite Fit, St.
  cbn [andb]. simp_state. auto 10.
Qed.

Lemma feed_uart_tx l s : uart_tx (feed l s) = uart_tx s.
Proof.
  revert s. induction l as [|b l IH]; intros s; cbn [feed fold_left].
  - reflexivity.
  - fold (feed l (processData b s)). rewrite IH.
    now destruct (processData_env b s) as (_ & -> & _).
Qed.

(** The state a data packet followed by a format packet leaves behind, and
    what the two getters then hand out. *)
Lemma composite_states s payload status bitLength sig fmt :
  Inv s -> modIsLow s = false -> fStarted s = false ->
  previousData s <> 0x7b -> uart_rx s = [] ->
  0 <= bitLength < 65536 ->
  (bitLength + 7) / 8 = Z.of_nat (length payload) ->
  Z.of_nat (length payload) + 3 + sizeof_bc7215FormatPkt_t <= BC7215_BUFFER_SIZE ->
  0 <= status < 128 ->
  length fmt = 32%nat ->
  ~ (Z.land (default 0 (fmt !! 29%nat)) 0x80 = 0 /\
     (Z.lor (Z.shiftl (default 0 (fmt !! 31%nat)) 8) (default 0 (fmt !! 30%nat)) + 7) / 8 + 3
     = sizeof_bc7215FormatPkt_t) ->
  exists s3,
    statusUpdate
      (set_uart_rx (stuffed (dataFrame payload status bitLength) ++ [0x7a]
                    ++ stuffed (sig :: fmt) ++ [0x7a; 0x7a]) s) = s3 /\
    uart_rx s3 = [] /\ fFormat s3 = true /\ fData s3 = true /\
    modIsLow s3 = false /\ uart_tx s3 = uart_tx s /\
    (forall ftarget, length (format ftarget) = 32%nat ->
       getFormat ftarget s3 = (set_formatPktReady false s3, mkFormatPkt sig fmt, sig)) /\
    (forall target, (length payload <= length (pkt_data target))%nat ->
       getData target (set_formatPktReady false s3) =
         (set_dataPktReady false (set_formatPktReady false s3),
          mkDataPkt bitLength (payload ++ drop (length payload) (pkt_data target)),
          status)).
Proof.
  intros I M St Pb E HL Hp Hmax Hst Lf Tail.
  change sizeof_bc7215FormatPkt_t with 33 in Hmax.
  change BC7215_BUFFER_SIZE with 84 in Hmax.
  assert (Hfit : Z.of_nat (length payload) + 3 <= BC7215_BUFFER_SIZE)
    by (change BC7215_BUFFER_SIZE with 84; lia).
  destruct (feed_data_packet s payload status bitLength M St Pb
              (inv_lastWritingPos s I) (inv_len s I) HL Hp Hfit Hst)
    as (Ud & _ & _ & DCd & SBd & DSd & Rdd & Md & Std & Pd & Ld & DSe & DEe & Wd
        & B1d & B0d).
  set (sD := feed (stuffed (dataFrame payload status bitLength) ++ [0x7a]) s) in *.
  assert (Wd' : pos_ok (lastWritingPos sD)) by (rewrite Wd; apply ringAt_ok).
  assert (Pbd : previousData sD <> 0x7b) by (rewrite Pd; discriminate).
  assert (Cf : Z.of_nat (length (sig :: fmt)) <= BC7215_BUFFER_SIZE)
    by (cbn [length]; rewrite Lf; change BC7215_BUFFER_SIZE with 84; lia).
  destruct (feed_stuffed_packet sig fmt sD Md Std Pbd Wd' Ld Cf) as
    (M1 & U1 & Pa1 & W1 & C1 & O1 & S1 & L1 & R1 & K1).
  destruct (feed_dat_frame (stuffed (sig :: fmt)) sD (stuffed_no_terminator _))
    as (DS1 & DE1 & DC1).
  pose proof (packet_back_read sig fmt sD 0 Md Std Pbd Wd' Ld Cf
                ltac:(cbn [length]; lia)) as T0.
  pose proof (packet_back_read sig fmt sD 1 Md Std Pbd Wd' Ld Cf
                ltac:(cbn [length]; lia)) as T1.
  pose proof (packet_back_read sig fmt sD 2 Md Std Pbd Wd' Ld Cf
                ltac:(cbn [length]; lia)) as T2.
  cbv zeta in T0, T1, T2. cbn [length] in T0, T1, T2, C1, W1. rewrite Lf in *.
  change ((sig :: fmt) !! (33 - 1 - 0)%nat) with (fmt !! 31%nat) in T0.
  change ((sig :: fmt) !! (33 - 1 - 1)%nat) with (fmt !! 30%nat) in T1.
  change ((sig :: fmt) !! (33 - 1 - 2)%nat) with (fmt !! 29%nat) in T2.
  change (Z.of_nat 0) with 0 in T0. change (Z.of_nat 1) with 1 in T1.
  change (Z.of_nat 2) with 2 in T2. change (Z.of_nat 33) with 33 in *.
  set (s1 := feed (stuffed (sig :: fmt)) sD) in *.
  (* the first terminator drops the 33 bytes as a data packet *)
  assert (Dr : processData 0x7a s1 = set_pktStarted false (set_previousData 0x7a s1)).
  { apply processData_drop; [exact M1 | exact Pa1 |].
    rewrite T0, T1, T2, C1, O1. cbn [negb andb].
    destruct (Z.eqb_spec (Z.land (default 0 (fmt !! 29%nat)) 128) 0) as [A|A];
      [| reflexivity].
    cbn [andb]. apply Z.eqb_neq. intros B. apply Tail. split; [exact A|].
    change sizeof_bc7215FormatPkt_t with 33.
    match type of B with ?x + 3 = _ => assert (B' : x = 30) by lia end.
    apply bytesFor_positive in B'; [| lia]. rewrite B'. reflexivity. }
  set (s2 := set_pktStarted false (set_previousData 0x7a s1)) in *.
  assert (M2 : modIsLow s2 = false) by exact M1.
  (* the second one flags the format packet and restores the data packet *)
  assert (Keep : forall k, 0 <= k <= 2 ->
            bufBackRead (circularBuffer s1) (datEndPos sD) k
            = bufBackRead (circularBuffer sD) (datEndPos sD) k).
  { intros k Hk. assert (De : pos_ok (datEndPos sD)) by (rewrite DEe; exact Wd').
    rewrite !bufBackRead_ring by (exact De || (change BC7215_BUFFER_SIZE with 84; lia)).
    apply K1; [apply ringAt_ok|]. intros j Hj. rewrite DEe.
    unfold ringAt. change BC7215_BUFFER_SIZE with 84.
    cbn [length] in Hj. rewrite Lf in Hj.
    unfold pos_ok in Wd'. change BC7215_BUFFER_SIZE with 84 in Wd'.
    clear - Hk Hj Wd'. Z.div_mod_to_equations. lia. }
  destruct (processData_format_close s2 M2) as (F3 & D3 & BL3 & DS3 & DE3 & DC3);
    try reflexivity.
  { exact O1. }
  { exact C1. }
  { change (byteCount s2) with (byteCount s1). change (datCount s2) with (datCount s1).
    rewrite C1, DC1, DCd. change BC7215_BUFFER_SIZE with 84. lia. }
  { change (circularBuffer s2) with (circularBuffer s1).
    change (datEndPos s2) with (datEndPos s1).
    rewrite DE1, Keep, SBd by lia. apply status_no_error, Hst. }
  destruct (processData_terminator_frame s2 M2) as (U3 & B3 & T3 & _).
  set (s3 := processData 0x7a s2) in *.
  change (circularBuffer s2) with (circularBuffer s1) in *.
  change (datEndPos s2) with (datEndPos s1) in *.
  change (datStartPos s2) with (datStartPos s1) in *.
  change (datCount s2) with (datCount s1) in *.
  change (startPos s2) with (startPos s1) in *.
  change (uart_rx s2) with (uart_rx s1) in *.
  set (wire := stuffed (dataFrame payload status bitLength) ++ [0x7a]
               ++ stuffed (sig :: fmt) ++ [0x7a; 0x7a]).
  assert (Fs : feed wire s = s3).
  { unfold wire. rewrite app_assoc, feed_app. fold sD. rewrite feed_app. fold s1.
    cbn [feed fold_left]. rewrite Dr. reflexivity. }
  assert (U : uart_rx s3 = []) by congruence.
  assert (TX : uart_tx s3 = uart_tx s) by (rewrite <- Fs; apply feed_uart_tx).
  assert (SU : statusUpdate (set_uart_rx wire s) = s3).
  { rewrite statusUpdate_feed. simp_state. rewrite feed_set_uart_rx, Fs.
    change (set_uart_rx [] (set_uart_rx wire s3)) with (set_uart_rx [] s3).
    rewrite <- U. apply set_uart_rx_id. }
  assert (V : Z.lor (Z.shiftl (bitLength / 256) 8) (bitLength mod 256) = bitLength).
  { rewrite byte_pair_value by (unfold is_byte; clear - HL; Z.div_mod_to_equations; lia).
    clear. Z.div_mod_to_equations. lia. }
  destruct (processData_terminator s2 M2) as (M3 & _).
  exists s3. split; [exact SU|]. split; [exact U|]. split; [exact F3|].
  split; [exact D3|]. split; [exact M3|]. split; [exact TX|]. split.
  - intros ftarget Lft. apply getFormat_hands_out; auto.
    + rewrite T3, S1. apply ringAt_ok.
    + intros j Hj. rewrite B3, T3, S1, ringAt_ringAt. apply R1.
      cbn [length]. lia.
  - intros target Ht. set (s4 := set_formatPktReady false s3).
    rewrite (getData_hands_out s4 payload target); auto.
    + change (circularBuffer s4) with (circularBuffer s3).
      change (datEndPos s4) with (datEndPos s3). change (bitLen s4) with (bitLen s3).
      rewrite B3, DE3, DE1, BL3, DE1, !Keep, SBd, B0d, B1d, V by lia. reflexivity.
    + change (datCount s4) with (datCount s3). congruence.
    + change (datStartPos s4) with (datStartPos s3). rewrite DS3, DS1. exact DSd.
    + intros j Hj. change (circularBuffer s4) with (circularBuffer s3).
      change (datStartPos s4) with (datStartPos s3).
      rewrite B3, DS3, DS1, <- (Rdd j Hj).
      apply K1; [apply ringAt_ok|]. intros j' Hj'. rewrite DSe, Wd, !ringAt_ringAt.
      cbn [length] in Hj'. rewrite Lf in Hj'.
      apply ringAt_distinct; change BC7215_BUFFER_SIZE with 84; lia.
Qed.

(** X17. Composite capture.  When an idle driver in receive mode receives a
    well-formed data packet with its terminator, small enough to share the
    buffer with a format packet (at most 48 payload bytes), and right after
    it a format packet with its two terminators, and the last three bytes of
    the format packet do not themselves read as the trailer of a 33-byte
    data packet, then both packets are ready, [getFormat] hands out the
    format packet, and [getData] after it still hands out the data packet:
    its status byte, bit length and payload. *)
Theorem composite_capture s payload status bitLength sig fmt ftarget target :
  reachable s -> modIsLow s = false -> fStarted s = false ->
  previousData s <> 0x7b -> uart_rx s = [] ->
  0 <= bitLength < 65536 ->
  (bitLength + 7) / 8 = Z.of_nat (length payload) ->
  Z.of_nat (length payload) + 3 + sizeof_bc7215FormatPkt_t <= BC7215_BUFFER_SIZE ->
  0 <= status < 128 ->
  length fmt = 32%nat ->
  ~ (Z.land (default 0 (fmt !! 29%nat)) 0x80 = 0 /\
     (Z.lor (Z.shiftl (default 0 (fmt !! 31%nat)) 8) (default 0 (fmt !! 30%nat)) + 7) / 8 + 3
     = sizeof_bc7215FormatPkt_t) ->
  length (format ftarget) = 32%nat ->
  (length payload <= length (pkt_data target))%nat ->
  let arrived :=
    set_uart_rx (stuffed (dataFrame payload status bitLength) ++ [0x7a]
                 ++ stuffed (sig :: fmt) ++ [0x7a; 0x7a]) s in
  let afterFormat := fst (fst (getFormat ftarget arrived)) in
  snd (formatReady arrived) = true /\
  snd (dataReady arrived) = true /\
  snd (getFormat ftarget arrived) = sig /\
  snd (fst (getFormat ftarget arrived)) = mkFormatPkt sig fmt /\
  snd (getData target afterFormat) = status /\
  snd (fst (getData target afterFormat)) =
    mkDataPkt bitLength (payload ++ drop (length payload) (pkt_data target)).
Proof.
  intros R M St Pb E HL Hp Hmax Hst Lf Tail Lft Ht. cbv zeta.
  destruct (composite_states s payload status bitLength sig fmt
              (reachable_Inv s R) M St Pb E HL Hp Hmax Hst Lf Tail)
    as (s3 & SU & U & F3 & D3 & _ & _ & GF & GD).
  assert (G : getFormat ftarget
                (set_uart_rx (stuffed (dataFrame payload status bitLength) ++ [0x7a]
                              ++ stuffed (sig :: fmt) ++ [0x7a; 0x7a]) s)
              = getFormat ftarget s3).
  { unfold getFormat. rewrite SU, (statusUpdate_idle s3 U). reflexivity. }
  unfold formatReady, dataReady. rewrite G, SU, (GF ftarget Lft), F3, D3.
  cbn [fst snd]. rewrite (GD target Ht). cbn [fst snd]. auto 10.
Qed.

Lemma composite_capture_witness :
  snd (fst (getData (mkDataPkt 0 [0; 0; 0])
         (fst (fst (getFormat (mkFormatPkt 0 (repeat 0 32))
            (set_uart_rx (stuffed (dataFrame [0x7a; 0x0b] 0x05 12) ++ [0x7a]
                          ++ stuffed (0x34 :: repeat 0x7b 32) ++ [0x7a; 0x7a]) rx0))))))
  = mkDataPkt 12 [0x7a; 0x0b; 0].
Proof.
  destruct (composite_capture rx0 [0x7a; 0x0b] 0x05 12 0x34 (repeat 0x7b 32)
              (mkFormatPkt 0 (repeat 0 32)) (mkDataPkt 0 [0; 0; 0]))
    as (_ & _ & _ & _ & _ & T); try exact T; try reflexivity; try lia.
  - apply reach_init.
  - vm_compute. discriminate.
  - cbn [length]. change BC7215_BUFFER_SIZE with 84.
    change sizeof_bc7215FormatPkt_t with 33. lia.
  - vm_compute. intros [_ H]. discriminate H.
  - cbn [length pkt_data]. lia.
Defined.

(** ** The capture functions of the wrapper *)

Lemma invertBytes_prefix payload rest :
  invertBytes (Z.of_nat (length payload)) (payload ++ rest)
  = map (fun x => u8 (Z.lnot x)) payload ++ rest.
Proof.
  set (g := fun x => u8 (Z.lnot x)).
  set (f := fun (d : list Z) (i : Z) => <[Z.to_nat i := g (default 0 (d !! Z.to_nat i))]> d).
  assert (G : forall (k : nat) d, (k <= length d)%nat ->
            fold_left f (seqZ 0 (Z.of_nat k)) d = map g (take k d) ++ drop k d).
  { induction k as [|k IH]; intros d Hk.
    - change (Z.of_nat 0) with 0. rewrite seqZ_nil by lia. reflexivity.
    - rewrite seqZ_S, fold_left_app, IH by lia. cbn [fold_left].
      rewrite Z.add_0_l. unfold f. rewrite Nat2Z.id.
      destruct (d !! k) as [x|] eqn:Ex; [| apply lookup_ge_None in Ex; lia].
      assert (Lk : length (map g (take k d)) = k)
        by (rewrite length_map, length_take; lia).
      rewrite lookup_app_r by lia. rewrite Lk, Nat.sub_diag.
      rewrite (drop_S d x k Ex). cbn [lookup list_lookup from_option id].
      rewrite insert_app_r_alt by lia. rewrite Lk, Nat.sub_diag.
      cbn [insert list_insert].
      rewrite (take_S_r d k x Ex), map_app, <- app_assoc. reflexivity. }
  unfold invertBytes. fold g. fold f. rewrite G by (rewrite length_app; lia).
  rewrite take_app_length, drop_app_length. reflexivity.
Qed.

Lemma formatReady_eq s : formatReady s = (statusUpdate s, fFormat (statusUpdate s)).
Proof. reflexivity. Qed.

Lemma dataReady_eq s : dataReady s = (statusUpdate s, fData (statusUpdate s)).
Proof. reflexivity. Qed.

(** X18. [signalCaptured(data, format)] on a composite capture.  When the
    driver behind the wrapper has received a well-formed data packet and
    then a format packet, under the conditions of the composite capture, the call
    returns true, stores the format packet and the data packet in the
    caller's objects, inverts every payload byte when the status byte has
    its REV bit (0x40) set, records the status byte in [rcvdStatus] and
    leaves neither packet flagged as ready. *)
Theorem signalCapturedTo_composite a payload status bitLength sig fmt target ftarget :
  let s := bc7215 a in
  reachable s -> modIsLow s = false -> fStarted s = false ->
  previousData s <> 0x7b -> uart_rx s = [] ->
  0 <= bitLength < 65536 ->
  (bitLength + 7) / 8 = Z.of_nat (length payload) ->
  Z.of_nat (length payload) + 3 + sizeof_bc7215FormatPkt_t <= BC7215_BUFFER_SIZE ->
  0 <= status < 128 ->
  length fmt = 32%nat ->
  ~ (Z.land (default 0 (fmt !! 29%nat)) 0x80 = 0 /\
     (Z.lor (Z.shiftl (default 0 (fmt !! 31%nat)) 8) (default 0 (fmt !! 30%nat)) + 7) / 8 + 3
     = sizeof_bc7215FormatPkt_t) ->
  length (format ftarget) = 32%nat ->
  (length payload <= length (pkt_data target))%nat ->
  let wire := stuffed (dataFrame payload status bitLength) ++ [0x7a]
              ++ stuffed (sig :: fmt) ++ [0x7a; 0x7a] in
  exists a',
    signalCapturedTo target ftarget (set_bc7215 (arrive wire s) a) =
      Some (a',
            mkDataPkt bitLength
              ((if Z.testbit status 6
                then map (fun x => u8 (Z.lnot x)) payload else payload)
               ++ drop (length payload) (pkt_data target)),
            mkFormatPkt sig fmt, true) /\
    rcvdStatus a' = status /\
    fData (bc7215 a') = false /\ fFormat (bc7215 a') = false.
Proof.
  intros s R M St Pb E HL Hp Hmax Hst Lf Tail Lft Ht wire.
  destruct (composite_states s payload status bitLength sig fmt
              (reachable_Inv s R) M St Pb E HL Hp Hmax Hst Lf Tail)
    as (s3 & SU & U & F3 & D3 & _ & _ & GF & GD).
  fold wire in SU.
  unfold signalCapturedTo. cbn [bc7215 set_bc7215].
  unfold arrive. rewrite E, app_nil_l, formatReady_eq, SU, F3.
  rewrite (GF ftarget Lft), (GD target Ht).
  cbn [rcvdStatus set_rcvdStatus pkt_bitLen pkt_data].
  rewrite bytesFor_exact
    by (right; change sizeof_bc7215FormatPkt_t with 33 in Hmax;
        change BC7215_BUFFER_SIZE with 84 in Hmax;
        clear - Hp Hmax; Z.div_mod_to_equations; lia).
  rewrite Hp.
  assert (B : negb (Z.land status 0x40 =? 0) = Z.testbit status 6).
  { assert (A : forallb (fun x => Bool.eqb (negb (Z.land x 0x40 =? 0)) (Z.testbit x 6))
                        (seqZ 0 256) = true) by (vm_compute; reflexivity).
    pose proof (forall_bytes _ A status ltac:(lia)) as B0. cbv beta in B0.
    now apply Bool.eqb_prop in B0. }
  rewrite B. eexists. split; [| split; [| split]].
  - destruct (Z.testbit status 6).
    + rewrite invertBytes_prefix. reflexivity.
    + reflexivity.
  - reflexivity.
  - reflexivity.
  - reflexivity.
Qed.

Lemma signalCapturedTo_composite_witness :
  exists a',
    signalCapturedTo (mkDataPkt 0 [0; 0; 0]) (mkFormatPkt 0 (repeat 0 32))
      (set_bc7215
         (arrive (stuffed (dataFrame [0x7a; 0x0b] 0x45 12) ++ [0x7a]
                  ++ stuffed (0x34 :: repeat 0x7b 32) ++ [0x7a; 0x7a]) rx0)
         (newBC7215AC rx0 (mkFormatPkt 0 []) (mkDataPkt 0 []) 0))
    = Some (a', mkDataPkt 12 [0x85; 0xf4; 0], mkFormatPkt 0x34 (repeat 0x7b 32), true).
Proof.
  destruct (signalCapturedTo_composite
              (set_bc7215 rx0 (newBC7215AC rx0 (mkFormatPkt 0 []) (mkDataPkt 0 []) 0))
              [0x7a; 0x0b] 0x45 12 0x34 (repeat 0x7b 32)
              (mkDataPkt 0 [0; 0; 0]) (mkFormatPkt 0 (repeat 0 32)))
    as (a' & T & _); try reflexivity; try lia.
  - apply reach_init.
  - vm_compute. discriminate.
  - cbn [length]. change BC7215_BUFFER_SIZE with 84.
    change sizeof_bc7215FormatPkt_t with 33. lia.
  - vm_compute. intros [_ H]. discriminate H.
  - cbn [length pkt_data]. lia.
  - exists a'. exact T.
Defined.

Lemma statusUpdate_bus s :
  busyPin (statusUpdate s) = busyPin s /\ busyLevel (statusUpdate s) = busyLevel s /\
  uart_tx (statusUpdate s) = uart_tx s.
Proof.
  rewrite statusUpdate_feed. simp_state.
  assert (H : forall l t, busyPin (feed l t) = busyPin t /\
                          busyLevel (feed l t) = busyLevel t /\
                          uart_tx (feed l t) = uart_tx t).
  { induction l as [|b l IH]; intros t; [auto|].
    change (feed (b :: l) t) with (feed l (processData b t)).
    destruct (IH (processData b t)) as (-> & -> & ->).
    destruct (processData_env b t) as (_ & -> & _ & -> & _ & ->). auto. }
  apply H.
Qed.

(** X19. [signalCaptured(data, format)] never hands out a data packet on its
    own.  When no format packet is ready and the BUSY line does not block
    sending, the call returns false and leaves the caller's objects and
    [rcvdStatus] alone; if a data packet was ready it is discarded, and the
    receive-mode command 1 is sent again when MOD is high. *)
Theorem signalCapturedTo_without_format a target ftarget :
  busFree (bc7215 a) -> snd (formatReady (bc7215 a)) = false ->
  exists a',
    signalCapturedTo target ftarget a = Some (a', target, ftarget, false) /\
    rcvdStatus a' = rcvdStatus a /\
    fFormat (bc7215 a') = false /\
    (snd (dataReady (bc7215 a)) = true ->
       fData (bc7215 a') = false /\
       uart_tx (bc7215 a') =
         uart_tx (bc7215 a) ++ (if modIsHigh (bc7215 a) then [1] else [])) /\
    (snd (dataReady (bc7215 a)) = false -> bc7215 a' = statusUpdate (bc7215 a)).
Proof.
  intros F NF. rewrite formatReady_eq in NF. cbn [snd] in NF.
  destruct (statusUpdate_bus (bc7215 a)) as (Bp & Bl & Tx).
  destruct (statusUpdate_env (bc7215 a)) as (U & Mp & Ml & _).
  unfold signalCapturedTo. rewrite formatReady_eq, NF.
  unfold resendRxMode. rewrite !dataReady_eq. cbn [snd].
  set (c := statusUpdate (bc7215 a)) in *.
  assert (I : statusUpdate c = c) by (apply statusUpdate_idle, U).
  rewrite I.
  assert (Fc : busFree c) by (unfold busFree in *; rewrite Bp, Bl; exact F).
  assert (MH : modIsHigh c = modIsHigh (bc7215 a))
    by (unfold modIsHigh; now rewrite Mp, Ml).
  destruct (fData c) eqn:D.
  - unfold setRxMode. rewrite MH.
    destruct (modIsHigh (bc7215 a)).
    + rewrite (sendOneByte_free 1 c Fc). cbn [mbind option_bind].
      eexists. split; [reflexivity|]. cbn [rcvdStatus bc7215 set_bc7215].
      unfold clrFormat, clrData. simp_state.
      split; [reflexivity|]. split; [reflexivity|]. split; [| discriminate].
      intros _. now rewrite Tx.
    + cbn [mbind option_bind].
      eexists. split; [reflexivity|]. cbn [rcvdStatus bc7215 set_bc7215].
      unfold clrFormat, clrData. simp_state.
      split; [reflexivity|]. split; [reflexivity|]. split; [| discriminate].
      intros _. now rewrite Tx, app_nil_r.
  - cbn [mbind option_bind].
    eexists. split; [reflexivity|]. cbn [rcvdStatus bc7215 set_bc7215].
    split; [reflexivity|]. split; [exact NF|]. split; [discriminate | reflexivity].
Qed.

Lemma signalCapturedTo_without_format_witness :
  exists a',
    signalCapturedTo (mkDataPkt 0 [0x99]) (mkFormatPkt 0 [])
      (set_bc7215 (arrive (stuffed (dataFrame [0xA1] 0x05 3) ++ [0x7a]) rx0)
         (newBC7215AC rx0 (mkFormatPkt 0 []) (mkDataPkt 0 []) 0))
    = Some (a', mkDataPkt 0 [0x99], mkFormatPkt 0 [], false) /\
    fData (bc7215 a') = false /\
    uart_tx (bc7215 a') = [1].
Proof.
  destruct (signalCapturedTo_without_format
              (set_bc7215 (arrive (stuffed (dataFrame [0xA1] 0x05 3) ++ [0x7a]) rx0)
                 (newBC7215AC rx0 (mkFormatPkt 0 []) (mkDataPkt 0 []) 0))
              (mkDataPkt 0 [0x99]) (mkFormatPkt 0 []))
    as (a' & T & _ & _ & D & _).
  - left. reflexivity.
  - vm_compute. reflexivity.
  - exists a'. split; [exact T|].
    destruct D as [D1 D2]; [vm_compute; reflexivity|].
    split; [exact D1 | exact D2].
Defined.

(** What [stopCapture] followed by [startCapture] leaves behind. *)
Lemma startCapture_ready a :
  let s := bc7215 a in
  (modPin s = MOD_HIGH \/ 0 <= modPin s) -> busFree s ->
  exists c1,
    startCapture (stopCapture a) = Some (set_sampleReady false (set_bc7215 c1 a)) /\
    modIsLow c1 = false /\ fStarted c1 = false /\ fData c1 = false /\
    fFormat c1 = false /\ previousData c1 = previousData s /\
    uart_rx c1 = uart_rx s /\ uart_tx c1 = uart_tx s ++ [1] /\
    (Inv s -> Inv c1).
Proof.
  intros s Mod F.
  assert (G : (modPin s >=? 0) = true \/
              ((modPin s >=? 0) = false /\ modPin s = -1)).
  { destruct (Z.geb_spec (modPin s) 0); [auto|]. right. split; [reflexivity|].
    unfold MOD_HIGH in Mod. lia. }
  assert (N2 : (modPin s =? -2) = false).
  { apply Z.eqb_neq. unfold MOD_HIGH in Mod. lia. }
  unfold startCapture, stopCapture, setRxMode. cbn [bc7215 set_bc7215]. fold s.
  assert (MH : modIsHigh (setRx (setTx s)) = true).
  { unfold setRx, setTx, modIsHigh. destruct G as [G | [G G1]].
    - rewrite G. simp_state. rewrite G. simp_state. rewrite G.
      cbn [andb eqb HIGH]. apply orb_true_r.
    - rewrite G. simp_state. rewrite G. simp_state. rewrite G1. reflexivity. }
  rewrite MH.
  assert (Fc : busFree (setRx (setTx s))).
  { unfold busFree, setRx, setTx in *. split_ifs; exact F. }
  rewrite (sendOneByte_free 1 _ Fc). cbn [mbind option_bind].
  eexists. split; [reflexivity|].
  unfold clrFormat, clrData, setRx, setTx, modIsLow.
  destruct G as [G | [G G1]].
  - rewrite G. simp_state. rewrite G. simp_state. rewrite G, N2.
    do 7 (split; [reflexivity|]). intros I. inv_solve.
  - rewrite G. simp_state. rewrite G. simp_state. rewrite G, N2.
    do 7 (split; [reflexivity|]). intros I. inv_solve.
Qed.

(** X20. A capture session.  Starting from a reachable driver whose MOD
    line is tied high or wired to a pin, whose BUSY line does not block
    sending, and which has neither unread bytes nor a pending escape byte:
    [stopCapture] then [startCapture] put it in receive mode and send the
    receive-mode command 1.  When then a data packet arrives that is well
    formed (error bit clear, as many payload bytes as its bit length
    announces) and small enough to share the buffer with a format packet
    (payload + 3 + 33 <= 84), followed by a format packet whose last three
    bytes do not themselves read as the trailer of a 33-byte data packet,
    and the wrapper's [rcvdFmt] has its 32 format bytes and [rcvdData] room
    for the payload, [signalCaptured()] returns true and the wrapper holds
    the sample: format packet, data packet and status byte. *)
Theorem capture_session a payload status bitLength sig fmt :
  let s := bc7215 a in
  reachable s -> (modPin s = MOD_HIGH \/ 0 <= modPin s) -> busFree s ->
  previousData s <> 0x7b -> uart_rx s = [] ->
  0 <= bitLength < 65536 ->
  (bitLength + 7) / 8 = Z.of_nat (length payload) ->
  Z.of_nat (length payload) + 3 + sizeof_bc7215FormatPkt_t <= BC7215_BUFFER_SIZE ->
  0 <= status < 128 ->
  length fmt = 32%nat ->
  ~ (Z.land (default 0 (fmt !! 29%nat)) 0x80 = 0 /\
     (Z.lor (Z.shiftl (default 0 (fmt !! 31%nat)) 8) (default 0 (fmt !! 30%nat)) + 7) / 8 + 3
     = sizeof_bc7215FormatPkt_t) ->
  length (format (rcvdFmt a)) = 32%nat ->
  (length payload <= length (pkt_data (rcvdData a)))%nat ->
  let wire := stuffed (dataFrame payload status bitLength) ++ [0x7a]
              ++ stuffed (sig :: fmt) ++ [0x7a; 0x7a] in
  exists a1 a2,
    startCapture (stopCapture a) = Some a1 /\
    uart_tx (bc7215 a1) = uart_tx s ++ [1] /\
    signalCaptured (set_bc7215 (arrive wire (bc7215 a1)) a1) = Some (a2, true) /\
    sampleReady a2 = true /\
    rcvdFmt a2 = mkFormatPkt sig fmt /\
    rcvdData a2 =
      mkDataPkt bitLength (payload ++ drop (length payload) (pkt_data (rcvdData a))) /\
    rcvdStatus a2 = status.
Proof.
  intros s R Mod F Pb E HL Hp Hmax Hst Lf Tail Lft Ht wire.
  destruct (startCapture_ready a Mod F)
    as (c1 & S1 & M1 & St1 & _ & _ & Pd1 & Rx1 & Tx1 & I1).
  fold s in Pd1, Rx1, Tx1, I1.
  specialize (I1 (reachable_Inv s R)).
  assert (Pb1 : previousData c1 <> 0x7b) by (now rewrite Pd1).
  assert (E1 : uart_rx c1 = []) by (now rewrite Rx1).
  destruct (composite_states c1 payload status bitLength sig fmt
              I1 M1 St1 Pb1 E1 HL Hp Hmax Hst Lf Tail)
    as (s3 & SU & U & F3 & D3 & _ & _ & GF & GD).
  fold wire in SU.
  exists (set_sampleReady false (set_bc7215 c1 a)).
  exists (mkBC7215AC (set_dataPktReady false (set_formatPktReady false s3))
            (initOK a) true (mkFormatPkt sig fmt)
            (mkDataPkt bitLength
               (payload ++ drop (length payload) (pkt_data (rcvdData a)))) status).
  split; [exact S1|]. split; [exact Tx1|].
  split; [| cbn [sampleReady rcvdFmt rcvdData rcvdStatus]; auto].
  unfold signalCaptured.
  cbn [bc7215 set_bc7215 set_sampleReady rcvdFmt rcvdData initOK].
  unfold arrive. rewrite E1, app_nil_l, formatReady_eq, SU, F3.
  rewrite (GF (rcvdFmt a) Lft), (GD (rcvdData a) Ht). reflexivity.
Qed.

Lemma capture_session_witness :
  exists a1 a2,
    startCapture (stopCapture (newBC7215AC rx0 (mkFormatPkt 0 (repeat 0 32))
                                 (mkDataPkt 0 (repeat 0 48)) 0)) = Some a1 /\
    signalCaptured
      (set_bc7215
         (arrive (stuffed (dataFrame [0x7a; 0x0b] 0x05 12) ++ [0x7a]
                  ++ stuffed (0x34 :: repeat 0x7b 32) ++ [0x7a; 0x7a]) (bc7215 a1))
         a1) = Some (a2, true) /\
    rcvdFmt a2 = mkFormatPkt 0x34 (repeat 0x7b 32) /\
    rcvdStatus a2 = 0x05.
Proof.
  destruct (capture_session
              (newBC7215AC rx0 (mkFormatPkt 0 (repeat 0 32)) (mkDataPkt 0 (repeat 0 48)) 0)
              [0x7a; 0x0b] 0x05 12 0x34 (repeat 0x7b 32))
    as (a1 & a2 & S1 & _ & C & _ & Fm & _ & Sb); try reflexivity; try lia.
  - apply (reach_step CallSetTx rx0); [apply reach_init | reflexivity].
  - left. reflexivity.
  - left. reflexivity.
  - vm_compute. discriminate.
  - cbn [length]. change BC7215_BUFFER_SIZE with 84.
    change sizeof_bc7215FormatPkt_t with 33. lia.
  - vm_compute. intros [_ H]. discriminate H.
  - cbn [length pkt_data rcvdData newBC7215AC]. rewrite repeat_length. lia.
  - exists a1, a2. auto.
Defined.

(** ** Signature flags *)

(** X21. Each of [setC56K], [clrC56K], [setNOCA], [clrNOCA] writes its own
    flag and nothing else: the 6-bit protocol signature, the other flag and
    the 32 format bytes stay as they were, and the signature stays a byte. *)
Theorem signature_flags_independent f :
  is_byte (signature f) ->
  (c56k_bit (setC56K f) = true /\ c56k_bit (clrC56K f) = false /\
   noCA_bit (setNOCA f) = true /\ noCA_bit (clrNOCA f) = false) /\
  (noCA_bit (setC56K f) = noCA_bit f /\ noCA_bit (clrC56K f) = noCA_bit f /\
   c56k_bit (setNOCA f) = c56k_bit f /\ c56k_bit (clrNOCA f) = c56k_bit f) /\
  (forall g, In g [setC56K; clrC56K; setNOCA; clrNOCA] ->
     sig_bits (g f) = sig_bits f /\ format (g f) = format f /\
     is_byte (signature (g f))).
Proof.
  intros B. destruct f as [sig fm]. cbn [signature] in B.
  unfold c56k_bit, noCA_bit, sig_bits, setC56K, clrC56K, setNOCA, clrNOCA, is_byte.
  cbn [signature format In].
  set (P := fun x =>
    Z.testbit (Z.lor x 0x40) 6 && negb (Z.testbit (Z.land x 0xbf) 6)
    && Z.testbit (Z.lor x 0x80) 7 && negb (Z.testbit (Z.land x 0x7f) 7)
    && Bool.eqb (Z.testbit (Z.lor x 0x40) 7) (Z.testbit x 7)
    && Bool.eqb (Z.testbit (Z.land x 0xbf) 7) (Z.testbit x 7)
    && Bool.eqb (Z.testbit (Z.lor x 0x80) 6) (Z.testbit x 6)
    && Bool.eqb (Z.testbit (Z.land x 0x7f) 6) (Z.testbit x 6)
    && (Z.land (Z.lor x 0x40) 0x3f =? Z.land x 0x3f)
    && (Z.land (Z.land x 0xbf) 0x3f =? Z.land x 0x3f)
    && (Z.land (Z.lor x 0x80) 0x3f =? Z.land x 0x3f)
    && (Z.land (Z.land x 0x7f) 0x3f =? Z.land x 0x3f)
    && (Z.lor x 0x40 <? 256) && (0 <=? Z.lor x 0x40)
    && (Z.land x 0xbf <? 256) && (0 <=? Z.land x 0xbf)
    && (Z.lor x 0x80 <? 256) && (0 <=? Z.lor x 0x80)
    && (Z.land x 0x7f <? 256) && (0 <=? Z.land x 0x7f)).
  assert (A : forallb P (seqZ 0 256) = true) by (vm_compute; reflexivity).
  pose proof (forall_bytes P A sig B) as H. unfold P in H.
  repeat (apply andb_prop in H; destruct H as [H ?]).
  repeat match goal with
         | X : negb _ = true |- _ => apply negb_true_iff in X
         | X : Bool.eqb _ _ = true |- _ => apply Bool.eqb_prop in X
         | X : (_ =? _) = true |- _ => apply Z.eqb_eq in X
         | X : (_ <? _) = true |- _ => apply Z.ltb_lt in X
         | X : (_ <=? _) = true |- _ => apply Z.leb_le in X
         end.
  split; [auto|]. split; [auto|].
  intros g [<- | [<- | [<- | [<- | []]]]]; cbn [signature format]; auto.
Qed.

Lemma signature_flags_independent_witness :
  signature (setC56K (mkFormatPkt 0x34 [])) = 0x74 /\
  sig_bits (setNOCA (setC56K (mkFormatPkt 0x34 []))) = 0x34 /\
  c56k_bit (clrNOCA (setC56K (mkFormatPkt 0x34 []))) = true.
Proof.
  split; [reflexivity|].
  destruct (signature_flags_independent (setC56K (mkFormatPkt 0x34 [])))
    as (_ & (_ & _ & _ & C) & S); [vm_compute; split; [discriminate | reflexivity]|].
  destruct (signature_flags_independent (mkFormatPkt 0x34 []))
    as ((C0 & _) & _ & _); [vm_compute; split; [discriminate | reflexivity]|].
  split.
  - destruct (S setNOCA) as (S1 & _); [cbn [In]; auto|].
    rewrite S1. reflexivity.
  - rewrite C. exact C0.
Defined.
